(** * Sclera Dashboard: onboarding walkthrough and result aggregation

    A shallow embedding of [static/js/onboarding.js] (class
    [OnboardingManager]) and of [functions/index.js] (the Firestore
    triggers), with the properties of the specification stated over it.

    Conventions of the embedding.
    - JavaScript numbers that hold indices, counts and times are [Z];
      pixel coordinates are exact rationals [Q] (their rounding is not
      modelled); the progress percentage and the numbers sent to the
      store are IEEE 754 doubles ([Number.t], with the arithmetic of
      [SpecFloat]).
    - [localStorage] and the Firestore documents are finite maps ([gmap]).
    - [setTimeout] appends a task to a queue of pending timers, each with
      its due time; the event loop fires the earliest one first.
    - A dereference of [null]/[undefined] raises: methods that can do so
      return an [Outcome], either [Done] or [TypeError], both with the
      state reached (mutations made before a throw persist). *)

From Stdlib Require Import ZArith QArith Qminmax Lqa Lia String Ascii List SpecFloat.
From stdpp Require Import base gmap strings list.
Import ListNotations.

Local Open Scope Z_scope.
Local Open Scope string_scope.

(** The double-quote character, for selectors such as [a[href*=...]]. *)
Definition dquote : string := String (ascii_of_nat 34) EmptyString.

(** ** JavaScript numbers: IEEE 754 binary64 *)
Module Number.

Definition t : Set := spec_float.

Definition prec : Z := 53.
Definition emax : Z := 1024.

(** An integer as a number, rounded to the nearest double (ties to even). *)
Definition ofZ (z : Z) : t := binary_normalize prec emax z 0 false.

Definition add : t -> t -> t := SFadd prec emax.
Definition mul : t -> t -> t := SFmul prec emax.
Definition div : t -> t -> t := SFdiv prec emax.

(** [ToBoolean]: [+0], [-0] and [NaN] are falsy. *)
Definition truthy (x : t) : bool :=
  match x with
  | S754_zero _ | S754_nan => false
  | _ => true
  end.

(** The integer a number is equal to, if it is one. *)
Definition toInteger (x : t) : option Z :=
  match x with
  | S754_zero _ => Some 0
  | S754_finite s m e =>
      if (0 <=? e)%Z then Some (cond_Zopp s (Zpos m * 2 ^ e))
      else if (Zpos m mod 2 ^ (- e) =? 0)%Z then Some (cond_Zopp s (Zpos m / 2 ^ (- e)))
      else None
  | _ => None
  end.

Definition MAX_SAFE_INTEGER : Z := 2 ^ 53 - 1.

(** [Number.isSafeInteger(x)], with the integer. *)
Definition safeInteger (x : t) : option Z :=
  match toInteger x with
  | Some z => if (Z.abs z <=? MAX_SAFE_INTEGER)%Z then Some z else None
  | None => None
  end.

Arguments ofZ : simpl never.
Arguments add : simpl never.
Arguments mul : simpl never.
Arguments div : simpl never.

End Number.

(** ** Geometry: the fields of a [DOMRect] the code reads *)
Module DOMRect.
Record t : Type := mk {
  top : Q; left : Q; width : Q; height : Q; bottom : Q; right : Q }.
End DOMRect.

Module Onboarding.

(** *** Step descriptors, as the object literals of [getTutorialSteps] *)
Record Step : Type := mkStep {
  target : string;
  title : string;
  description : string;
  position : string;
  highlight : option string }.

(** *** The page around the manager: what the DOM answers when asked *)
Record TargetElem : Type := mkTarget {
  elemId : nat;
  boundingRect : DOMRect.t }.

Record Page : Type := mkPage {
  accountType : option string;               (* document.body.dataset.accountType *)
  querySelector : string -> option TargetElem; (* document.querySelector(step.target) *)
  calloutRect : DOMRect.t;                   (* this.callout.getBoundingClientRect() *)
  innerWidth : Q;                            (* window.innerWidth *)
  innerHeight : Q }.                         (* window.innerHeight *)

(** *** Elements the manager itself creates and appends to [document.body] *)
Record CalloutView : Type := mkView {
  titleText : string;          (* .onboarding-callout-title *)
  descriptionText : string;    (* .onboarding-callout-description *)
  currentStepText : Z;         (* .current-step *)
  totalStepsText : Z;          (* .total-steps *)
  progressWidth : option Number.t; (* .onboarding-progress-fill style.width, in percent *)
  prevDisabled : bool;         (* .onboarding-btn-prev disabled *)
  prevOpacity : string;        (* .onboarding-btn-prev style.opacity *)
  nextText : string;           (* .onboarding-btn-next *)
  dataPosition : option string;(* data-position attribute *)
  styleTop : option Q;         (* style.top, in px *)
  styleLeft : option Q }.      (* style.left, in px *)

Record Element : Type := mkElement {
  className : string;
  active : bool;               (* classList contains 'active' *)
  attached : bool;             (* still a child of document.body *)
  view : option CalloutView }. (* the callout's inner fields; None for static markup *)

(** *** Scheduled continuations ([setTimeout] callbacks) *)
Inductive Task : Type :=
| TStartTutorial                 (* () => this.startTutorial() *)
| TShowWelcomeModal              (* () => this.showWelcomeModal() *)
| TShowStep (i : Z)              (* () => this.showStep(0) *)
| TShowStepRel (d : Z)           (* () => this.showStep(this.currentStep + d) *)
| TAddActive (e : nat)           (* () => el.classList.add('active'), el a local *)
| TRemove (e : nat)              (* () => el.remove(), el a local *)
| TOverlayAddActive              (* () => this.overlay.classList.add('active') *)
| TCalloutRemove                 (* () => this.callout.remove() *)
| TOverlayRemove                 (* () => this.overlay.remove() *)
| TDismissMessage (e : nat).     (* the 4000 ms callback of showCompletionMessage *)

(** *** Outbound requests ([fetch]) *)
Inductive JsonValue : Type :=
| JBool (b : bool)
| JString (s : string).

Record Request : Type := mkRequest {
  url : string;
  method : string;
  contentType : string;
  body : list (string * JsonValue) }.   (* the object given to JSON.stringify *)

(** *** The fields of [this] *)
Record Manager : Type := mkManager {
  currentStep : Z;
  isActive : bool;
  tutorialSteps : list Step;
  overlay : option nat;
  callout : option nat;
  hasCompletedTutorial : bool }.

(** *** The browser state the manager reads and writes *)
Record Browser : Type := mkBrowser {
  localStorage : gmap string string;
  search : list (string * string);     (* window.location.search, parsed *)
  elements : list Element;             (* created elements, by identity *)
  bodyOnboardingActive : bool;         (* body.classList has 'onboarding-active' *)
  highlighted : option (nat * list string); (* page element carrying the highlight classes *)
  scrolledTo : list nat;               (* scrollIntoView calls, oldest first *)
  timers : list (Z * Task);            (* pending timers: due time, callback *)
  clock : Z;                           (* current time, ms *)
  network : list Request;              (* fetch calls issued, oldest first *)
  console : list string;               (* console.log lines *)
  listening : bool }.                  (* a 'startTutorial' listener is registered *)

Record State : Type := mkState { this : Manager; browser : Browser }.

Inductive Outcome : Type :=
| Done (s : State)
| TypeError (s : State).

Definition state_of (o : Outcome) : State :=
  match o with Done s => s | TypeError s => s end.

Definition andThen (o : Outcome) (k : State -> Outcome) : Outcome :=
  match o with Done s => k s | TypeError s => TypeError s end.

Notation "o >>= k" := (andThen o k) (at level 50, left associativity).

(** *** Field updates *)
Definition with_this (f : Manager -> Manager) (s : State) : State :=
  {| this := f (this s); browser := browser s |}.
Definition with_browser (f : Browser -> Browser) (s : State) : State :=
  {| this := this s; browser := f (browser s) |}.

Definition set_currentStep (v : Z) : State -> State :=
  with_this (fun m => mkManager v (isActive m) (tutorialSteps m) (overlay m)
                                (callout m) (hasCompletedTutorial m)).
Definition set_isActive (v : bool) : State -> State :=
  with_this (fun m => mkManager (currentStep m) v (tutorialSteps m) (overlay m)
                                (callout m) (hasCompletedTutorial m)).
Definition set_tutorialSteps (v : list Step) : State -> State :=
  with_this (fun m => mkManager (currentStep m) (isActive m) v (overlay m)
                                (callout m) (hasCompletedTutorial m)).
Definition set_overlay (v : option nat) : State -> State :=
  with_this (fun m => mkManager (currentStep m) (isActive m) (tutorialSteps m) v
                                (callout m) (hasCompletedTutorial m)).
Definition set_callout (v : option nat) : State -> State :=
  with_this (fun m => mkManager (currentStep m) (isActive m) (tutorialSteps m)
                                (overlay m) v (hasCompletedTutorial m)).
Definition set_hasCompletedTutorial (v : bool) : State -> State :=
  with_this (fun m => mkManager (currentStep m) (isActive m) (tutorialSteps m)
                                (overlay m) (callout m) v).

Definition set_localStorage (v : gmap string string) : State -> State :=
  with_browser (fun b => mkBrowser v (search b) (elements b) (bodyOnboardingActive b)
    (highlighted b) (scrolledTo b) (timers b) (clock b) (network b) (console b) (listening b)).
Definition set_search (v : list (string * string)) : State -> State :=
  with_browser (fun b => mkBrowser (localStorage b) v (elements b) (bodyOnboardingActive b)
    (highlighted b) (scrolledTo b) (timers b) (clock b) (network b) (console b) (listening b)).
Definition set_elements (v : list Element) : State -> State :=
  with_browser (fun b => mkBrowser (localStorage b) (search b) v (bodyOnboardingActive b)
    (highlighted b) (scrolledTo b) (timers b) (clock b) (network b) (console b) (listening b)).
Definition set_bodyOnboardingActive (v : bool) : State -> State :=
  with_browser (fun b => mkBrowser (localStorage b) (search b) (elements b) v
    (highlighted b) (scrolledTo b) (timers b) (clock b) (network b) (console b) (listening b)).
Definition set_highlighted (v : option (nat * list string)) : State -> State :=
  with_browser (fun b => mkBrowser (localStorage b) (search b) (elements b)
    (bodyOnboardingActive b) v (scrolledTo b) (timers b) (clock b) (network b) (console b)
    (listening b)).
Definition set_scrolledTo (v : list nat) : State -> State :=
  with_browser (fun b => mkBrowser (localStorage b) (search b) (elements b)
    (bodyOnboardingActive b) (highlighted b) v (timers b) (clock b) (network b) (console b)
    (listening b)).
Definition set_timers (v : list (Z * Task)) : State -> State :=
  with_browser (fun b => mkBrowser (localStorage b) (search b) (elements b)
    (bodyOnboardingActive b) (highlighted b) (scrolledTo b) v (clock b) (network b) (console b)
    (listening b)).
Definition set_clock (v : Z) : State -> State :=
  with_browser (fun b => mkBrowser (localStorage b) (search b) (elements b)
    (bodyOnboardingActive b) (highlighted b) (scrolledTo b) (timers b) v (network b) (console b)
    (listening b)).
Definition set_network (v : list Request) : State -> State :=
  with_browser (fun b => mkBrowser (localStorage b) (search b) (elements b)
    (bodyOnboardingActive b) (highlighted b) (scrolledTo b) (timers b) (clock b) v (console b)
    (listening b)).
Definition set_console (v : list string) : State -> State :=
  with_browser (fun b => mkBrowser (localStorage b) (search b) (elements b)
    (bodyOnboardingActive b) (highlighted b) (scrolledTo b) (timers b) (clock b) (network b) v
    (listening b)).
Definition set_listening (v : bool) : State -> State :=
  with_browser (fun b => mkBrowser (localStorage b) (search b) (elements b)
    (bodyOnboardingActive b) (highlighted b) (scrolledTo b) (timers b) (clock b) (network b)
    (console b) v).

(** *** Browser primitives *)

(** [localStorage.getItem(k)] as a JavaScript truth value: a missing key
    gives [null] and an empty string is falsy too. *)
Definition truthyItem (k : string) (s : State) : bool :=
  match localStorage (browser s) !! k with
  | Some v => negb (String.eqb v EmptyString)
  | None => false
  end.

Definition setItem (k v : string) (s : State) : State :=
  set_localStorage (<[k := v]> (localStorage (browser s))) s.

Definition removeItem (k : string) (s : State) : State :=
  set_localStorage (delete k (localStorage (browser s))) s.

(** [new URLSearchParams(window.location.search).get(k)]: the first value. *)
Fixpoint searchGet (k : string) (ps : list (string * string)) : option string :=
  match ps with
  | [] => None
  | (k', v) :: rest => if String.eqb k' k then Some v else searchGet k rest
  end.

Definition setTimeout (t : Task) (delay : Z) (s : State) : State :=
  set_timers (timers (browser s) ++ [(clock (browser s) + delay, t)]) s.

(** [document.createElement('div')], [className]/[innerHTML] assignment and
    [document.body.appendChild]: the new element's identity and the state. *)
Definition appendElement (cls : string) (v : option CalloutView) (s : State)
  : nat * State :=
  (length (elements (browser s)),
   set_elements (elements (browser s) ++ [mkElement cls false true v]) s).

Definition updElement (f : Element -> Element) (e : nat) (s : State) : State :=
  set_elements (alter f e (elements (browser s))) s.

Definition classListAddActive : nat -> State -> State :=
  updElement (fun el => mkElement (className el) true (attached el) (view el)).
Definition classListRemoveActive : nat -> State -> State :=
  updElement (fun el => mkElement (className el) false (attached el) (view el)).
Definition removeElement : nat -> State -> State :=
  updElement (fun el => mkElement (className el) (active el) false (view el)).
Definition updView (f : CalloutView -> CalloutView) : nat -> State -> State :=
  updElement (fun el => mkElement (className el) (active el) (attached el) (f <$> view el)).

(** [document.querySelector('.' + cls)] over the created elements: the first
    one in document order that is still attached. *)
Fixpoint firstAttached (cls : string) (els : list Element) (i : nat) : option nat :=
  match els with
  | [] => None
  | el :: rest =>
      if String.eqb (className el) cls && attached el then Some i
      else firstAttached cls rest (S i)
  end.

Definition queryCreated (cls : string) (s : State) : option nat :=
  firstAttached cls (elements (browser s)) 0%nat.

(** ** The methods of [OnboardingManager] *)

(** [checkTutorialStatus()] *)
Definition checkTutorialStatus (ls : gmap string string) : bool :=
  match ls !! "sclera_tutorial_completed" with
  | Some v => String.eqb v "true"
  | None => false
  end.

(** [showWelcomeModal()] *)
Definition showWelcomeModal (s : State) : State :=
  let '(modal, s1) := appendElement "onboarding-modal-overlay" None s in
  setTimeout (TAddActive modal) 10 s1.

(** The student catalog of [getTutorialSteps()]. *)
Definition studentSteps : list Step :=
  [ mkStep ".bento-profile" "Your Profile"
      "Access your profile settings and personal information. Click here to customize your account."
      "bottom" None;
    mkStep ".bento-streak" "Study Streak"
      "Track your daily study consistency. Build momentum by studying every day to maintain your streak!"
      "bottom" None;
    mkStep ".bento-explore" "Career Exploration"
      "Discover career paths that match your interests. Explore different fields and plan your future."
      "bottom" None;
    mkStep ".bento-perf" "Analytics Dashboard"
      "View detailed insights about your study patterns, time spent, and performance trends over time."
      "bottom" None;
    mkStep ".bento-academic" "Academic Progress"
      "Monitor your overall academic progress across all subjects. See completion rates and chapter statistics."
      "right" None;
    mkStep ".bento-schedule" "Calendar"
      "Manage your schedule, view upcoming events, and plan your study sessions effectively."
      "left" None;
    mkStep ".bento-tasks" "Task Management"
      "Create, track, and complete tasks. Stay organized and boost your productivity."
      "top" None;
    mkStep ".bento-subjects" "Subject Mastery"
      "Track progress in individual subjects. See detailed breakdowns of your mastery in each area."
      "top" None;
    mkStep ("a[href*=" ++ dquote ++ "/dashboard" ++ dquote ++ "]") "Home"
      "Return to this main dashboard view anytime to see your overview."
      "bottom" (Some "notch");
    mkStep ("a[href*=" ++ dquote ++ "/calendar" ++ dquote ++ "]") "Calendar View"
      "Access your full calendar with detailed event management and scheduling tools."
      "bottom" (Some "notch");
    mkStep ("a[href*=" ++ dquote ++ "/academic" ++ dquote ++ "]") "Academic Dashboard"
      "Deep dive into your academic progress, syllabus, and subject-specific details."
      "bottom" (Some "notch");
    mkStep ("a[href*=" ++ dquote ++ "/study-mode" ++ dquote ++ "]") "Study Mode"
      "Enter focused study sessions with timers, break reminders, and distraction-free environment."
      "bottom" (Some "notch");
    mkStep ("a[href*=" ++ dquote ++ "/interests" ++ dquote ++ "]") "Career Center"
      "Explore careers, courses, and internships. Plan your professional journey."
      "bottom" (Some "notch");
    mkStep ("a[href*=" ++ dquote ++ "/community" ++ dquote ++ "]") "Community"
      "Connect with other learners, share knowledge, and collaborate on projects."
      "bottom" (Some "notch");
    mkStep ("a[href*=" ++ dquote ++ "/master-library" ++ dquote ++ "]") "Library"
      "Access your study materials, notes, and resources in one organized place."
      "bottom" (Some "notch");
    mkStep ("a[href*=" ++ dquote ++ "/ai-assistant" ++ dquote ++ "]") "AI Assistant"
      "Get instant help with your studies. Ask questions and receive personalized guidance."
      "bottom" (Some "notch");
    mkStep ("a[href*=" ++ dquote ++ "/docs" ++ dquote ++ "]") "Documentation"
      "Access help articles, guides, and tutorials to make the most of Sclera."
      "bottom" (Some "notch");
    mkStep ("a[href*=" ++ dquote ++ "/statistics" ++ dquote ++ "]") "Statistics"
      "View comprehensive analytics, charts, and insights about your learning journey."
      "bottom" (Some "notch");
    mkStep "#themeToggle" "Theme Toggle"
      "Switch between dark and light modes to match your preference."
      "bottom" (Some "action");
    mkStep ".profile-btn" "Profile Menu"
      "Access settings, logout, and other account options from this menu."
      "bottom" (Some "action") ].

(** [getTutorialSteps()] *)
Definition getTutorialSteps (page : Page) : list Step :=
  let accountType :=
    match accountType page with
    | Some a => if String.eqb a EmptyString then "student" else a
    | None => "student"
    end in
  if String.eqb accountType "student" then studentSteps else [].

(** [createOverlay()] *)
Definition createOverlay (s : State) : State :=
  let '(o, s1) := appendElement "onboarding-overlay" None s in
  setTimeout TOverlayAddActive 10 (set_overlay (Some o) s1).

(** The callout as its template leaves it: Step 1 of 0, nothing positioned. *)
Definition calloutTemplate : CalloutView :=
  mkView EmptyString EmptyString 1 0 None false EmptyString "Next" None None None.

(** [createCallout()] *)
Definition createCallout (s : State) : State :=
  let '(c, s1) := appendElement "onboarding-callout" (Some calloutTemplate) s in
  set_callout (Some c) s1.

(** The modal-closing prologue shared by [startTutorial] and [skipTutorial]. *)
Definition closeWelcomeModal (s : State) : State :=
  match queryCreated "onboarding-modal-overlay" s with
  | Some modal => setTimeout (TRemove modal) 300 (classListRemoveActive modal s)
  | None => s
  end.

(** [startTutorial()] *)
Definition startTutorial (page : Page) (s : State) : State :=
  let s := closeWelcomeModal s in
  let s := set_tutorialSteps (getTutorialSteps page) s in
  let s := set_currentStep 0 s in
  let s := set_isActive true s in
  let s := set_bodyOnboardingActive true s in
  let s := createOverlay s in
  let s := createCallout s in
  setTimeout (TShowStep 0) 500 s.

(** [highlightElement(element, step)] *)
Definition highlightElement (element : TargetElem) (step : Step) (s : State) : State :=
  let classes :=
    match highlight step with
    | Some h =>
        if String.eqb h "notch" then ["onboarding-highlight"; "onboarding-highlight-notch"]
        else if String.eqb h "action"
             then ["onboarding-highlight"; "onboarding-highlight-action"]
             else ["onboarding-highlight"]
    | None => ["onboarding-highlight"]
    end in
  set_highlighted (Some (elemId element, classes)) (set_highlighted None s).

(** *** Callout placement ([positionCallout]) *)
Definition spacing : Q := 20%Q.

(** The [switch (position)]: the recorded side, [top] and [left]. *)
Definition placeBeside (targetRect calloutRect : DOMRect.t) (position : string)
  : string * Q * Q :=
  let below :=
    ("bottom",
     DOMRect.bottom targetRect + spacing,
     DOMRect.left targetRect + DOMRect.width targetRect / 2
       - DOMRect.width calloutRect / 2)%Q in
  if String.eqb position "top" then
    ("top",
     DOMRect.top targetRect - DOMRect.height calloutRect - spacing,
     DOMRect.left targetRect + DOMRect.width targetRect / 2
       - DOMRect.width calloutRect / 2)%Q
  else if String.eqb position "bottom" then below
  else if String.eqb position "left" then
    ("left",
     DOMRect.top targetRect + DOMRect.height targetRect / 2
       - DOMRect.height calloutRect / 2,
     DOMRect.left targetRect - DOMRect.width calloutRect - spacing)%Q
  else if String.eqb position "right" then
    ("right",
     DOMRect.top targetRect + DOMRect.height targetRect / 2
       - DOMRect.height calloutRect / 2,
     DOMRect.right targetRect + spacing)%Q
  else below.

(** The four [if]s that keep the callout within the viewport. *)
Definition keepLeft (calloutRect : DOMRect.t) (viewportWidth left : Q) : Q :=
  let left := if Qlt_le_dec left spacing then spacing else left in
  if Qlt_le_dec (viewportWidth - spacing) (left + DOMRect.width calloutRect)
  then (viewportWidth - DOMRect.width calloutRect - spacing)%Q else left.

Definition keepTop (calloutRect : DOMRect.t) (viewportHeight top : Q) : Q :=
  let top := if Qlt_le_dec top spacing then spacing else top in
  if Qlt_le_dec (viewportHeight - spacing) (top + DOMRect.height calloutRect)
  then (viewportHeight - DOMRect.height calloutRect - spacing)%Q else top.

(** What [positionCallout] writes: [data-position], [style.top], [style.left]. *)
Definition calloutPlacement (page : Page) (targetRect : DOMRect.t) (position : string)
  : string * Q * Q :=
  let '(side, top0, left0) := placeBeside targetRect (calloutRect page) position in
  (side,
   keepTop (calloutRect page) (innerHeight page) top0,
   keepLeft (calloutRect page) (innerWidth page) left0).

(** [positionCallout(targetElement, position)], on the callout element [c]. *)
Definition positionCallout (page : Page) (c : nat) (targetElement : TargetElem)
    (position : string) (s : State) : State :=
  let '(side, top1, left1) := calloutPlacement page (boundingRect targetElement) position in
  updView (fun v => mkView (titleText v) (descriptionText v) (currentStepText v)
                      (totalStepsText v) (progressWidth v) (prevDisabled v) (prevOpacity v)
                      (nextText v) (Some side) (Some top1) (Some left1)) c s.

(** [endTutorial()] *)
Definition endTutorial (s : State) : State :=
  let s := set_isActive false s in
  let s := set_bodyOnboardingActive false s in
  let s := set_highlighted None s in
  let s := match callout (this s) with
           | Some c => setTimeout TCalloutRemove 300 (classListRemoveActive c s)
           | None => s
           end in
  match overlay (this s) with
  | Some o => setTimeout TOverlayRemove 300 (classListRemoveActive o s)
  | None => s
  end.

(** [showCompletionMessage()] *)
Definition showCompletionMessage (s : State) : State :=
  let '(message, s1) := appendElement "onboarding-completion-message" None s in
  setTimeout (TDismissMessage message) 4000 (setTimeout (TAddActive message) 10 s1).

(** The request of [completeTutorial]'s [fetch]. *)
Definition completionRequest : Request :=
  mkRequest "/api/tutorial/complete" "POST" "application/json" [("completed", JBool true)].

Definition fetch (r : Request) (s : State) : State :=
  set_network (network (browser s) ++ [r]) s.

(** The [.catch] handler of that [fetch], run if the promise rejects. *)
Definition fetchRejected (s : State) : State :=
  set_console (console (browser s) ++ ["Could not save tutorial status:"]) s.

(** [completeTutorial()] *)
Definition completeTutorial (s : State) : State :=
  let s := endTutorial s in
  let s := setItem "sclera_tutorial_completed" "true" s in
  let s := fetch completionRequest s in
  showCompletionMessage s.

(** [nextStep()] *)
Definition nextStep (s : State) : Outcome :=
  if (currentStep (this s) <? Z.of_nat (length (tutorialSteps (this s))) - 1)%Z then
    match callout (this s) with
    | Some c => Done (setTimeout (TShowStepRel 1) 300 (classListRemoveActive c s))
    | None => TypeError s
    end
  else Done (completeTutorial s).

(** [previousStep()] *)
Definition previousStep (s : State) : Outcome :=
  if (0 <? currentStep (this s))%Z then
    match callout (this s) with
    | Some c => Done (setTimeout (TShowStepRel (-1)) 300 (classListRemoveActive c s))
    | None => TypeError s
    end
  else Done s.

(** The callout fields [showStep] fills in for step [stepIndex]. *)
Definition renderStep (stepIndex : Z) (step : Step) (total : Z) (v : CalloutView)
  : CalloutView :=
  mkView (title step) (description step) (stepIndex + 1) total
    (Some (Number.mul (Number.div (Number.ofZ (stepIndex + 1)) (Number.ofZ total))
             (Number.ofZ 100)))
    (stepIndex =? 0)%Z
    (if (stepIndex =? 0)%Z then "0.5" else "1")
    (if (stepIndex =? total - 1)%Z then "Finish" else "Next")
    (dataPosition v) (styleTop v) (styleLeft v).

(** [showStep(stepIndex)] *)
Definition showStep (page : Page) (stepIndex : Z) (s : State) : Outcome :=
  let total := Z.of_nat (length (tutorialSteps (this s))) in
  if (stepIndex <? 0)%Z || (total <=? stepIndex)%Z then Done (endTutorial s)
  else
    let s := set_currentStep stepIndex s in
    match tutorialSteps (this s) !! Z.to_nat stepIndex with
    | None => TypeError s
    | Some step =>
        match querySelector page (target step) with
        | None => nextStep s
        | Some targetElement =>
            match callout (this s) with
            | None => TypeError s
            | Some c =>
                let s := updView (renderStep stepIndex step total) c s in
                let s := highlightElement targetElement step s in
                let s := positionCallout page c targetElement (position step) s in
                let s := set_scrolledTo
                           (scrolledTo (browser s) ++ [elemId targetElement]) s in
                Done (classListAddActive c s)
            end
        end
    end.

(** [skipTutorial()] *)
Definition skipTutorial (s : State) : State :=
  setItem "sclera_tutorial_skipped" "true" (closeWelcomeModal s).

(** [restartTutorial()] *)
Definition restartTutorial (page : Page) (s : State) : State :=
  let s := removeItem "sclera_tutorial_completed" s in
  let s := removeItem "sclera_tutorial_skipped" s in
  let s := set_hasCompletedTutorial false s in
  startTutorial page s.

(** [init()] *)
Definition init (s : State) : State :=
  let urlParams := search (browser s) in
  if match searchGet "tutorial" urlParams with
     | Some v => String.eqb v "start"
     | None => false
     end
  then setTimeout TStartTutorial 500 (set_search [] s)
  else
    let isFirstVisit := negb (truthyItem "sclera_visited" s) in
    let s := if isFirstVisit && negb (hasCompletedTutorial (this s))
             then setTimeout TShowWelcomeModal 800 (setItem "sclera_visited" "true" s)
             else s in
    set_listening true s.

(** A page load: the browser as it starts, with what persists across loads
    (the storage) and the URL's query. *)
Definition pageLoad (ls : gmap string string) (query : list (string * string)) : Browser :=
  mkBrowser ls query [] false None [] [] 0 [] [] false.

(** [new OnboardingManager()] *)
Definition newOnboardingManager (b : Browser) : State :=
  init (mkState (mkManager 0 false [] None None (checkTutorialStatus (localStorage b))) b).

(** ** The event loop *)

(** What a timer callback does when it fires. *)
Definition runTask (page : Page) (t : Task) (s : State) : Outcome :=
  match t with
  | TStartTutorial => Done (startTutorial page s)
  | TShowWelcomeModal => Done (showWelcomeModal s)
  | TShowStep i => showStep page i s
  | TShowStepRel d => showStep page (currentStep (this s) + d) s
  | TAddActive e => Done (classListAddActive e s)
  | TRemove e => Done (removeElement e s)
  | TOverlayAddActive =>
      match overlay (this s) with
      | Some o => Done (classListAddActive o s)
      | None => TypeError s
      end
  | TCalloutRemove =>
      match callout (this s) with
      | Some c => Done (removeElement c s)
      | None => TypeError s
      end
  | TOverlayRemove =>
      match overlay (this s) with
      | Some o => Done (removeElement o s)
      | None => TypeError s
      end
  | TDismissMessage e => Done (setTimeout (TRemove e) 300 (classListRemoveActive e s))
  end.

(** The earliest due time among the pending timers. *)
Fixpoint minDue (ts : list (Z * Task)) : option Z :=
  match ts with
  | [] => None
  | (d, _) :: rest =>
      match minDue rest with
      | Some m => Some (Z.min d m)
      | None => Some d
      end
  end.

(** Take the first timer due at [d] out of the queue. *)
Fixpoint takeDue (d : Z) (ts : list (Z * Task)) : option (Task * list (Z * Task)) :=
  match ts with
  | [] => None
  | (d', t) :: rest =>
      if (d' =? d)%Z then Some (t, rest)
      else match takeDue d rest with
           | Some (t', rest') => Some (t', (d', t) :: rest')
           | None => None
           end
  end.

(** One turn of the loop: the earliest timer (the oldest among equals) fires
    at its due time. An exception in a callback is reported and dropped, so
    the loop goes on from the state the callback left. *)
Definition fireNext (page : Page) (s : State) : option State :=
  match minDue (timers (browser s)) with
  | None => None
  | Some d =>
      match takeDue d (timers (browser s)) with
      | None => None
      | Some (t, rest) =>
          Some (state_of (runTask page t
                  (set_clock (Z.max (clock (browser s)) d) (set_timers rest s))))
      end
  end.

(** Let pending timers fire, at most [fuel] of them, until none is left. *)
Fixpoint runTimers (fuel : nat) (page : Page) (s : State) : State :=
  match fuel with
  | O => s
  | S fuel' =>
      match fireNext page s with
      | Some s' => runTimers fuel' page s'
      | None => s
      end
  end.

(** The states the loop passes through, one per timer fired. *)
Fixpoint timerTrace (fuel : nat) (page : Page) (s : State) : list State :=
  match fuel with
  | O => []
  | S fuel' =>
      match fireNext page s with
      | Some s' => s' :: timerTrace fuel' page s'
      | None => []
      end
  end.

(** The [k]-th pending timer fires (whatever its due time). *)
Definition fireAt (page : Page) (k : nat) (s : State) : State :=
  match timers (browser s) !! k with
  | Some (d, t) =>
      state_of (runTask page t
        (set_clock (Z.max (clock (browser s)) d)
           (set_timers (delete k (timers (browser s))) s)))
  | None => s
  end.

(** What can happen to a manager: a call of one of its methods (from a
    button's [onclick], the settings page or the 'startTutorial' event), a
    timer firing, the completion request failing. *)
Inductive Event : Type :=
| CallStartTutorial
| CallSkipTutorial
| CallEndTutorial
| CallNextStep
| CallPreviousStep
| CallCompleteTutorial
| CallRestartTutorial
| CallShowStep (i : Z)
| CallShowWelcomeModal
| DispatchStartTutorial
| TimerFires (k : nat)
| FetchRejects.

Definition handle (page : Page) (ev : Event) (s : State) : State :=
  match ev with
  | CallStartTutorial => startTutorial page s
  | CallSkipTutorial => skipTutorial s
  | CallEndTutorial => endTutorial s
  | CallNextStep => state_of (nextStep s)
  | CallPreviousStep => state_of (previousStep s)
  | CallCompleteTutorial => completeTutorial s
  | CallRestartTutorial => restartTutorial page s
  | CallShowStep i => state_of (showStep page i s)
  | CallShowWelcomeModal => showWelcomeModal s
  | DispatchStartTutorial => if listening (browser s) then startTutorial page s else s
  | TimerFires k => fireAt page k s
  | FetchRejects => fetchRejected s
  end.

(** A state is reachable when a page load followed by events leads to it;
    the page may differ from one event to the next. *)
Inductive reachable : State -> Prop :=
| reach_load ls query : reachable (newOnboardingManager (pageLoad ls query))
| reach_step page ev s : reachable s -> reachable (handle page ev s).

(** The spec's [advance()] and [retreat()]: the method call, then the
    transition it scheduled. *)
Definition advance (page : Page) (s : State) : State :=
  runTimers 1 page (state_of (nextStep s)).
Definition retreat (page : Page) (s : State) : State :=
  runTimers 1 page (state_of (previousStep s)).

End Onboarding.

(** ** The Firestore triggers of [functions/index.js] *)
Module Functions.

(** Field values of a document: the store keeps integers (64 bits) and
    doubles apart. *)
Inductive Value : Type :=
| VInteger (n : Z)
| VDouble (d : Number.t)
| VString (s : string)
| VTimestamp (t : Z).

(** The documents the trigger touches: [users/{userId}] (of which it reads
    [class_ids], an array of strings when present) and the documents it
    writes, by their path. *)
Record UserData : Type := mkUser { class_ids : option (list string) }.

Record Firestore : Type := mkFirestore {
  users : gmap string UserData;
  documents : gmap (list string) (gmap string Value) }.

(** [snap.data()] of the created exam result: [percentage] is a number
    when present. *)
Record ExamResult : Type := mkResult { percentage : option Number.t }.

(** The sentinels of [admin.firestore.FieldValue]. *)
Inductive FieldValue : Type :=
| Increment (n : Number.t)
| ServerTimestamp.

(** One [batch.set(summaryRef, data, { merge })]. *)
Record Write : Type := mkWrite {
  ref : list string;
  data : list (string * FieldValue);
  merge : bool }.

(** ** References: [collection(path)] and [doc(path)] *)

(** [relativePath.split('/')] *)
Fixpoint splitSlash (s : string) : list string :=
  match s with
  | EmptyString => [EmptyString]
  | String c rest =>
      if Ascii.eqb c "/" then EmptyString :: splitSlash rest
      else match splitSlash rest with
           | seg :: segs => String c seg :: segs
           | [] => [String c EmptyString]
           end
  end.

(** The segments a relative path adds: empty ones (a leading or trailing
    slash) are dropped. *)
Definition segmentsOf (relativePath : string) : list string :=
  List.filter (fun seg => negb (String.eqb seg EmptyString)) (splitSlash relativePath).

Fixpoint hasDoubleSlash (s : string) : bool :=
  match s with
  | EmptyString => false
  | String c rest =>
      match rest with
      | String c' _ => (Ascii.eqb c "/" && Ascii.eqb c' "/") || hasDoubleSlash rest
      | EmptyString => false
      end
  end.

(** The argument check of [collection()] and [doc()]: a non-empty string
    without [//]; anything else throws. *)
Definition validateResourcePath (resourcePath : string) : bool :=
  negb (String.eqb resourcePath EmptyString) && negb (hasDoubleSlash resourcePath).

Definition isDocument (path : list string) : bool :=
  (0 <? length path)%nat && Nat.even (length path).
Definition isCollection (path : list string) : bool := Nat.odd (length path).

(** [parent.collection(collectionPath)]: [None] when it throws. *)
Definition collection (parent : list string) (collectionPath : string)
  : option (list string) :=
  if validateResourcePath collectionPath then
    let path := (parent ++ segmentsOf collectionPath)%list in
    if isCollection path then Some path else None
  else None.

(** [parent.doc(documentPath)]: [None] when it throws. *)
Definition doc (parent : list string) (documentPath : string) : option (list string) :=
  if validateResourcePath documentPath then
    let path := (parent ++ segmentsOf documentPath)%list in
    if isDocument path then Some path else None
  else None.

(** [db.collection("classes").doc(classId).collection("class_summary").doc("latest")] *)
Definition summaryRef (classId : string) : option (list string) :=
  classes ← collection [] "classes";
  class ← doc classes classId;
  class_summary ← collection class "class_summary";
  doc class_summary "latest".

(** ** The handler *)

(** [result.percentage || 0]: absent, zero and NaN all give 0. *)
Definition percentageOrZero (result : ExamResult) : Number.t :=
  match percentage result with
  | Some p => if Number.truthy p then p else Number.ofZ 0
  | None => Number.ofZ 0
  end.

(** The object given to [batch.set]. *)
Definition summaryData (result : ExamResult) : list (string * FieldValue) :=
  [("total_assessments", Increment (Number.ofZ 1));
   ("total_score_sum", Increment (percentageOrZero result));
   ("last_updated", ServerTimestamp)].

(** The [for (const classId of classIds)] loop over the batch: [None] when
    building a reference throws, which leaves the loop and the handler. *)
Fixpoint forClassIds (result : ExamResult) (classIds : list string) (batch : list Write)
  : option (list Write) :=
  match classIds with
  | [] => Some batch
  | classId :: rest =>
      match summaryRef classId with
      | Some summaryRef =>
          forClassIds result rest (batch ++ [mkWrite summaryRef (summaryData result) true])%list
      | None => None
      end
  end.

(** How the handler ends: an early [return], an exception (the promise is
    rejected before [batch.commit()] is reached), or [return batch.commit()]. *)
Inductive Completion : Type :=
| Returns
| Throws
| Commits (batch : list Write).

(** The handler of [onResultCreated]. *)
Definition onResultCreated (db : Firestore) (result : ExamResult) (userId : string)
  : Completion :=
  match users db !! userId with
  | None => Returns
  | Some userData =>
      let classIds := default [] (class_ids userData) in
      if (length classIds =? 0)%nat then Returns
      else match forClassIds result classIds [] with
           | Some batch => Commits batch
           | None => Throws
           end
  end.

(** ** The store *)

Definition MAX_INT64 : Z := 2 ^ 63 - 1.
Definition MIN_INT64 : Z := - 2 ^ 63.

(** Integer overflow resolves to the largest magnitude integer. *)
Definition saturate (z : Z) : Z := Z.max MIN_INT64 (Z.min MAX_INT64 z).

(** How a number is sent: a safe integer other than [-0] as an integer,
    anything else as a double. *)
Definition encodeNumber (x : Number.t) : Value :=
  match x with
  | S754_zero true => VDouble x
  | _ => match Number.safeInteger x with
         | Some z => VInteger z
         | None => VDouble x
         end
  end.

(** The increment transform: integers add as integers, a double on either
    side makes both doubles, and a field that is missing or not a number
    is set to the operand. *)
Definition increment (operand : Value) (current : option Value) : Value :=
  match current, operand with
  | Some (VInteger a), VInteger b => VInteger (saturate (a + b))
  | Some (VInteger a), VDouble b => VDouble (Number.add (Number.ofZ a) b)
  | Some (VDouble a), VInteger b => VDouble (Number.add a (Number.ofZ b))
  | Some (VDouble a), VDouble b => VDouble (Number.add a b)
  | _, _ => operand
  end.

(** How the store resolves one field of a [set]. *)
Definition applyField (serverTime : Z) (fields : gmap string Value)
    (fv : string * FieldValue) : gmap string Value :=
  match fv.2 with
  | Increment n => <[fv.1 := increment (encodeNumber n) (fields !! fv.1)]> fields
  | ServerTimestamp => <[fv.1 := VTimestamp serverTime]> fields
  end.

Definition applyWrite (serverTime : Z) (db : Firestore) (w : Write) : Firestore :=
  let existing := default ∅ (documents db !! ref w) in
  let base := if merge w then existing else ∅ in
  mkFirestore (users db)
    (<[ref w := foldl (applyField serverTime) base (data w)]> (documents db)).

(** An accepted [batch.commit()]: the writes apply in order, all at
    [serverTime]. *)
Definition commit (serverTime : Z) (batch : list Write) (db : Firestore) : Firestore :=
  foldl (applyWrite serverTime) db batch.

(** One invocation of the trigger, against the store. The store takes a
    batch as a whole or not at all; [accepts] stands for its own checks
    (document ids it does not allow, its limits on a commit), which the
    handler does not see. *)
Definition resultCreated (accepts : Firestore -> list Write -> bool) (serverTime : Z)
    (db : Firestore) (result : ExamResult) (userId : string) : Firestore :=
  match onResultCreated db result userId with
  | Commits batch => if accepts db batch then commit serverTime batch db else db
  | Returns | Throws => db
  end.

(** [onStudySession]: computes a date key and an hour, and writes nothing. *)
Definition onStudySession (db : Firestore) (after : option (gmap string Value))
  : option (list Write) := None.

(** ** Reading the store back *)

Definition fieldsAt (db : Firestore) (path : list string) : gmap string Value :=
  default ∅ (documents db !! path).

Definition fieldAt (db : Firestore) (path : list string) (f : string) : option Value :=
  fieldsAt db path !! f.

(** The summary document of a class whose id is one path segment. *)
Definition summaryPath (classId : string) : list string :=
  ["classes"; classId; "class_summary"; "latest"].

(** A document id of one segment: not empty and without a slash. *)
Fixpoint noSlash (s : string) : bool :=
  match s with
  | EmptyString => true
  | String c rest => negb (Ascii.eqb c "/") && noSlash rest
  end.

Definition isPlainId (classId : string) : bool :=
  negb (String.eqb classId EmptyString) && noSlash classId.

(** The field after one more increment by [n]. *)
Definition incremented (n : Number.t) (current : option Value) : option Value :=
  Some (increment (encodeNumber n) current).

(** How often a class id, or a reference, is listed. *)
Fixpoint occurrences (c : string) (l : list string) : nat :=
  match l with
  | [] => 0
  | x :: rest => (if String.eqb x c then 1 else 0) + occurrences c rest
  end.

Fixpoint listings (q : list string) (refs : list (list string)) : nat :=
  match refs with
  | [] => 0
  | r :: rest => (if decide (r = q) then 1 else 0) + listings q rest
  end.

End Functions.

(** * Callout placement *)
Module PlacementFacts.
Import Onboarding.
Local Open Scope Q_scope.

Lemma keepLeft_fits calloutRect viewportWidth x :
  spacing <= x -> x + DOMRect.width calloutRect <= viewportWidth - spacing ->
  keepLeft calloutRect viewportWidth x = x.
Proof.
  intros Hlo Hhi. unfold keepLeft.
  destruct (Qlt_le_dec x spacing) as [Hlt|_]; [lra|].
  destruct (Qlt_le_dec _ _) as [Hlt|_]; [lra|reflexivity].
Qed.

Lemma keepTop_fits calloutRect viewportHeight y :
  spacing <= y -> y + DOMRect.height calloutRect <= viewportHeight - spacing ->
  keepTop calloutRect viewportHeight y = y.
Proof.
  intros Hlo Hhi. unfold keepTop.
  destruct (Qlt_le_dec y spacing) as [Hlt|_]; [lra|].
  destruct (Qlt_le_dec _ _) as [Hlt|_]; [lra|reflexivity].
Qed.

(** The two [if]s are a clamp in which the far bound wins. *)
Lemma keepLeft_clamp calloutRect viewportWidth x :
  keepLeft calloutRect viewportWidth x
  == Qmin (Qmax x spacing) (viewportWidth - DOMRect.width calloutRect - spacing).
Proof.
  unfold keepLeft, spacing.
  destruct (Qlt_le_dec x 20) as [Hlt|Hge].
  - rewrite (Q.max_r x 20) by lra.
    destruct (Qlt_le_dec _ _) as [H|H].
    + rewrite Q.min_r; lra.
    + rewrite Q.min_l; lra.
  - rewrite (Q.max_l x 20) by lra.
    destruct (Qlt_le_dec _ _) as [H|H].
    + rewrite Q.min_r; lra.
    + rewrite Q.min_l; lra.
Qed.

Lemma keepTop_clamp calloutRect viewportHeight y :
  keepTop calloutRect viewportHeight y
  == Qmin (Qmax y spacing) (viewportHeight - DOMRect.height calloutRect - spacing).
Proof.
  unfold keepTop, spacing.
  destruct (Qlt_le_dec y 20) as [Hlt|Hge].
  - rewrite (Q.max_r y 20) by lra.
    destruct (Qlt_le_dec _ _) as [H|H].
    + rewrite Q.min_r; lra.
    + rewrite Q.min_l; lra.
  - rewrite (Q.max_l y 20) by lra.
    destruct (Qlt_le_dec _ _) as [H|H].
    + rewrite Q.min_r; lra.
    + rewrite Q.min_l; lra.
Qed.

Lemma keepLeft_bounds calloutRect viewportWidth x :
  let hi := viewportWidth - DOMRect.width calloutRect - spacing in
  keepLeft calloutRect viewportWidth x <= hi
  /\ (spacing <= hi -> spacing <= keepLeft calloutRect viewportWidth x)
  /\ (hi < spacing -> keepLeft calloutRect viewportWidth x == hi).
Proof.
  cbn zeta. unfold keepLeft, spacing.
  destruct (Qlt_le_dec x 20); destruct (Qlt_le_dec _ _); repeat split; intros; lra.
Qed.

Lemma keepTop_bounds calloutRect viewportHeight y :
  let hi := viewportHeight - DOMRect.height calloutRect - spacing in
  keepTop calloutRect viewportHeight y <= hi
  /\ (spacing <= hi -> spacing <= keepTop calloutRect viewportHeight y)
  /\ (hi < spacing -> keepTop calloutRect viewportHeight y == hi).
Proof.
  cbn zeta. unfold keepTop, spacing.
  destruct (Qlt_le_dec y 20); destruct (Qlt_le_dec _ _); repeat split; intros; lra.
Qed.

(** C5, as the code has it. For the side "bottom" the callout is put 20
    below the target's bottom edge and centred on it horizontally, and
    the recorded side stays "bottom" whatever the clamping does. A
    placement that fits is kept; otherwise each coordinate is clamped,
    the far bound winning: it never exceeds viewport - callout - 20, it is
    at least 20 when that interval is not empty, and it is the far bound
    itself (below 20) when the callout is larger than the viewport less
    the two margins. *)
Theorem bottom_placement page (targetRect : DOMRect.t) :
  let cw := DOMRect.width (calloutRect page) in
  let ch := DOMRect.height (calloutRect page) in
  let top0 := DOMRect.bottom targetRect + 20 in
  let left0 := DOMRect.left targetRect + DOMRect.width targetRect / 2 - cw / 2 in
  let p := calloutPlacement page targetRect "bottom" in
  placeBeside targetRect (calloutRect page) "bottom" = ("bottom"%string, top0, left0)
  /\ left0 + cw / 2 == DOMRect.left targetRect + DOMRect.width targetRect / 2
  /\ p.1.1 = "bottom"%string
  /\ p.1.2 = keepTop (calloutRect page) (innerHeight page) top0
  /\ p.2 = keepLeft (calloutRect page) (innerWidth page) left0
  /\ (20 <= left0 -> left0 + cw <= innerWidth page - 20 -> p.2 = left0)
  /\ (20 <= top0 -> top0 + ch <= innerHeight page - 20 -> p.1.2 = top0)
  /\ p.2 == Qmin (Qmax left0 20) (innerWidth page - cw - 20)
  /\ p.1.2 == Qmin (Qmax top0 20) (innerHeight page - ch - 20)
  /\ p.2 <= innerWidth page - cw - 20
  /\ p.1.2 <= innerHeight page - ch - 20
  /\ (20 <= innerWidth page - cw - 20 -> 20 <= p.2)
  /\ (20 <= innerHeight page - ch - 20 -> 20 <= p.1.2)
  /\ (innerWidth page - cw - 20 < 20 -> p.2 == innerWidth page - cw - 20)
  /\ (innerHeight page - ch - 20 < 20 -> p.1.2 == innerHeight page - ch - 20).
Proof.
  cbn zeta.
  assert (Hp : calloutPlacement page targetRect "bottom"
               = ("bottom"%string,
                  keepTop (calloutRect page) (innerHeight page)
                    (DOMRect.bottom targetRect + 20),
                  keepLeft (calloutRect page) (innerWidth page)
                    (DOMRect.left targetRect + DOMRect.width targetRect / 2
                     - DOMRect.width (calloutRect page) / 2))) by reflexivity.
  rewrite Hp. cbn [fst snd].
  destruct (keepLeft_bounds (calloutRect page) (innerWidth page)
              (DOMRect.left targetRect + DOMRect.width targetRect / 2
               - DOMRect.width (calloutRect page) / 2)) as (L1 & L2 & L3).
  destruct (keepTop_bounds (calloutRect page) (innerHeight page)
              (DOMRect.bottom targetRect + 20)) as (T1 & T2 & T3).
  unfold spacing in *.
  repeat split; try reflexivity; try assumption.
  - field.
  - intros. by apply keepLeft_fits.
  - intros. by apply keepTop_fits.
  - apply keepLeft_clamp.
  - apply keepTop_clamp.
Qed.

(** A phone-sized viewport (360 x 640) and a callout 350 wide. *)
Definition narrowPage : Page :=
  mkPage None (fun _ => None) (DOMRect.mk 0 0 350 200 200 350) 360 640.

(** A target well inside that viewport. *)
Definition insideTarget : DOMRect.t := DOMRect.mk 100 100 100 40 140 200.

(** C5 as stated fails: with the target inside the viewport and the side
    "bottom", the clamped left is -10, outside [20, 360 - 350 - 20]. *)
Lemma bottom_placement_leaves_margin :
  (0 <= DOMRect.left insideTarget /\ DOMRect.right insideTarget <= innerWidth narrowPage
   /\ 0 <= DOMRect.top insideTarget /\ DOMRect.bottom insideTarget <= innerHeight narrowPage)
  /\ calloutPlacement narrowPage insideTarget "bottom" = ("bottom"%string, 160, -10)
  /\ ~ (20 <= (calloutPlacement narrowPage insideTarget "bottom").2
        <= innerWidth narrowPage - DOMRect.width (calloutRect narrowPage) - 20).
Proof.
  split; [|split].
  - cbn. repeat split; lra.
  - vm_compute. reflexivity.
  - vm_compute. intros [H _]. apply H. reflexivity.
Qed.

End PlacementFacts.

(** * Properties of the onboarding sequencer *)
Module OnboardingFacts.
Import Onboarding.
Local Open Scope list_scope.

Ltac destruct_state s :=
  let m := fresh "m" in
  let b := fresh "b" in
  destruct s as [m b]; destruct m, b; cbn in *.

(** The same, with the cases of [this.overlay] and [this.callout]. *)
Ltac destruct_refs s :=
  let b := fresh "b" in
  destruct s as [[? ? ? [?|] [?|] ?] b]; destruct b; cbn in *.

(** The catalog length as the code reads it, [this.tutorialSteps.length]. *)
Definition total (s : State) : Z := Z.of_nat (length (tutorialSteps (this s))).

(** Step [j] of the catalog has, or lacks, a target on the page. *)
Definition foundAt (page : Page) (steps : list Step) (j : Z) : Prop :=
  exists step el, steps !! Z.to_nat j = Some step /\ querySelector page (target step) = Some el.
Definition missingAt (page : Page) (steps : list Step) (j : Z) : Prop :=
  exists step, steps !! Z.to_nat j = Some step /\ querySelector page (target step) = None.

(** What the user sees of the callout: its counter, when it is on screen. *)
Definition visibleStep (s : State) : option (Z * Z) :=
  match callout (this s) with
  | Some c =>
      match elements (browser s) !! c with
      | Some el =>
          if active el && attached el
          then (fun v => (currentStepText v, totalStepsText v)) <$> view el
          else None
      | None => None
      end
  | None => None
  end.

(** The fields of the callout element, whether on screen or not. *)
Definition calloutView (s : State) : option CalloutView :=
  match callout (this s) with
  | Some c => el ← elements (browser s) !! c; view el
  | None => None
  end.

(** The callout element [c] exists, is attached and carries the fields [v]. *)
Definition calloutHolds (c : nat) (v : CalloutView) (s : State) : Prop :=
  callout (this s) = Some c /\
  exists el, elements (browser s) !! c = Some el /\ attached el = true /\ view el = Some v.

(** *** The timer queue *)
Lemma minDue_head d t rest :
  Forall (fun dt => d <= dt.1) rest -> minDue ((d, t) :: rest) = Some d.
Proof.
  revert d t. induction rest as [|[d' t'] rest IH]; intros d t Hall; [reflexivity|].
  inversion Hall as [|? ? Hd Hrest]; subst. cbn [fst] in Hd.
  change (minDue ((d, t) :: (d', t') :: rest))
    with (match minDue ((d', t') :: rest) with
          | Some m => Some (Z.min d m) | None => Some d end).
  destruct (minDue ((d', t') :: rest)) as [m|] eqn:E; [|reflexivity].
  f_equal. apply Z.min_l.
  clear IH Hall. revert d' t' m E Hd.
  induction rest as [|[d2 t2] rest IH2]; intros d' t' m E Hd.
  - cbn in E. injection E as <-. exact Hd.
  - change (minDue ((d', t') :: (d2, t2) :: rest))
      with (match minDue ((d2, t2) :: rest) with
            | Some m => Some (Z.min d' m) | None => Some d' end) in E.
    inversion Hrest as [|? ? Hd2 Hrest2]; subst. cbn [fst] in Hd2.
    destruct (minDue ((d2, t2) :: rest)) as [m2|] eqn:E2.
    + injection E as <-. specialize (IH2 Hrest2 d2 t2 m2 E2 Hd2). lia.
    + injection E as <-. exact Hd.
Qed.

Lemma fireNext_head page s d t rest :
  timers (browser s) = (d, t) :: rest ->
  Forall (fun dt => d <= dt.1) rest ->
  fireNext page s
  = Some (state_of (runTask page t
            (set_clock (Z.max (clock (browser s)) d) (set_timers rest s)))).
Proof.
  intros Ht Hall. unfold fireNext. rewrite Ht, (minDue_head d t rest Hall).
  cbn [takeDue]. rewrite Z.eqb_refl. reflexivity.
Qed.

Lemma fireNext_idle page s : timers (browser s) = [] -> fireNext page s = None.
Proof. intros H. unfold fireNext. by rewrite H. Qed.

Lemma runTimers_idle fuel page s : timers (browser s) = [] -> runTimers fuel page s = s.
Proof. intros H. destruct fuel; [reflexivity|]. cbn. by rewrite fireNext_idle. Qed.

(** *** The branches of [nextStep], [previousStep] and [showStep] *)
Lemma nextStep_inner s c :
  currentStep (this s) < total s - 1 -> callout (this s) = Some c ->
  nextStep s = Done (setTimeout (TShowStepRel 1) 300 (classListRemoveActive c s)).
Proof.
  unfold total, nextStep. intros Hlt Hc.
  destruct (Z.ltb_spec (currentStep (this s))
              (Z.of_nat (length (tutorialSteps (this s))) - 1)); [|lia].
  by rewrite Hc.
Qed.

Lemma nextStep_last s :
  total s - 1 <= currentStep (this s) -> nextStep s = Done (completeTutorial s).
Proof.
  unfold total, nextStep. intros Hge.
  destruct (Z.ltb_spec (currentStep (this s))
              (Z.of_nat (length (tutorialSteps (this s))) - 1)); [lia|reflexivity].
Qed.

Lemma showStep_outside page s i :
  i < 0 \/ total s <= i -> showStep page i s = Done (endTutorial s).
Proof.
  unfold total, showStep. intros H.
  destruct (Z.ltb_spec i 0); [reflexivity|].
  destruct (Z.leb_spec (Z.of_nat (length (tutorialSteps (this s)))) i); [reflexivity|lia].
Qed.

Lemma showStep_missing page s i :
  0 <= i < total s -> missingAt page (tutorialSteps (this s)) i ->
  showStep page i s = nextStep (set_currentStep i s).
Proof.
  unfold total, showStep. intros Hi (step & Hst & Hq).
  destruct (Z.ltb_spec i 0); [lia|].
  destruct (Z.leb_spec (Z.of_nat (length (tutorialSteps (this s)))) i); [lia|].
  cbn [orb]. destruct_state s. by rewrite Hst, Hq.
Qed.

(** The state [showStep] leaves when the target is there. *)
Definition shown (page : Page) (i : Z) (step : Step) (el : TargetElem) (c : nat)
    (s : State) : State :=
  let s := set_currentStep i s in
  let s := updView (renderStep i step (total s)) c s in
  let s := highlightElement el step s in
  let s := positionCallout page c el (position step) s in
  let s := set_scrolledTo (scrolledTo (browser s) ++ [elemId el]) s in
  classListAddActive c s.

Lemma showStep_found page s i step el c :
  0 <= i < total s ->
  tutorialSteps (this s) !! Z.to_nat i = Some step ->
  querySelector page (target step) = Some el ->
  callout (this s) = Some c ->
  showStep page i s = Done (shown page i step el c s).
Proof.
  unfold total, showStep. intros Hi Hst Hq Hc.
  destruct (Z.ltb_spec i 0); [lia|].
  destruct (Z.leb_spec (Z.of_nat (length (tutorialSteps (this s)))) i); [lia|].
  cbn [orb]. destruct_state s. subst. by rewrite Hst, Hq.
Qed.

Lemma shown_this page i step el c s :
  this (shown page i step el c s) = this (set_currentStep i s).
Proof.
  unfold shown, positionCallout. cbn zeta.
  destruct (calloutPlacement _ _ _) as [[? ?] ?]. reflexivity.
Qed.

Lemma shown_timers page i step el c s :
  timers (browser (shown page i step el c s)) = timers (browser s).
Proof.
  unfold shown, positionCallout. cbn zeta.
  destruct (calloutPlacement _ _ _) as [[? ?] ?]. reflexivity.
Qed.

Lemma shown_element page i step el c s e :
  elements (browser s) !! c = Some e ->
  exists v', elements (browser (shown page i step el c s)) !! c
             = Some (mkElement (className e) true (attached e) v')
    /\ (forall v, view e = Some v ->
          exists w, v' = Some w /\ currentStepText w = i + 1 /\ totalStepsText w = total s
                    /\ titleText w = title step /\ descriptionText w = description step).
Proof.
  intros He. unfold shown, positionCallout. cbn zeta.
  destruct (calloutPlacement _ _ _) as [[side y] x].
  unfold classListAddActive, updView, updElement, highlightElement. cbn.
  rewrite !list_lookup_alter_eq, He. cbn. eexists; split; [reflexivity|].
  intros v Hv. rewrite Hv. cbn. eexists; split; [reflexivity|]. repeat split.
Qed.

(** *** Walking forward *)

(** Every step of the catalog has its target on the page. *)
Definition allFound (page : Page) (steps : list Step) : Prop :=
  Forall (fun step => is_Some (querySelector page (target step))) steps.

Lemma allFound_at page steps j :
  allFound page steps -> 0 <= j < Z.of_nat (length steps) -> foundAt page steps j.
Proof.
  intros Hall Hj.
  destruct (lookup_lt_is_Some_2 steps (Z.to_nat j)) as [step Hst]; [lia|].
  destruct (proj1 (Forall_lookup _ _) Hall _ _ Hst) as [el Hel].
  by exists step, el.
Qed.

(** Between two clicks the manager is at rest: it has its callout and no
    timer is pending. *)
Definition atRest (c : nat) (s : State) : Prop :=
  callout (this s) = Some c /\ timers (browser s) = [].

Lemma advance_inner page s c :
  atRest c s ->
  0 <= currentStep (this s) < total s - 1 ->
  foundAt page (tutorialSteps (this s)) (currentStep (this s) + 1) ->
  atRest c (advance page s)
  /\ currentStep (this (advance page s)) = currentStep (this s) + 1
  /\ tutorialSteps (this (advance page s)) = tutorialSteps (this s)
  /\ isActive (this (advance page s)) = isActive (this s).
Proof.
  intros [Hc Ht] Hi (step & el & Hst & Hq). unfold advance.
  rewrite (nextStep_inner s c) by (lia || done). cbn [state_of runTimers].
  erewrite fireNext_head; cycle 1.
  { unfold setTimeout. cbn. rewrite Ht. reflexivity. }
  { constructor. }
  cbn [runTask].
  erewrite showStep_found; cycle 1.
  { unfold total in *. destruct_state s. lia. }
  { destruct_state s. exact Hst. }
  { exact Hq. }
  { destruct_state s. exact Hc. }
  cbn [state_of]. unfold atRest. rewrite shown_this, shown_timers.
  destruct_state s. done.
Qed.

Lemma advance_iter page c (k : nat) :
  forall s,
    atRest c s ->
    currentStep (this s) = 0 ->
    Z.of_nat k <= total s - 1 ->
    allFound page (tutorialSteps (this s)) ->
    atRest c (Nat.iter k (advance page) s)
    /\ currentStep (this (Nat.iter k (advance page) s)) = Z.of_nat k
    /\ tutorialSteps (this (Nat.iter k (advance page) s)) = tutorialSteps (this s)
    /\ isActive (this (Nat.iter k (advance page) s)) = isActive (this s).
Proof.
  induction k as [|k IH]; intros s Hrest H0 Hk Hall.
  - cbn. auto.
  - destruct (IH s Hrest H0 ltac:(lia) Hall) as (Hr & Hcur & Hsteps & Hact).
    change (Nat.iter (S k) (advance page) s)
      with (advance page (Nat.iter k (advance page) s)).
    destruct (advance_inner page (Nat.iter k (advance page) s) c Hr) as (R1 & R2 & R3 & R4).
    + unfold total in *. rewrite Hsteps, Hcur. lia.
    + rewrite Hsteps, Hcur. apply allFound_at; [done|]. unfold total in Hk. lia.
    + split; [exact R1|]. split; [rewrite R2, Hcur; lia|]. split; congruence.
Qed.

(** C1. For a catalog of length N >= 1 whose targets are all on the page,
    N-1 calls of advance from index 0 leave the sequencer on index N-1,
    still active; the next call of nextStep runs completeTutorial, which
    leaves the index at N-1 (nothing is read past the catalog's end) and
    the tutorial inactive and recorded as completed. *)
Theorem advance_reaches_last_then_completes page s c :
  atRest c s ->
  currentStep (this s) = 0 ->
  1 <= total s ->
  allFound page (tutorialSteps (this s)) ->
  let last := Nat.iter (Z.to_nat (total s - 1)) (advance page) s in
  currentStep (this last) = total s - 1
  /\ tutorialSteps (this last) = tutorialSteps (this s)
  /\ isActive (this last) = isActive (this s)
  /\ nextStep last = Done (completeTutorial last)
  /\ currentStep (this (completeTutorial last)) = total s - 1
  /\ isActive (this (completeTutorial last)) = false
  /\ localStorage (browser (completeTutorial last)) !! "sclera_tutorial_completed"
     = Some "true".
Proof.
  intros Hrest H0 HN Hall last.
  destruct (advance_iter page c (Z.to_nat (total s - 1)) s Hrest H0 ltac:(lia) Hall)
    as (Hr & Hcur & Hsteps & Hact).
  fold last in Hr, Hcur, Hsteps, Hact. clearbody last.
  assert (Hlast : currentStep (this last) = total s - 1) by lia.
  repeat split; try done.
  - apply nextStep_last. unfold total in *. rewrite Hsteps. lia.
  - rewrite <- Hlast. unfold completeTutorial, showCompletionMessage, endTutorial.
    destruct_refs last; reflexivity.
  - unfold completeTutorial, showCompletionMessage, endTutorial.
    destruct_refs last; reflexivity.
  - unfold completeTutorial, showCompletionMessage, endTutorial, setItem.
    destruct_refs last; apply lookup_insert_eq.
Qed.

(** *** Skipping steps whose target is missing *)

(** A missing step that is not the last: the callout is taken off screen
    with its fields as they were, and the next step is scheduled. *)
Lemma showStep_skips page s c v i :
  calloutHolds c v s -> timers (browser s) = [] ->
  0 <= i < total s - 1 ->
  missingAt page (tutorialSteps (this s)) i ->
  exists s0 s1,
    showStep page i s = Done s0
    /\ visibleStep s0 = None /\ calloutView s0 = Some v
    /\ currentStep (this s0) = i
    /\ timers (browser s0) = [(clock (browser s) + 300, TShowStepRel 1)]
    /\ fireNext page s0 = Some (state_of (showStep page (i + 1) s1))
    /\ calloutHolds c v s1 /\ timers (browser s1) = []
    /\ tutorialSteps (this s1) = tutorialSteps (this s).
Proof.
  intros (Hc & el & Hel & Hatt & Hv) Ht Hi Hmiss.
  rewrite (showStep_missing page s i) by (lia || done).
  rewrite (nextStep_inner (set_currentStep i s) c);
    [|unfold total in *; destruct_state s; lia | destruct_state s; done].
  set (s0 := setTimeout _ _ _).
  exists s0, (set_clock (Z.max (clock (browser s0)) (clock (browser s) + 300))
                (set_timers [] s0)).
  assert (Hel0 : elements (browser s0) !! c
                 = Some (mkElement (className el) false (attached el) (view el))).
  { subst s0. unfold setTimeout, classListRemoveActive, updElement. destruct_state s.
    by rewrite list_lookup_alter_eq, Hel. }
  assert (Hc0 : callout (this s0) = Some c) by (subst s0; destruct_state s; done).
  assert (Ht0 : timers (browser s0) = [(clock (browser s) + 300, TShowStepRel 1)]).
  { subst s0. unfold setTimeout. destruct_state s. by subst. }
  assert (Hi0 : currentStep (this s0) = i) by (subst s0; destruct_state s; done).
  split; [reflexivity|].
  split. { unfold visibleStep. by rewrite Hc0, Hel0. }
  split. { unfold calloutView. rewrite Hc0, Hel0. exact Hv. }
  split; [exact Hi0|]. split; [exact Ht0|].
  split.
  { rewrite (fireNext_head page s0 _ _ [] Ht0) by constructor.
    cbn [runTask]. subst s0. destruct_state s. reflexivity. }
  split; [|split].
  - split; [subst s0; destruct_state s; done|].
    exists (mkElement (className el) false (attached el) (view el)).
    split; [subst s0; destruct_state s; by rewrite list_lookup_alter_eq, Hel|]. done.
  - reflexivity.
  - subst s0. destruct_state s. reflexivity.
Qed.

(** A step whose target is there: the callout comes on screen with the
    step's own position and the catalog's full length. *)
Lemma showStep_shows page s c v i :
  calloutHolds c v s ->
  0 <= i < total s ->
  foundAt page (tutorialSteps (this s)) i ->
  exists s0,
    showStep page i s = Done s0
    /\ visibleStep s0 = Some (i + 1, total s)
    /\ currentStep (this s0) = i
    /\ timers (browser s0) = timers (browser s).
Proof.
  intros (Hc & e & He & Hatt & Hv) Hi (step & el & Hst & Hq).
  rewrite (showStep_found page s i step el c Hi Hst Hq Hc).
  eexists; split; [reflexivity|].
  destruct (shown_element page i step el c s e He) as (v' & He' & Hv').
  destruct (Hv' v Hv) as (w & -> & Hcur & Htot & _).
  split; [|split].
  - assert (Hc' : callout (this (shown page i step el c s)) = Some c).
    { rewrite shown_this. destruct_state s. done. }
    unfold visibleStep. rewrite Hc', He'. cbn.
    by rewrite Hatt, Hcur, Htot.
  - by rewrite shown_this.
  - apply shown_timers.
Qed.

Lemma runTimers_step fuel page s s' :
  fireNext page s = Some s' -> runTimers (S fuel) page s = runTimers fuel page s'.
Proof. intros H. cbn. by rewrite H. Qed.

Lemma skip_run page c (k : nat) :
  forall s v i,
    calloutHolds c v s -> timers (browser s) = [] ->
    0 <= i -> i + Z.of_nat k < total s ->
    (forall j, i <= j < i + Z.of_nat k -> missingAt page (tutorialSteps (this s)) j) ->
    foundAt page (tutorialSteps (this s)) (i + Z.of_nat k) ->
    let s0 := state_of (showStep page i s) in
    (forall m, (m < k)%nat ->
       visibleStep (runTimers m page s0) = None
       /\ calloutView (runTimers m page s0) = Some v)
    /\ visibleStep (runTimers k page s0) = Some (i + Z.of_nat k + 1, total s)
    /\ currentStep (this (runTimers k page s0)) = i + Z.of_nat k
    /\ timers (browser (runTimers k page s0)) = [].
Proof.
  induction k as [|k IH]; intros s v i Hhold Ht Hi Hlt Hmiss Hfound; cbn zeta.
  - rewrite Z.add_0_r in *.
    destruct (showStep_shows page s c v i Hhold ltac:(lia) Hfound)
      as (s0 & -> & Hvis & Hcur & Htm).
    cbn [state_of runTimers]. split; [intros m Hm; lia|]. by rewrite Htm.
  - destruct (showStep_skips page s c v i Hhold Ht ltac:(lia) (Hmiss i ltac:(lia)))
      as (s0 & s1 & -> & Hvis & Hview & Hcur & _ & Hfire & Hhold1 & Ht1 & Hsteps).
    cbn [state_of].
    assert (Htot : total s1 = total s) by (unfold total; by rewrite Hsteps).
    destruct (IH s1 v (i + 1) Hhold1 Ht1 ltac:(lia)) as (Hm & Hv & Hc & Htm).
    + rewrite Htot. lia.
    + intros j Hj. rewrite Hsteps. apply Hmiss. lia.
    + rewrite Hsteps. replace (i + 1 + Z.of_nat k) with (i + Z.of_nat (S k)) by lia.
      exact Hfound.
    + rewrite (runTimers_step k page s0 _ Hfire).
      replace (i + Z.of_nat (S k)) with (i + 1 + Z.of_nat k) by lia.
      rewrite <- Htot. split; [|done].
      intros [|m] Hlt'; [done|].
      rewrite (runTimers_step m page s0 _ Hfire). apply Hm. lia.
Qed.

(** *** The index stays within the catalog *)

(** The index and the catalog it points into. *)
Definition cursor (s : State) : Z * list Step :=
  (currentStep (this s), tutorialSteps (this s)).

(** The index is a position of the catalog, or 0 when the catalog is empty. *)
Definition indexInRange (s : State) : Prop :=
  0 <= currentStep (this s) < Z.max 1 (total s).

Lemma indexInRange_cursor s s' : cursor s' = cursor s -> indexInRange s -> indexInRange s'.
Proof.
  unfold cursor, indexInRange, total. intros [= -> ->]. done.
Qed.

Lemma cursor_closeWelcomeModal s : cursor (closeWelcomeModal s) = cursor s.
Proof. unfold closeWelcomeModal. by destruct (queryCreated _ s). Qed.

Lemma cursor_endTutorial s : cursor (endTutorial s) = cursor s.
Proof. unfold endTutorial. destruct_refs s; reflexivity. Qed.

Lemma cursor_completeTutorial s : cursor (completeTutorial s) = cursor s.
Proof.
  unfold completeTutorial, showCompletionMessage, endTutorial.
  destruct_refs s; reflexivity.
Qed.

Lemma cursor_nextStep s : cursor (state_of (nextStep s)) = cursor s.
Proof.
  unfold nextStep. destruct (_ <? _)%Z; [|apply cursor_completeTutorial].
  destruct_refs s; reflexivity.
Qed.

Lemma cursor_previousStep s : cursor (state_of (previousStep s)) = cursor s.
Proof. unfold previousStep. destruct (_ <? _)%Z; destruct_refs s; reflexivity. Qed.

Lemma indexInRange_startTutorial page s : indexInRange (startTutorial page s).
Proof.
  unfold indexInRange, total, startTutorial, closeWelcomeModal.
  destruct (queryCreated _ s); cbn; lia.
Qed.

Lemma indexInRange_showStep page i s :
  indexInRange s -> indexInRange (state_of (showStep page i s)).
Proof.
  intros Hinv. unfold showStep.
  destruct (Z.ltb_spec i 0);
    [exact (indexInRange_cursor _ _ (cursor_endTutorial s) Hinv)|].
  destruct (Z.leb_spec (Z.of_nat (length (tutorialSteps (this s)))) i);
    [exact (indexInRange_cursor _ _ (cursor_endTutorial s) Hinv)|].
  cbn [orb].
  assert (Hset : indexInRange (set_currentStep i s)).
  { unfold indexInRange, total. destruct_state s. lia. }
  destruct (tutorialSteps (this (set_currentStep i s)) !! Z.to_nat i) as [step|];
    [|exact Hset].
  destruct (querySelector page (target step)) as [el|].
  - destruct (callout (this (set_currentStep i s))) as [c|] eqn:Hc; [|exact Hset].
    refine (indexInRange_cursor _ _ _ Hset). cbn [state_of].
    unfold positionCallout. destruct (calloutPlacement _ _ _) as [[? ?] ?]. reflexivity.
  - exact (indexInRange_cursor _ _ (cursor_nextStep _) Hset).
Qed.

Lemma indexInRange_runTask page t s :
  indexInRange s -> indexInRange (state_of (runTask page t s)).
Proof.
  intros Hinv. destruct t; cbn [runTask state_of];
    try exact (indexInRange_cursor _ _ eq_refl Hinv).
  - apply indexInRange_startTutorial.
  - by apply indexInRange_showStep.
  - by apply indexInRange_showStep.
  - destruct (overlay (this s)); exact Hinv.
  - destruct (callout (this s)); exact Hinv.
  - destruct (overlay (this s)); exact Hinv.
Qed.

Lemma indexInRange_handle page ev s : indexInRange s -> indexInRange (handle page ev s).
Proof.
  intros Hinv. destruct ev; cbn [handle].
  - apply indexInRange_startTutorial.
  - refine (indexInRange_cursor _ _ _ Hinv). unfold skipTutorial.
    exact (cursor_closeWelcomeModal s).
  - exact (indexInRange_cursor _ _ (cursor_endTutorial s) Hinv).
  - exact (indexInRange_cursor _ _ (cursor_nextStep s) Hinv).
  - exact (indexInRange_cursor _ _ (cursor_previousStep s) Hinv).
  - exact (indexInRange_cursor _ _ (cursor_completeTutorial s) Hinv).
  - apply indexInRange_startTutorial.
  - by apply indexInRange_showStep.
  - exact Hinv.
  - destruct (listening (browser s)); [apply indexInRange_startTutorial|exact Hinv].
  - unfold fireAt. destruct (timers (browser s) !! k) as [[d t]|]; [|exact Hinv].
    apply indexInRange_runTask. exact Hinv.
  - exact Hinv.
Qed.

Lemma indexInRange_load ls query : indexInRange (newOnboardingManager (pageLoad ls query)).
Proof.
  unfold indexInRange, total, newOnboardingManager, init. cbn.
  destruct (match searchGet "tutorial" query with Some v => _ | None => _ end).
  - cbn. lia.
  - destruct (_ && _); cbn; lia.
Qed.

Lemma reachable_indexInRange s : reachable s -> indexInRange s.
Proof.
  induction 1 as [ls query|page ev s _ IH].
  - apply indexInRange_load.
  - by apply indexInRange_handle.
Qed.

(** *** Starting on an empty catalog *)

Lemma alter_at_length {A} (f : A -> A) (l : list A) (x : A) (r : list A) :
  alter f (length l) (l ++ x :: r) = l ++ f x :: r.
Proof. induction l as [|y l IH]; [reflexivity|]. cbn. by f_equal. Qed.

Lemma alter_after_length {A} (f : A -> A) (l : list A) (x y : A) (r : list A) :
  alter f (S (length l)) (l ++ x :: y :: r) = l ++ x :: f y :: r.
Proof. induction l as [|z l IH]; [reflexivity|]. cbn. by f_equal. Qed.

Lemma lookup_at_length {A} (l : list A) (x : A) (r : list A) : (l ++ x :: r) !! length l = Some x.
Proof. induction l as [|y l IH]; [reflexivity|]. exact IH. Qed.

Lemma lookup_after_length {A} (l : list A) (x y : A) (r : list A) :
  (l ++ x :: y :: r) !! S (length l) = Some y.
Proof. induction l as [|z l IH]; [reflexivity|]. exact IH. Qed.

Lemma length_snoc {A} (l : list A) (x : A) : length (l ++ [x]) = S (length l).
Proof. rewrite length_app. cbn. lia. Qed.

Lemma snoc_snoc {A} (l : list A) (x y : A) : (l ++ [x]) ++ [y] = l ++ [x; y].
Proof. by rewrite <- app_assoc. Qed.

(** The states a start on an empty catalog passes through: the overlay [o]
    and the callout [c] appended after the elements of [s], the callout
    never on screen and still as its template. *)
Definition emptyRun (s : State) (act ovActive ovAttached coAttached : bool)
    (tms : list (Z * Task)) (clk : Z) : State :=
  let o := length (elements (browser s)) in
  mkState (mkManager 0 act [] (Some o) (Some (S o)) (hasCompletedTutorial (this s)))
    (mkBrowser (localStorage (browser s)) (search (browser s))
       (elements (browser s)
          ++ [mkElement "onboarding-overlay" ovActive ovAttached None;
              mkElement "onboarding-callout" false coAttached (Some calloutTemplate)])
       act (if act then highlighted (browser s) else None) (scrolledTo (browser s))
       tms clk (network (browser s)) (console (browser s)) (listening (browser s))).

Lemma startTutorial_emptyRun page s :
  getTutorialSteps page = [] ->
  timers (browser s) = [] ->
  queryCreated "onboarding-modal-overlay" s = None ->
  startTutorial page s
  = emptyRun s true false true true
      [(clock (browser s) + 10, TOverlayAddActive); (clock (browser s) + 500, TShowStep 0)]
      (clock (browser s)).
Proof.
  intros Hcat Ht Hmodal. unfold startTutorial, closeWelcomeModal. rewrite Hmodal, Hcat.
  unfold createCallout, createOverlay, appendElement, setTimeout, emptyRun.
  destruct_state s. subst. cbn. by rewrite length_snoc, snoc_snoc.
Qed.

Lemma emptyRun_fire1 page s ck :
  fireNext page (emptyRun s true false true true
                   [(ck + 10, TOverlayAddActive); (ck + 500, TShowStep 0)] ck)
  = Some (emptyRun s true true true true [(ck + 500, TShowStep 0)] (ck + 10)).
Proof.
  erewrite fireNext_head; [|reflexivity|repeat constructor; cbn; lia].
  cbn. unfold classListAddActive, updElement. cbn.
  rewrite alter_at_length, Z.max_r by lia. reflexivity.
Qed.

Lemma emptyRun_fire3 page s ck :
  fireNext page (emptyRun s false false true true
                   [(ck + 800, TCalloutRemove); (ck + 800, TOverlayRemove)] (ck + 500))
  = Some (emptyRun s false false true false [(ck + 800, TOverlayRemove)] (ck + 800)).
Proof.
  erewrite fireNext_head; [|reflexivity|repeat constructor; cbn; lia].
  cbn. unfold removeElement, updElement. cbn.
  rewrite alter_after_length, Z.max_r by lia. reflexivity.
Qed.

Lemma emptyRun_fire4 page s ck :
  fireNext page (emptyRun s false false true false [(ck + 800, TOverlayRemove)] (ck + 800))
  = Some (emptyRun s false false false false [] (ck + 800)).
Proof.
  erewrite fireNext_head; [|reflexivity|constructor].
  cbn. unfold removeElement, updElement. cbn.
  rewrite alter_at_length, Z.max_r by lia. reflexivity.
Qed.

Lemma emptyRun_hidden s act ovActive ovAttached coAttached tms clk :
  visibleStep (emptyRun s act ovActive ovAttached coAttached tms clk) = None.
Proof. unfold visibleStep, emptyRun. cbn. by rewrite lookup_after_length. Qed.

(** *** Scenarios used as concrete instances *)

Definition anyRect : DOMRect.t := DOMRect.mk 100 100 200 50 150 300.

(** A student dashboard on which every selector finds its element. *)
Definition studentPage : Page :=
  mkPage (Some "student") (fun _ => Some (mkTarget 7 anyRect))
    (DOMRect.mk 0 0 320 180 180 320) 1280 720.

(** A dashboard of another account type: its catalog is empty. *)
Definition teacherPage : Page :=
  mkPage (Some "teacher") (fun _ => None) (DOMRect.mk 0 0 320 180 180 320) 1280 720.

(** A returning visitor's page load: nothing is scheduled. *)
Definition returningVisitor : State :=
  newOnboardingManager (pageLoad {["sclera_visited" := "true"]} []).

(** The student tutorial started and its first step on screen. *)
Definition studentAtFirstStep : State :=
  runTimers 2 studentPage (startTutorial studentPage returningVisitor).

(** *** The invariant on the index (C4) *)

(** C4, as the code has it. In every reachable state in which isActive is
    true the index is at least 0; it is below the catalog's length when
    the catalog is not empty, and it is 0 when the catalog is empty. *)
Theorem active_index_within_catalog s :
  reachable s -> isActive (this s) = true ->
  0 <= currentStep (this s)
  /\ (tutorialSteps (this s) <> [] -> currentStep (this s) < total s)
  /\ (tutorialSteps (this s) = [] -> currentStep (this s) = 0).
Proof.
  intros Hreach _. pose proof (reachable_indexInRange s Hreach) as [Hlo Hhi].
  unfold total in *. split; [exact Hlo|]. split.
  - intros Hne. destruct (tutorialSteps (this s)); [done|]. cbn [length] in *. lia.
  - intros He. rewrite He in Hhi. cbn in Hhi. lia.
Qed.

Lemma active_index_within_catalog_witness :
  0 <= currentStep (this (startTutorial studentPage returningVisitor))
  /\ (tutorialSteps (this (startTutorial studentPage returningVisitor)) <> [] ->
      currentStep (this (startTutorial studentPage returningVisitor))
      < total (startTutorial studentPage returningVisitor))
  /\ (tutorialSteps (this (startTutorial studentPage returningVisitor)) = [] ->
      currentStep (this (startTutorial studentPage returningVisitor)) = 0).
Proof.
  apply (active_index_within_catalog (startTutorial studentPage returningVisitor)).
  - exact (reach_step studentPage CallStartTutorial _
             (reach_load {["sclera_visited" := "true"]} [])).
  - reflexivity.
Defined.

(** C4 as stated fails on the empty catalog: after startTutorial on a page
    of another account type the manager is active with index 0 and a
    catalog of length 0. *)
Lemma active_on_empty_catalog_out_of_range :
  reachable (startTutorial teacherPage returningVisitor)
  /\ isActive (this (startTutorial teacherPage returningVisitor)) = true
  /\ tutorialSteps (this (startTutorial teacherPage returningVisitor)) = []
  /\ ~ (0 <= currentStep (this (startTutorial teacherPage returningVisitor))
        < total (startTutorial teacherPage returningVisitor)).
Proof.
  split; [|split; [|split]].
  - exact (reach_step teacherPage CallStartTutorial _
             (reach_load {["sclera_visited" := "true"]} [])).
  - reflexivity.
  - reflexivity.
  - vm_compute. intros [_ H]. discriminate H.
Qed.

(** *** Starting on an empty catalog (C2): an instance *)

(** C2 as stated fails: on an empty catalog startTutorial makes the manager
    active and creates the overlay, which is on screen 10 ms later and is
    removed only after showStep(0) has ended the tutorial. *)
Lemma start_on_empty_catalog_creates_overlay :
  tutorialSteps (this (startTutorial teacherPage returningVisitor)) = []
  /\ isActive (this (startTutorial teacherPage returningVisitor)) = true
  /\ overlay (this (startTutorial teacherPage returningVisitor)) = Some 0%nat
  /\ elements (browser (startTutorial teacherPage returningVisitor)) !! 0%nat
     = Some (mkElement "onboarding-overlay" false true None)
  /\ elements (browser (runTimers 1 teacherPage
                          (startTutorial teacherPage returningVisitor))) !! 0%nat
     = Some (mkElement "onboarding-overlay" true true None)
  /\ elements (browser (runTimers 4 teacherPage
                          (startTutorial teacherPage returningVisitor))) !! 0%nat
     = Some (mkElement "onboarding-overlay" false false None).
Proof. vm_compute. repeat split. Qed.


(** *** Walking to the end (C1): an instance *)

Lemma studentPage_allFound : allFound studentPage studentSteps.
Proof. apply Forall_forall. intros step _. by eexists. Defined.

Lemma advance_reaches_last_witness :
  currentStep (this (Nat.iter (Z.to_nat (total studentAtFirstStep - 1))
                       (advance studentPage) studentAtFirstStep))
  = total studentAtFirstStep - 1.
Proof.
  assert (Hrest : atRest 1 studentAtFirstStep) by (split; vm_compute; reflexivity).
  assert (H0 : currentStep (this studentAtFirstStep) = 0) by (vm_compute; reflexivity).
  assert (HN : 1 <= total studentAtFirstStep) by (vm_compute; discriminate).
  assert (Hall : allFound studentPage (tutorialSteps (this studentAtFirstStep))).
  { apply Forall_forall. intros step _. by eexists. }
  pose proof (advance_reaches_last_then_completes studentPage studentAtFirstStep 1
                Hrest H0 HN Hall) as H.
  cbv zeta in H. exact (proj1 H).
Defined.

(** *** Skipped steps (C3): the example of the specification *)

(** The example of the specification: three steps, the second one without
    a target. *)
Definition threeSteps : list Step :=
  [ mkStep ".one" "One" "The first step" "bottom" None;
    mkStep ".two" "Two" "The second step" "bottom" None;
    mkStep ".three" "Three" "The third step" "bottom" None ].

Definition pageWithoutSecond : Page :=
  mkPage (Some "student")
    (fun sel => if String.eqb sel ".two" then None else Some (mkTarget 7 anyRect))
    (DOMRect.mk 0 0 320 180 180 320) 1280 720.

(** The tutorial started on that catalog, its first step on screen. *)
Definition threeAtFirstStep : State :=
  runTimers 2 pageWithoutSecond
    (set_tutorialSteps threeSteps (startTutorial pageWithoutSecond returningVisitor)).

(** The user clicks Next; the timer of nextStep is about to call showStep(1). *)
Definition threeAfterNext : State :=
  set_timers [] (state_of (nextStep threeAtFirstStep)).

(** *** Completion (C6) *)

(** C6. Whatever the state, completeTutorial stores "true" under
    sclera_tutorial_completed, issues exactly one request, the POST of
    [{completed: true}] to /api/tutorial/complete, and leaves isActive
    false; if that request fails, the handler only logs: the stored flag,
    the manager's fields and the requests issued stay as they were. *)
Theorem completeTutorial_persists_and_notifies s :
  let s' := completeTutorial s in
  localStorage (browser s')
  = <["sclera_tutorial_completed" := "true"]> (localStorage (browser s))
  /\ localStorage (browser s') !! "sclera_tutorial_completed" = Some "true"
  /\ network (browser s') = network (browser s) ++ [completionRequest]
  /\ completionRequest
     = mkRequest "/api/tutorial/complete" "POST" "application/json"
         [("completed", JBool true)]
  /\ isActive (this s') = false
  /\ localStorage (browser (fetchRejected s')) = localStorage (browser s')
  /\ this (fetchRejected s') = this s'
  /\ network (browser (fetchRejected s')) = network (browser s')
  /\ timers (browser (fetchRejected s')) = timers (browser s').
Proof.
  cbn zeta. unfold completeTutorial, showCompletionMessage, endTutorial, setItem, fetch.
  destruct_refs s; repeat split; apply lookup_insert_eq.
Qed.

(** *** What is persisted by skipping and by ending (C8) *)

(** The callbacks that only detach or restyle an element. *)
Definition cosmetic (t : Task) : Prop :=
  match t with
  | TRemove _ | TCalloutRemove | TOverlayRemove | TAddActive _ => True
  | _ => False
  end.

Lemma cosmetic_keeps_storage page t s :
  cosmetic t ->
  localStorage (browser (state_of (runTask page t s))) = localStorage (browser s).
Proof.
  destruct t; cbn; try done; intros _.
  - by destruct (callout (this s)).
  - by destruct (overlay (this s)).
Qed.

(** C8. skipTutorial writes the one key sclera_tutorial_skipped, with
    "true", and leaves every other key as it was; endTutorial leaves the
    whole store as it was. Neither issues a request, and the timers they
    schedule only detach elements, which writes nothing either. *)
Theorem skip_writes_one_flag_end_writes_none page s :
  localStorage (browser (skipTutorial s))
  = <["sclera_tutorial_skipped" := "true"]> (localStorage (browser s))
  /\ (forall k, k <> "sclera_tutorial_skipped" ->
        localStorage (browser (skipTutorial s)) !! k = localStorage (browser s) !! k)
  /\ localStorage (browser (endTutorial s)) = localStorage (browser s)
  /\ network (browser (skipTutorial s)) = network (browser s)
  /\ network (browser (endTutorial s)) = network (browser s)
  /\ (exists added, timers (browser (skipTutorial s)) = timers (browser s) ++ added
        /\ Forall (fun dt => cosmetic dt.2) added)
  /\ (exists added, timers (browser (endTutorial s)) = timers (browser s) ++ added
        /\ Forall (fun dt => cosmetic dt.2) added)
  /\ (forall t s', cosmetic t ->
        localStorage (browser (state_of (runTask page t s'))) = localStorage (browser s')).
Proof.
  assert (Hskip : localStorage (browser (skipTutorial s))
                  = <["sclera_tutorial_skipped" := "true"]> (localStorage (browser s))).
  { unfold skipTutorial, closeWelcomeModal, setItem.
    destruct (queryCreated _ s); reflexivity. }
  split; [exact Hskip|]. split.
  { intros k Hk. rewrite Hskip. by apply lookup_insert_ne. }
  split. { unfold endTutorial. destruct_refs s; reflexivity. }
  split. { unfold skipTutorial, closeWelcomeModal. destruct (queryCreated _ s); reflexivity. }
  split. { unfold endTutorial. destruct_refs s; reflexivity. }
  split.
  { unfold skipTutorial, closeWelcomeModal. destruct (queryCreated _ s) as [m|].
    - eexists [_]. split; [reflexivity|]. by repeat constructor.
    - exists []. split; [by rewrite app_nil_r|constructor]. }
  split.
  { unfold endTutorial, setTimeout. destruct_refs s.
    - eexists [_; _]. split; [by rewrite <- app_assoc|]. by repeat constructor.
    - eexists [_]. split; [reflexivity|]. by repeat constructor.
    - eexists [_]. split; [reflexivity|]. by repeat constructor.
    - exists []. split; [by rewrite app_nil_r|constructor]. }
  intros t s' Ht. by apply cosmetic_keeps_storage.
Qed.

(** *** Stepping back (C9) *)

(** C9. At index 0 previousStep returns the state as it is: no field
    changes and nothing is scheduled. At an index above 0 it takes the
    callout off screen and schedules one transition, 300 ms ahead, which
    calls showStep(currentStep - 1); index and isActive are untouched
    until it fires. *)
Theorem previousStep_at_first_is_noop page s c :
  callout (this s) = Some c ->
  timers (browser s) = [] ->
  (currentStep (this s) = 0 -> previousStep s = Done s)
  /\ (0 < currentStep (this s) ->
      let s1 := state_of (previousStep s) in
      previousStep s = Done s1
      /\ timers (browser s1) = [(clock (browser s) + 300, TShowStepRel (-1))]
      /\ this s1 = this s
      /\ fireNext page s1
         = Some (state_of (showStep page (currentStep (this s) - 1)
                             (set_clock (clock (browser s) + 300)
                                (classListRemoveActive c s))))).
Proof.
  intros Hc Ht. unfold previousStep. split.
  - intros ->. reflexivity.
  - intros Hpos. destruct (Z.ltb_spec 0 (currentStep (this s))); [|lia].
    rewrite Hc. cbn zeta. cbn [state_of].
    split; [reflexivity|].
    assert (Htm : timers (browser (setTimeout (TShowStepRel (-1)) 300
                                     (classListRemoveActive c s)))
                  = [(clock (browser s) + 300, TShowStepRel (-1))]).
    { unfold setTimeout. destruct_state s. by subst. }
    split; [exact Htm|]. split; [destruct_state s; reflexivity|].
    rewrite (fireNext_head page _ _ _ [] Htm) by constructor.
    cbn [runTask]. destruct_state s. subst. rewrite Z.max_r by lia. reflexivity.
Qed.

(** The student tutorial one click further, on its second step. *)
Definition studentAtSecondStep : State := advance studentPage studentAtFirstStep.

Lemma previousStep_witness :
  previousStep studentAtFirstStep = Done studentAtFirstStep
  /\ this (state_of (previousStep studentAtSecondStep)) = this studentAtSecondStep.
Proof.
  assert (Hc : callout (this studentAtFirstStep) = Some 1%nat) by (vm_compute; reflexivity).
  assert (Ht : timers (browser studentAtFirstStep) = []) by (vm_compute; reflexivity).
  assert (H0 : currentStep (this studentAtFirstStep) = 0) by (vm_compute; reflexivity).
  assert (Hc' : callout (this studentAtSecondStep) = Some 1%nat)
    by (vm_compute; reflexivity).
  assert (Ht' : timers (browser studentAtSecondStep) = []) by (vm_compute; reflexivity).
  assert (H1 : 0 < currentStep (this studentAtSecondStep)) by (vm_compute; reflexivity).
  split.
  - exact (proj1 (previousStep_at_first_is_noop studentPage studentAtFirstStep 1 Hc Ht) H0).
  - pose proof (proj2 (previousStep_at_first_is_noop studentPage studentAtSecondStep 1
                         Hc' Ht') H1) as H.
    cbv zeta in H. exact (proj1 (proj2 (proj2 H))).
Defined.

(** *** A start forced from the URL (C10) *)

(** C10. When the query has tutorial=start, init clears the query,
    schedules startTutorial 500 ms ahead and returns: the store is as it
    was (sclera_visited is not written) and no listener is registered.
    If the tutorial so started is closed before completion, the store is
    still as it was, so a later load without the parameter, the tutorial
    not completed and sclera_visited absent, writes sclera_visited and
    schedules the welcome prompt, which then appears. *)
Theorem url_start_leaves_visited_unset page ls query :
  searchGet "tutorial" query = Some "start" ->
  let s0 := newOnboardingManager (pageLoad ls query) in
  let s1 := endTutorial (runTimers 1 page s0) in
  localStorage (browser s0) = ls
  /\ search (browser s0) = []
  /\ timers (browser s0) = [(500, TStartTutorial)]
  /\ listening (browser s0) = false
  /\ runTimers 1 page s0
     = startTutorial page (set_clock 500 (set_timers [] s0))
  /\ localStorage (browser s1) = ls
  /\ (truthyItem "sclera_visited" s0 = false ->
      checkTutorialStatus ls = false ->
      let s2 := newOnboardingManager (pageLoad (localStorage (browser s1)) []) in
      localStorage (browser s2) = <["sclera_visited" := "true"]> ls
      /\ timers (browser s2) = [(800, TShowWelcomeModal)]
      /\ queryCreated "onboarding-modal-overlay" (runTimers 1 page s2) = Some 0%nat).
Proof.
  intros Hq. cbn zeta.
  assert (Hs0 : newOnboardingManager (pageLoad ls query)
                = mkState (mkManager 0 false [] None None (checkTutorialStatus ls))
                    (mkBrowser ls [] [] false None [] [(500, TStartTutorial)] 0 [] []
                       false)).
  { unfold newOnboardingManager, init. cbn. rewrite Hq. reflexivity. }
  rewrite Hs0.
  assert (Hrun : runTimers 1 page
                   (mkState (mkManager 0 false [] None None (checkTutorialStatus ls))
                      (mkBrowser ls [] [] false None [] [(500, TStartTutorial)] 0 [] []
                         false))
                 = startTutorial page
                     (mkState (mkManager 0 false [] None None (checkTutorialStatus ls))
                        (mkBrowser ls [] [] false None [] [] 500 [] [] false)))
    by reflexivity.
  rewrite Hrun.
  assert (Hls : localStorage (browser (endTutorial (startTutorial page
                  (mkState (mkManager 0 false [] None None (checkTutorialStatus ls))
                     (mkBrowser ls [] [] false None [] [] 500 [] [] false))))) = ls)
    by reflexivity.
  rewrite Hls.
  do 6 (split; [reflexivity|]).
  intros Hv Hdone. unfold newOnboardingManager, init, truthyItem in *. cbn in *.
  rewrite Hdone. destruct (ls !! "sclera_visited") as [x|]; cbn in *.
  - rewrite Hv. cbn. by rewrite Hv in *.
  - repeat split.
Qed.

Lemma url_start_witness :
  localStorage (browser (newOnboardingManager (pageLoad ∅ [("tutorial", "start")]))) = ∅
  /\ timers (browser (newOnboardingManager
                        (pageLoad
                           (localStorage
                              (browser
                                 (endTutorial
                                    (runTimers 1 studentPage
                                       (newOnboardingManager
                                          (pageLoad ∅ [("tutorial", "start")]))))))
                           [])))
     = [(800, TShowWelcomeModal)].
Proof.
  pose proof (url_start_leaves_visited_unset studentPage ∅ [("tutorial", "start")]
                eq_refl) as H.
  cbv zeta in H. destruct H as (Hls & _ & _ & _ & _ & _ & Hlater).
  split; [exact Hls|].
  exact (proj1 (proj2 (Hlater eq_refl eq_refl))).
Defined.

End OnboardingFacts.

(** * Properties of the result trigger *)
Module FunctionsFacts.
Import Functions.
Local Open Scope list_scope.
Local Open Scope nat_scope.

(** ** References of plain class ids *)

Lemma splitSlash_noSlash c : noSlash c = true -> splitSlash c = [c].
Proof.
  induction c as [|a c IH]; [reflexivity|]. cbn [noSlash splitSlash].
  intros [Ha Hc]%andb_prop. apply negb_true_iff in Ha. rewrite Ha, (IH Hc). reflexivity.
Qed.

Lemma hasDoubleSlash_noSlash c : noSlash c = true -> hasDoubleSlash c = false.
Proof.
  induction c as [|a c IH]; [reflexivity|]. cbn [noSlash hasDoubleSlash].
  intros [Ha Hc]%andb_prop. apply negb_true_iff in Ha. rewrite Ha.
  destruct c; [reflexivity|]. cbn [andb orb]. exact (IH Hc).
Qed.

Lemma summaryRef_plain c : isPlainId c = true -> summaryRef c = Some (summaryPath c).
Proof.
  unfold isPlainId. intros [Hne Hc]%andb_prop.
  unfold summaryRef. change (collection [] "classes") with (Some ["classes"]).
  cbn [mbind option_bind].
  unfold doc at 2, validateResourcePath, segmentsOf.
  rewrite Hne, (hasDoubleSlash_noSlash c Hc), (splitSlash_noSlash c Hc).
  cbn [negb andb List.filter]. rewrite Hne. reflexivity.
Qed.

Lemma summaryRef_empty : summaryRef EmptyString = None.
Proof. reflexivity. Qed.

Lemma summaryPath_inj c c' : summaryPath c = summaryPath c' -> c = c'.
Proof. unfold summaryPath. congruence. Qed.

(** ** The batch the loop builds *)

(** The write of the loop body, at a reference. *)
Definition summaryWrite (result : ExamResult) (r : list string) : Write :=
  mkWrite r (summaryData result) true.

Lemma forClassIds_refs result ids :
  forall batch ws,
    forClassIds result ids batch = Some ws ->
    exists refs, ws = batch ++ map (summaryWrite result) refs
                 /\ Forall2 (fun c r => summaryRef c = Some r) ids refs.
Proof.
  induction ids as [|c ids IH]; intros batch ws; cbn [forClassIds].
  - intros [= <-]. exists []. by rewrite app_nil_r.
  - destruct (summaryRef c) as [r|] eqn:E; [|discriminate].
    intros H. destruct (IH _ _ H) as (refs & -> & Hall).
    exists (r :: refs). split; [by rewrite <- app_assoc|by constructor].
Qed.

Lemma forClassIds_plain result ids :
  Forall (fun c => isPlainId c = true) ids ->
  forall batch,
    forClassIds result ids batch
    = Some (batch ++ map (fun c => summaryWrite result (summaryPath c)) ids).
Proof.
  induction 1 as [|c ids Hc _ IH]; intros batch; cbn [forClassIds map].
  - by rewrite app_nil_r.
  - rewrite (summaryRef_plain c Hc), IH. by rewrite <- app_assoc.
Qed.

Lemma forClassIds_invalid result ids :
  Exists (fun c => summaryRef c = None) ids ->
  forall batch, forClassIds result ids batch = None.
Proof.
  induction 1 as [c ids Hc|c ids _ IH]; intros batch; cbn [forClassIds].
  - by rewrite Hc.
  - destruct (summaryRef c); [apply IH|reflexivity].
Qed.

Lemma listings_plain c ids :
  listings (summaryPath c) (map summaryPath ids) = occurrences c ids.
Proof.
  induction ids as [|x ids IH]; [reflexivity|]. cbn [map listings occurrences].
  rewrite IH. f_equal.
  destruct (String.eqb_spec x c) as [->|Hne]; case_decide as H; try reflexivity.
  - done.
  - by apply summaryPath_inj in H.
Qed.

Lemma listings_pos q refs : In q refs -> 0 < listings q refs.
Proof.
  induction refs as [|r refs IH]; [intros []|]. cbn [listings].
  intros [->|Hin]; [rewrite decide_True by done; lia|]. specialize (IH Hin). lia.
Qed.

Lemma listings_zero q refs : ~ In q refs -> listings q refs = 0.
Proof.
  induction refs as [|r refs IH]; [reflexivity|]. cbn [listings In]. intros Hn.
  rewrite decide_False by tauto. rewrite IH by tauto. reflexivity.
Qed.

(** ** One write, then a batch *)

Lemma applyWrite_at now db result r :
  let db' := applyWrite now db (summaryWrite result r) in
  users db' = users db
  /\ is_Some (documents db' !! r)
  /\ fieldAt db' r "total_assessments"
     = incremented (Number.ofZ 1) (fieldAt db r "total_assessments")
  /\ fieldAt db' r "total_score_sum"
     = incremented (percentageOrZero result) (fieldAt db r "total_score_sum")
  /\ fieldAt db' r "last_updated" = Some (VTimestamp now)
  /\ (forall f, f <> "total_assessments" -> f <> "total_score_sum" -> f <> "last_updated" ->
        fieldAt db' r f = fieldAt db r f)
  /\ (forall q, q <> r -> documents db' !! q = documents db !! q).
Proof.
  cbn zeta. unfold applyWrite, fieldAt, fieldsAt, summaryWrite, summaryData, incremented.
  cbn [ref merge data users documents].
  rewrite lookup_insert_eq.
  generalize (default ∅ (documents db !! r)); intros d.
  cbn [default foldl]. unfold applyField, id. cbn [fst snd].
  split; [reflexivity|]. split; [by eexists|].
  split; [by rewrite !lookup_insert_ne, lookup_insert_eq by done|].
  split; [by rewrite lookup_insert_ne, lookup_insert_eq, lookup_insert_ne by done|].
  split; [by rewrite lookup_insert_eq|].
  split; [intros f H1 H2 H3; by rewrite !lookup_insert_ne by done|].
  intros q Hq. by rewrite lookup_insert_ne.
Qed.

Lemma fieldAt_ext db1 db2 q f :
  documents db1 !! q = documents db2 !! q -> fieldAt db1 q f = fieldAt db2 q f.
Proof. unfold fieldAt, fieldsAt. by intros ->. Qed.

Lemma commit_at now result refs :
  forall db,
    let db' := commit now (map (summaryWrite result) refs) db in
    users db' = users db /\
    forall q,
      fieldAt db' q "total_assessments"
      = Nat.iter (listings q refs) (incremented (Number.ofZ 1))
          (fieldAt db q "total_assessments")
      /\ fieldAt db' q "total_score_sum"
         = Nat.iter (listings q refs) (incremented (percentageOrZero result))
             (fieldAt db q "total_score_sum")
      /\ (In q refs -> fieldAt db' q "last_updated" = Some (VTimestamp now)
                       /\ is_Some (documents db' !! q))
      /\ (forall f, f <> "total_assessments" -> f <> "total_score_sum" ->
            f <> "last_updated" -> fieldAt db' q f = fieldAt db q f)
      /\ (~ In q refs -> documents db' !! q = documents db !! q).
Proof.
  unfold commit. induction refs as [|r refs IH]; intros db; cbn zeta.
  - cbn. split; [reflexivity|]. intros q. repeat split; tauto.
  - cbn [map foldl].
    set (db1 := applyWrite now db (summaryWrite result r)).
    destruct (IH db1) as [Hu Hq].
    destruct (applyWrite_at now db result r) as (Hu1 & Hs1 & Ha1 & Hs1' & Ht1 & Hf1 & Ho1).
    fold db1 in Hu1, Hs1, Ha1, Hs1', Ht1, Hf1, Ho1.
    split; [congruence|]. intros q.
    destruct (Hq q) as (Ha & Hs & Ht & Hf & Ho).
    cbn [listings In]. case_decide as Hrq.
    + subst q. cbn [Nat.add]. rewrite !Nat.iter_succ_r, <- Ha1, <- Hs1'.
      split; [exact Ha|]. split; [exact Hs|]. split.
      * intros _. destruct (decide (r ∈ refs)) as [Hin%list_elem_of_In|Hnin]; [by apply Ht|].
        rewrite list_elem_of_In in Hnin.
        rewrite (Ho Hnin). split; [|exact Hs1].
        by rewrite (fieldAt_ext _ db1 r _ (Ho Hnin)).
      * split; [|intros H; exfalso; apply H; by left].
        intros f H1 H2 H3. rewrite (Hf f H1 H2 H3). by apply Hf1.
    + assert (Hdoc : documents db1 !! q = documents db !! q) by (apply Ho1; congruence).
      cbn [Nat.add]. rewrite Ha, Hs.
      rewrite !(fieldAt_ext db1 db q _ Hdoc).
      split; [reflexivity|]. split; [reflexivity|]. split.
      * intros [?|Hin]; [congruence|by apply Ht].
      * split; [|intros H; rewrite Ho by tauto; exact Hdoc].
        intros f H1 H2 H3. rewrite (Hf f H1 H2 H3). by apply fieldAt_ext.
Qed.

(** ** Counting on an integer field *)

Lemma encodeNumber_one : encodeNumber (Number.ofZ 1) = VInteger 1.
Proof. reflexivity. Qed.

Lemma encodeNumber_zero : encodeNumber (Number.ofZ 0) = VInteger 0.
Proof. reflexivity. Qed.

Lemma counted_integer (k : nat) :
  forall a : Z,
    (MIN_INT64 <= a)%Z -> (a + Z.of_nat k <= MAX_INT64)%Z ->
    Nat.iter k (incremented (Number.ofZ 1)) (Some (VInteger a))
    = Some (VInteger (a + Z.of_nat k)).
Proof.
  induction k as [|k IH]; intros a Hlo Hhi.
  - cbn [Nat.iter]. by rewrite Z.add_0_r.
  - rewrite Nat.iter_succ_r. unfold incremented at 2. rewrite encodeNumber_one.
    cbn [increment]. unfold saturate.
    rewrite Z.min_r, Z.max_r by lia.
    rewrite IH by lia. do 2 f_equal. lia.
Qed.

Lemma counted_from_nothing (k : nat) current :
  (forall n, current <> Some (VInteger n)) -> (forall d, current <> Some (VDouble d)) ->
  (Z.of_nat (S k) <= MAX_INT64)%Z ->
  Nat.iter (S k) (incremented (Number.ofZ 1)) current = Some (VInteger (Z.of_nat (S k))).
Proof.
  intros Hi Hd Hk. rewrite Nat.iter_succ_r. unfold incremented at 2.
  rewrite encodeNumber_one.
  assert (increment (VInteger 1) current = VInteger 1) as ->.
  { destruct current as [[]|]; try reflexivity; [by destruct (Hi n)|by destruct (Hd d)]. }
  assert (MIN_INT64 <= 1)%Z by (vm_compute; discriminate).
  rewrite counted_integer by lia.
  do 2 f_equal. lia.
Qed.



Lemma onResultCreated_plain db result userId u ids :
  users db !! userId = Some u -> class_ids u = Some ids -> ids <> [] ->
  Forall (fun c => isPlainId c = true) ids ->
  onResultCreated db result userId
  = Commits (map (summaryWrite result) (map summaryPath ids)).
Proof.
  intros Hu Hids Hne Hplain. unfold onResultCreated. rewrite Hu, Hids. cbn [default]. unfold id.
  destruct ids as [|x rest]; [done|]. cbn [length Nat.eqb].
  rewrite (forClassIds_plain result (x :: rest) Hplain []). cbn [app].
  by rewrite map_map.
Qed.

(** C7, as the code has it. The handler returns without a batch when the
    user document is missing or its class_ids is absent or empty. When an
    entry of class_ids is not a valid document path (the empty string is
    not), building its reference throws inside the loop, before the batch
    is committed. In either case, and when the store rejects the batch,
    the store is left as it was. Otherwise (every entry a plain id: not
    empty, no slash) the handler commits one merge-write per entry; when
    the store accepts it, in the summary of each class id total_assessments
    has been incremented by 1 and total_score_sum by the result's
    percentage (0 when it is absent, zero or NaN) once per listing of the
    id, last_updated is the server time, the document exists, and the
    other documents and the users are as they were. On an integer counter
    within the 64-bit range n listings add exactly n. *)
Theorem onResultCreated_class_summaries accepts now db result userId :
  (users db !! userId = None -> onResultCreated db result userId = Returns)
  /\ (forall u, users db !! userId = Some u -> default [] (class_ids u) = [] ->
        onResultCreated db result userId = Returns)
  /\ (forall u ids, users db !! userId = Some u -> class_ids u = Some ids ->
        Exists (fun c => summaryRef c = None) ids ->
        onResultCreated db result userId = Throws)
  /\ summaryRef EmptyString = None
  /\ (onResultCreated db result userId = Returns
      \/ onResultCreated db result userId = Throws
      \/ (exists batch, onResultCreated db result userId = Commits batch
                        /\ accepts db batch = false) ->
      resultCreated accepts now db result userId = db)
  /\ (percentage result = None -> percentageOrZero result = Number.ofZ 0)
  /\ (forall p, percentage result = Some p ->
        percentageOrZero result = if Number.truthy p then p else Number.ofZ 0)
  /\ (forall u ids, users db !! userId = Some u -> class_ids u = Some ids -> ids <> [] ->
        Forall (fun c => isPlainId c = true) ids ->
        let batch := map (fun c => mkWrite (summaryPath c) (summaryData result) true) ids in
        let db' := resultCreated accepts now db result userId in
        onResultCreated db result userId = Commits batch
        /\ length batch = length ids
        /\ (accepts db batch = true ->
            users db' = users db
            /\ (forall c,
                  fieldAt db' (summaryPath c) "total_assessments"
                  = Nat.iter (occurrences c ids) (incremented (Number.ofZ 1))
                      (fieldAt db (summaryPath c) "total_assessments")
                  /\ fieldAt db' (summaryPath c) "total_score_sum"
                     = Nat.iter (occurrences c ids) (incremented (percentageOrZero result))
                         (fieldAt db (summaryPath c) "total_score_sum")
                  /\ (In c ids ->
                      is_Some (documents db' !! summaryPath c)
                      /\ fieldAt db' (summaryPath c) "last_updated" = Some (VTimestamp now))
                  /\ (forall a : Z,
                        fieldAt db (summaryPath c) "total_assessments" = Some (VInteger a) ->
                        (MIN_INT64 <= a)%Z ->
                        (a + Z.of_nat (occurrences c ids) <= MAX_INT64)%Z ->
                        fieldAt db' (summaryPath c) "total_assessments"
                        = Some (VInteger (a + Z.of_nat (occurrences c ids)))))
            /\ (forall q, ~ In q (map summaryPath ids) ->
                  documents db' !! q = documents db !! q))).
Proof.
  split; [intros H; unfold onResultCreated; by rewrite H|].
  split; [intros u Hu He; unfold onResultCreated; rewrite Hu; cbn zeta; by rewrite He|].
  split.
  { intros u ids Hu Hids Hex. unfold onResultCreated. rewrite Hu, Hids. cbn [default]. unfold id.
    destruct ids as [|x rest]; [by apply Exists_nil in Hex|]. cbn [length Nat.eqb].
    by rewrite (forClassIds_invalid result (x :: rest) Hex []). }
  split; [reflexivity|].
  split.
  { unfold resultCreated. intros [->|[->|(batch & -> & ->)]]; reflexivity. }
  split; [intros H; unfold percentageOrZero; by rewrite H|].
  split; [intros p H; unfold percentageOrZero; by rewrite H|].
  intros u ids Hu Hids Hne Hplain. cbn zeta.
  pose proof (onResultCreated_plain db result userId u ids Hu Hids Hne Hplain) as Hb.
  rewrite map_map in Hb. unfold summaryWrite in Hb.
  split; [exact Hb|]. split; [by rewrite length_map|].
  intros Hacc. unfold resultCreated. rewrite Hb, Hacc.
  change (map (fun c => mkWrite (summaryPath c) (summaryData result) true) ids)
    with (map (fun c => summaryWrite result (summaryPath c)) ids).
  rewrite <- (map_map summaryPath (summaryWrite result)).
  destruct (commit_at now result (map summaryPath ids) db) as [Husers Hq].
  split; [exact Husers|]. split.
  - intros c. destruct (Hq (summaryPath c)) as (Ha & Hs & Ht & _ & _).
    rewrite listings_plain in Ha, Hs.
    split; [exact Ha|]. split; [exact Hs|]. split.
    + intros Hin. apply and_comm, Ht. by apply in_map.
    + intros a Hold Hlo Hhi. rewrite Ha, Hold. by apply counted_integer.
  - intros q Hq'. by apply (Hq q).
Qed.

(** A user in two classes, one summary already there. *)
Definition sampleStore : Firestore :=
  mkFirestore {["u1" := mkUser (Some ["c1"; "c2"])]}
    {[summaryPath "c1" := {["total_assessments" := VInteger 4;
                           "total_score_sum" := VInteger 300]}]}.

(** A store that takes every batch. *)
Definition acceptAll : Firestore -> list Write -> bool := fun _ _ => true.

Lemma onResultCreated_class_summaries_witness :
  onResultCreated sampleStore (mkResult (Some (Number.ofZ 85))) "nobody" = Returns
  /\ fieldAt (resultCreated acceptAll 1000 sampleStore (mkResult (Some (Number.ofZ 85))) "u1")
       (summaryPath "c1") "total_assessments"
     = Some (VInteger (4 + Z.of_nat (occurrences "c1" ["c1"; "c2"])))
  /\ fieldAt (resultCreated acceptAll 1000 sampleStore (mkResult (Some (Number.ofZ 85))) "u1")
       (summaryPath "c2") "last_updated" = Some (VTimestamp 1000).
Proof.
  pose proof (onResultCreated_class_summaries acceptAll 1000 sampleStore
                (mkResult (Some (Number.ofZ 85))) "nobody") as H1.
  pose proof (onResultCreated_class_summaries acceptAll 1000 sampleStore
                (mkResult (Some (Number.ofZ 85))) "u1") as H2.
  destruct H1 as (Hnone & _).
  destruct H2 as (_ & _ & _ & _ & _ & _ & _ & Hsome).
  specialize (Hsome (mkUser (Some ["c1"; "c2"])) ["c1"; "c2"] eq_refl eq_refl
                ltac:(discriminate) ltac:(repeat constructor)).
  cbv zeta in Hsome. destruct Hsome as (_ & _ & Hc).
  destruct (Hc eq_refl) as (_ & Hc' & _).
  split; [exact (Hnone eq_refl)|]. split.
  - destruct (Hc' "c1") as (_ & _ & _ & Hint).
    apply Hint; [reflexivity|vm_compute; discriminate|vm_compute; discriminate].
  - destruct (Hc' "c2") as (_ & _ & Ht & _). apply Ht. right. left. reflexivity.
Defined.

(** The same user with an empty string among the class ids. *)
Definition storeWithEmptyId : Firestore :=
  mkFirestore {["u1" := mkUser (Some ["c1"; EmptyString])]}
    {[summaryPath "c1" := {["total_assessments" := VInteger 4;
                           "total_score_sum" := VInteger 300]}]}.

(** C7 as stated fails: with "c1" and the empty string as class_ids the
    user exists and the list is not empty, yet no class is updated. The
    reference of the empty id cannot be built, the handler throws before
    the commit, and the summary of c1 keeps its 4 assessments. *)
Lemma empty_class_id_aborts_every_write :
  (class_ids <$> users storeWithEmptyId !! "u1") = Some (Some ["c1"; EmptyString])
  /\ onResultCreated storeWithEmptyId (mkResult (Some (Number.ofZ 85))) "u1" = Throws
  /\ resultCreated acceptAll 1000 storeWithEmptyId (mkResult (Some (Number.ofZ 85))) "u1"
     = storeWithEmptyId
  /\ fieldAt storeWithEmptyId (summaryPath "c1") "total_assessments" = Some (VInteger 4)
  /\ fieldAt (resultCreated acceptAll 1000 storeWithEmptyId
                (mkResult (Some (Number.ofZ 85))) "u1")
       (summaryPath "c1") "total_assessments" = Some (VInteger 4).
Proof.
  assert (H : onResultCreated storeWithEmptyId (mkResult (Some (Number.ofZ 85))) "u1"
              = Throws) by (vm_compute; reflexivity).
  split; [vm_compute; reflexivity|]. split; [exact H|].
  unfold resultCreated. rewrite H.
  split; [reflexivity|]. split; vm_compute; reflexivity.
Qed.

End FunctionsFacts.

(** * Further properties of the onboarding manager *)
Module OnboardingMore.
Import Onboarding OnboardingFacts.
Local Open Scope list_scope.

(** *** Restarting *)

(** restartTutorial removes the completed and the skipped flag and nothing
    else from the store, forgets the cached completion, and starts the
    tutorial at index 0 at once: it schedules showStep(0) and no welcome
    prompt. *)
Theorem restartTutorial_clears_flags_and_starts page s :
  let s' := restartTutorial page s in
  localStorage (browser s')
  = delete "sclera_tutorial_skipped"
      (delete "sclera_tutorial_completed" (localStorage (browser s)))
  /\ localStorage (browser s') !! "sclera_tutorial_completed" = None
  /\ localStorage (browser s') !! "sclera_tutorial_skipped" = None
  /\ (forall k, k <> "sclera_tutorial_completed" -> k <> "sclera_tutorial_skipped" ->
        localStorage (browser s') !! k = localStorage (browser s) !! k)
  /\ checkTutorialStatus (localStorage (browser s')) = false
  /\ hasCompletedTutorial (this s') = false
  /\ isActive (this s') = true
  /\ currentStep (this s') = 0
  /\ tutorialSteps (this s') = getTutorialSteps page
  /\ (exists earlier, timers (browser s') = earlier ++ [(clock (browser s) + 500, TShowStep 0)]
        /\ Forall (fun dt => dt.2 <> TShowWelcomeModal \/ In dt (timers (browser s))) earlier).
Proof.
  cbn zeta.
  assert (Hls : localStorage (browser (restartTutorial page s))
                = delete "sclera_tutorial_skipped"
                    (delete "sclera_tutorial_completed" (localStorage (browser s)))).
  { unfold restartTutorial, startTutorial, closeWelcomeModal, removeItem.
    destruct (queryCreated _ _); reflexivity. }
  rewrite Hls. split; [reflexivity|].
  split; [by rewrite lookup_delete_ne, lookup_delete_eq|].
  split; [by rewrite lookup_delete_eq|].
  split; [intros k H1 H2; by rewrite !lookup_delete_ne|].
  split; [unfold checkTutorialStatus; by rewrite lookup_delete_ne, lookup_delete_eq|].
  unfold restartTutorial, startTutorial, closeWelcomeModal, removeItem.
  destruct (queryCreated _ _) as [m|]; cbn.
  - repeat split.
    eexists (timers (browser s) ++ [_; _]). split; [by rewrite <- !app_assoc|].
    apply Forall_app. split.
    + apply Forall_forall. intros dt Hin. right. by apply list_elem_of_In.
    + repeat constructor; cbn; discriminate.
  - repeat split.
    eexists (timers (browser s) ++ [_]). split; [by rewrite <- !app_assoc|].
    apply Forall_app. split.
    + apply Forall_forall. intros dt Hin. right. by apply list_elem_of_In.
    + repeat constructor; cbn; discriminate.
Qed.



(** *** No null dereference in reachable states *)

(** The callbacks that dereference [this.overlay] or [this.callout]. *)
Definition needsRefs (t : Task) : bool :=
  match t with
  | TOverlayAddActive | TCalloutRemove | TOverlayRemove => true
  | _ => false
  end.

(** Either the tutorial has been started once, and both references are set
    for good, or it never was: both are null, the catalog is empty and no
    pending callback needs them. *)
Definition refsReady (s : State) : Prop :=
  (is_Some (callout (this s)) /\ is_Some (overlay (this s)))
  \/ (callout (this s) = None /\ overlay (this s) = None
      /\ tutorialSteps (this s) = []
      /\ Forall (fun dt => needsRefs dt.2 = false) (timers (browser s))).

Lemma refsReady_startTutorial page s : refsReady (startTutorial page s).
Proof.
  left. unfold startTutorial, closeWelcomeModal.
  destruct (queryCreated _ s); cbn; split; by eexists.
Qed.

Lemma refsReady_endTutorial s : refsReady s -> refsReady (endTutorial s).
Proof.
  unfold refsReady, endTutorial. intros [[[c Hc] [o Ho]]|(Hc & Ho & Hs & Ht)].
  - left. destruct_state s. subst. cbn. split; by eexists.
  - right. destruct_state s. subst. cbn. done.
Qed.

Lemma refsReady_completeTutorial s : refsReady s -> refsReady (completeTutorial s).
Proof.
  unfold refsReady, completeTutorial, showCompletionMessage, endTutorial.
  intros [[[c Hc] [o Ho]]|(Hc & Ho & Hs & Ht)].
  - left. destruct_state s. subst. cbn. split; by eexists.
  - right. destruct_state s. subst. cbn. repeat split.
    rewrite <- app_assoc. apply Forall_app. split; [done|]. by repeat constructor.
Qed.

Lemma refsReady_nextStep s :
  indexInRange s -> refsReady s ->
  (exists s', nextStep s = Done s') /\ refsReady (state_of (nextStep s)).
Proof.
  intros Hidx Hr. unfold nextStep.
  destruct (Z.ltb_spec (currentStep (this s))
              (Z.of_nat (length (tutorialSteps (this s))) - 1)) as [Hlt|Hge].
  - destruct Hr as [[[c Hc] [o Ho]]|(Hc & Ho & Hs & Ht)].
    + rewrite Hc. split; [by eexists|]. left. destruct_state s. subst. cbn.
      split; by eexists.
    + exfalso. destruct Hidx as [Hlo _]. rewrite Hs in Hlt. cbn in Hlt. lia.
  - split; [by eexists|]. by apply refsReady_completeTutorial.
Qed.

Lemma refsReady_previousStep s :
  indexInRange s -> refsReady s ->
  (exists s', previousStep s = Done s') /\ refsReady (state_of (previousStep s)).
Proof.
  intros Hidx Hr. unfold previousStep.
  destruct (Z.ltb_spec 0 (currentStep (this s))) as [Hlt|Hge].
  - destruct Hr as [[[c Hc] [o Ho]]|(Hc & Ho & Hs & Ht)].
    + rewrite Hc. split; [by eexists|]. left. destruct_state s. subst. cbn.
      split; by eexists.
    + exfalso. destruct Hidx as [_ Hhi]. unfold total in Hhi. rewrite Hs in Hhi.
      cbn in Hhi. lia.
  - split; [by eexists|]. exact Hr.
Qed.

Lemma refsReady_set_currentStep i s : refsReady s -> refsReady (set_currentStep i s).
Proof. unfold refsReady. destruct_state s. done. Qed.

Lemma refsReady_showStep page i s :
  indexInRange s -> refsReady s ->
  (exists s', showStep page i s = Done s') /\ refsReady (state_of (showStep page i s)).
Proof.
  intros Hidx Hr.
  destruct (Z.ltb_spec i 0) as [Hneg|Hpos].
  { rewrite showStep_outside by (by left). split; [by eexists|].
    by apply refsReady_endTutorial. }
  destruct (Z.leb_spec (total s) i) as [Hout|Hin].
  { rewrite showStep_outside by (by right). split; [by eexists|].
    by apply refsReady_endTutorial. }
  destruct (lookup_lt_is_Some_2 (tutorialSteps (this s)) (Z.to_nat i)) as [step Hst];
    [unfold total in Hin; lia|].
  destruct (querySelector page (target step)) as [el|] eqn:Hq.
  - destruct Hr as [[[c Hc] [o Ho]]|(Hc & Ho & Hs & Ht)].
    + rewrite (showStep_found page s i step el c) by (done || lia).
      split; [by eexists|]. left. cbn [state_of]. rewrite shown_this.
      destruct_state s. subst. split; by eexists.
    + rewrite Hs in Hst. discriminate Hst.
  - rewrite showStep_missing by (lia || by exists step).
    apply refsReady_nextStep.
    + unfold indexInRange, total in *. destruct_state s. lia.
    + by apply refsReady_set_currentStep.
Qed.



(** The state a timer callback starts from: the timer taken out of the
    queue, the clock at its due time. *)
Definition beforeCallback (k : nat) (d : Z) (s : State) : State :=
  set_clock (Z.max (clock (browser s)) d) (set_timers (delete k (timers (browser s))) s).

Lemma refsReady_beforeCallback k d s : refsReady s -> refsReady (beforeCallback k d s).
Proof.
  unfold refsReady, beforeCallback. intros [H|(Hc & Ho & Hs & Ht)].
  - left. destruct_state s. exact H.
  - right. destruct_state s. repeat split; try done. by apply Forall_delete.
Qed.

Lemma indexInRange_beforeCallback k d s :
  indexInRange s -> indexInRange (beforeCallback k d s).
Proof. apply indexInRange_cursor. reflexivity. Qed.

Lemma refsReady_same s s' :
  this s' = this s -> timers (browser s') = timers (browser s) ->
  refsReady s -> refsReady s'.
Proof. unfold refsReady. intros -> ->. done. Qed.

Lemma refsReady_setTimeout t delay s :
  needsRefs t = false -> refsReady s -> refsReady (setTimeout t delay s).
Proof.
  unfold refsReady, setTimeout. intros Ht [H|(Hc & Ho & Hs & Hall)].
  - left. destruct_state s. exact H.
  - right. destruct_state s. repeat split; try done.
    apply Forall_app. split; [done|]. by repeat constructor.
Qed.

Lemma refsReady_runTask page t s :
  indexInRange s -> refsReady s ->
  (needsRefs t = true -> is_Some (callout (this s)) /\ is_Some (overlay (this s))) ->
  (exists s', runTask page t s = Done s') /\ refsReady (state_of (runTask page t s)).
Proof.
  intros Hidx Hr Hneed. destruct t; cbn [runTask state_of].
  - split; [by eexists|]. apply refsReady_startTutorial.
  - split; [by eexists|]. unfold showWelcomeModal, appendElement.
    apply refsReady_setTimeout; [done|]. by apply (refsReady_same s).
  - by apply refsReady_showStep.
  - by apply refsReady_showStep.
  - split; [by eexists|]. by apply (refsReady_same s).
  - split; [by eexists|]. by apply (refsReady_same s).
  - destruct (Hneed eq_refl) as [_ [o Ho]]. rewrite Ho.
    split; [by eexists|]. by apply (refsReady_same s).
  - destruct (Hneed eq_refl) as [[c Hc] _]. rewrite Hc.
    split; [by eexists|]. by apply (refsReady_same s).
  - destruct (Hneed eq_refl) as [_ [o Ho]]. rewrite Ho.
    split; [by eexists|]. by apply (refsReady_same s).
  - split; [by eexists|]. apply refsReady_setTimeout; [done|].
    by apply (refsReady_same s).
Qed.

(** A pending callback that needs the references finds them set. *)
Lemma refsReady_pending s k d t :
  refsReady s -> timers (browser s) !! k = Some (d, t) -> needsRefs t = true ->
  is_Some (callout (this s)) /\ is_Some (overlay (this s)).
Proof.
  intros [H|(_ & _ & _ & Hall)] Hk Hn; [exact H|].
  pose proof (proj1 (Forall_lookup _ _) Hall k (d, t) Hk) as Hf. cbn in Hf. congruence.
Qed.

Lemma refsReady_fireAt page k s :
  indexInRange s -> refsReady s -> refsReady (fireAt page k s).
Proof.
  intros Hidx Hr. unfold fireAt.
  destruct (timers (browser s) !! k) as [[d t]|] eqn:Hk; [|exact Hr].
  apply (refsReady_runTask page t (beforeCallback k d s)).
  - by apply indexInRange_beforeCallback.
  - by apply refsReady_beforeCallback.
  - intros Hn. destruct (refsReady_pending s k d t Hr Hk Hn) as [Hc Ho].
    destruct_state s. done.
Qed.

Lemma refsReady_handle page ev s :
  indexInRange s -> refsReady s -> refsReady (handle page ev s).
Proof.
  intros Hidx Hr. destruct ev; cbn [handle].
  - apply refsReady_startTutorial.
  - unfold skipTutorial, closeWelcomeModal, setItem.
    destruct (queryCreated _ s) as [m|].
    + apply (refsReady_same (setTimeout (TRemove m) 300 s)); [reflexivity..|].
      by apply refsReady_setTimeout.
    + by apply (refsReady_same s).
  - by apply refsReady_endTutorial.
  - by apply refsReady_nextStep.
  - by apply refsReady_previousStep.
  - by apply refsReady_completeTutorial.
  - apply refsReady_startTutorial.
  - by apply refsReady_showStep.
  - unfold showWelcomeModal, appendElement.
    apply refsReady_setTimeout; [done|]. by apply (refsReady_same s).
  - destruct (listening (browser s)); [apply refsReady_startTutorial|exact Hr].
  - by apply refsReady_fireAt.
  - by apply (refsReady_same s).
Qed.

Lemma refsReady_load ls query : refsReady (newOnboardingManager (pageLoad ls query)).
Proof.
  right. unfold newOnboardingManager, init. cbn.
  destruct (match searchGet "tutorial" query with Some v => _ | None => _ end).
  - cbn. repeat split. by repeat constructor.
  - destruct (_ && _); cbn; repeat split; by repeat constructor.
Qed.

Lemma reachable_refsReady s : reachable s -> refsReady s.
Proof.
  induction 1 as [ls query|page ev s Hreach IH].
  - apply refsReady_load.
  - apply refsReady_handle; [by apply reachable_indexInRange|exact IH].
Qed.

(** In a reachable state no method and no timer callback dereferences a
    null [this.callout] or [this.overlay], nor reads a step past the
    catalog: nextStep, previousStep, showStep at any index, and every
    pending callback all return normally. *)
Theorem reachable_never_raises page s :
  reachable s ->
  (exists s', nextStep s = Done s')
  /\ (exists s', previousStep s = Done s')
  /\ (forall i, exists s', showStep page i s = Done s')
  /\ (forall k d t, timers (browser s) !! k = Some (d, t) ->
        exists s', runTask page t (beforeCallback k d s) = Done s').
Proof.
  intros Hreach.
  pose proof (reachable_indexInRange s Hreach) as Hidx.
  pose proof (reachable_refsReady s Hreach) as Hr.
  split; [by apply refsReady_nextStep|].
  split; [by apply refsReady_previousStep|].
  split; [intros i; by apply refsReady_showStep|].
  intros k d t Hk.
  apply (refsReady_runTask page t (beforeCallback k d s)).
  - by apply indexInRange_beforeCallback.
  - by apply refsReady_beforeCallback.
  - intros Hn. destruct (refsReady_pending s k d t Hr Hk Hn) as [Hc Ho].
    destruct_state s. done.
Qed.

(** Firing the earliest timer is firing one of the pending timers. *)
Lemma takeDue_position d ts t rest :
  takeDue d ts = Some (t, rest) ->
  exists k, ts !! k = Some (d, t) /\ rest = delete k ts.
Proof.
  revert t rest. induction ts as [|[d' t'] ts IH]; intros t rest H; [discriminate H|].
  cbn [takeDue] in H. destruct (Z.eqb_spec d' d) as [->|Hne].
  - injection H as <- <-. by exists 0%nat.
  - destruct (takeDue d ts) as [[t1 rest1]|] eqn:E; [|discriminate H].
    injection H as <- <-. destruct (IH t1 rest1 eq_refl) as (k & Hk & ->).
    by exists (S k).
Qed.

Lemma fireNext_fireAt page s s' :
  fireNext page s = Some s' -> exists k, s' = fireAt page k s.
Proof.
  unfold fireNext. destruct (minDue (timers (browser s))) as [d|]; [|discriminate].
  destruct (takeDue d (timers (browser s))) as [[t rest]|] eqn:E; [|discriminate].
  intros [= <-]. destruct (takeDue_position _ _ _ _ E) as (k & Hk & ->).
  exists k. unfold fireAt. by rewrite Hk.
Qed.

Lemma reachable_runTimers fuel page s : reachable s -> reachable (runTimers fuel page s).
Proof.
  revert s. induction fuel as [|fuel IH]; intros s Hreach; [exact Hreach|].
  cbn [runTimers]. destruct (fireNext page s) as [s'|] eqn:E; [|exact Hreach].
  apply IH. destruct (fireNext_fireAt page s s' E) as [k ->].
  exact (reach_step page (TimerFires k) s Hreach).
Qed.

Lemma reachable_studentAtFirstStep : reachable studentAtFirstStep.
Proof.
  apply reachable_runTimers.
  exact (reach_step studentPage CallStartTutorial _
           (reach_load {["sclera_visited" := "true"]} [])).
Qed.

Lemma reachable_never_raises_witness :
  exists s', nextStep studentAtFirstStep = Done s'.
Proof.
  exact (proj1 (reachable_never_raises studentPage studentAtFirstStep
                  reachable_studentAtFirstStep)).
Defined.



(** *** What is written and what is sent *)

(** An operation is quiet when it leaves the store and the requests as
    they were; it completes when it stores the completed flag and sends
    the one completion request. *)
Definition quiet (s s' : State) : Prop :=
  localStorage (browser s') = localStorage (browser s)
  /\ network (browser s') = network (browser s).
Definition completes (s s' : State) : Prop :=
  localStorage (browser s')
  = <["sclera_tutorial_completed" := "true"]> (localStorage (browser s))
  /\ network (browser s') = network (browser s) ++ [completionRequest].

Lemma quiet_endTutorial s : quiet s (endTutorial s).
Proof. unfold quiet, endTutorial. destruct_refs s; by split. Qed.

Lemma completes_completeTutorial s : completes s (completeTutorial s).
Proof.
  unfold completes, completeTutorial, showCompletionMessage, endTutorial.
  destruct_refs s; by split.
Qed.

Lemma quiet_startTutorial page s : quiet s (startTutorial page s).
Proof.
  unfold quiet, startTutorial, closeWelcomeModal. destruct (queryCreated _ s); by split.
Qed.

Lemma effect_nextStep s :
  quiet s (state_of (nextStep s)) \/ completes s (state_of (nextStep s)).
Proof.
  unfold nextStep. destruct (_ <? _)%Z.
  - left. destruct (callout (this s)); by split.
  - right. apply completes_completeTutorial.
Qed.

Lemma effect_showStep page i s :
  quiet s (state_of (showStep page i s)) \/ completes s (state_of (showStep page i s)).
Proof.
  unfold showStep. destruct (_ || _); [left; apply quiet_endTutorial|].
  destruct (tutorialSteps (this (set_currentStep i s)) !! Z.to_nat i) as [step|];
    [|left; by split].
  destruct (querySelector page (target step)) as [el|].
  - left. destruct (callout (this (set_currentStep i s))) as [c|]; [|by split].
    cbn [state_of]. unfold positionCallout.
    destruct (calloutPlacement _ _ _) as [[? ?] ?]. by split.
  - exact (effect_nextStep (set_currentStep i s)).
Qed.

Lemma effect_runTask page t s :
  quiet s (state_of (runTask page t s)) \/ completes s (state_of (runTask page t s)).
Proof.
  destruct t; cbn [runTask state_of]; try (left; by split).
  - left. apply quiet_startTutorial.
  - apply effect_showStep.
  - apply effect_showStep.
  - left. destruct (overlay (this s)); by split.
  - left. destruct (callout (this s)); by split.
  - left. destruct (overlay (this s)); by split.
Qed.

Lemma effect_fireAt page k s :
  quiet s (fireAt page k s) \/ completes s (fireAt page k s).
Proof.
  unfold fireAt. destruct (timers (browser s) !! k) as [[d t]|]; [|left; by split].
  exact (effect_runTask page t (beforeCallback k d s)).
Qed.

(** What one event does to the store and to the requests: nothing, the
    completion, the skip flag, or the two removals of a restart. *)
Lemma effect_handle page ev s :
  quiet s (handle page ev s)
  \/ completes s (handle page ev s)
  \/ (localStorage (browser (handle page ev s))
      = <["sclera_tutorial_skipped" := "true"]> (localStorage (browser s))
      /\ network (browser (handle page ev s)) = network (browser s))
  \/ (localStorage (browser (handle page ev s))
      = delete "sclera_tutorial_skipped"
          (delete "sclera_tutorial_completed" (localStorage (browser s)))
      /\ network (browser (handle page ev s)) = network (browser s)).
Proof.
  destruct ev; cbn [handle].
  - left. apply quiet_startTutorial.
  - right. right. left. unfold skipTutorial, closeWelcomeModal.
    destruct (queryCreated _ s); by split.
  - left. apply quiet_endTutorial.
  - destruct (effect_nextStep s); auto.
  - left. unfold previousStep. destruct (_ <? _)%Z; [|by split].
    destruct (callout (this s)); by split.
  - right. left. apply completes_completeTutorial.
  - right. right. right. unfold restartTutorial, startTutorial, closeWelcomeModal.
    destruct (queryCreated _ _); by split.
  - destruct (effect_showStep page i s); auto.
  - left. by split.
  - left. destruct (listening (browser s)); [apply quiet_startTutorial|by split].
  - destruct (effect_fireAt page k s); auto.
  - left. by split.
Qed.

(** After the page has loaded, no event touches a key of the store other
    than the completed and the skipped flag (sclera_visited in particular
    is written by init alone), and each of these two is either left as it
    was, set to "true", or removed. *)
Theorem events_write_two_keys_only page ev s k :
  (k <> "sclera_tutorial_completed" -> k <> "sclera_tutorial_skipped" ->
   localStorage (browser (handle page ev s)) !! k = localStorage (browser s) !! k)
  /\ (localStorage (browser (handle page ev s)) !! k = localStorage (browser s) !! k
      \/ localStorage (browser (handle page ev s)) !! k = Some "true"
      \/ localStorage (browser (handle page ev s)) !! k = None).
Proof.
  destruct (effect_handle page ev s) as [[-> _]|[[-> _]|[[-> _]|[-> _]]]].
  - split; auto.
  - split; [intros; by rewrite lookup_insert_ne|].
    rewrite lookup_insert. case_decide; auto.
  - split; [intros; by rewrite lookup_insert_ne|].
    rewrite lookup_insert. case_decide; auto.
  - split; [intros; by rewrite !lookup_delete_ne|].
    rewrite !lookup_delete. repeat case_decide; auto.
Qed.

(** Every request a reachable manager has issued is the completion POST,
    and an event that issues one stores the completed flag with it. *)
Theorem only_completion_requests_are_sent s :
  reachable s ->
  Forall (fun r => r = completionRequest) (network (browser s))
  /\ (forall page ev,
        network (browser (handle page ev s)) = network (browser s)
        \/ (network (browser (handle page ev s))
            = network (browser s) ++ [completionRequest]
            /\ localStorage (browser (handle page ev s)) !! "sclera_tutorial_completed"
               = Some "true")).
Proof.
  intros Hreach. split.
  - induction Hreach as [ls query|page ev s Hreach IH].
    + unfold newOnboardingManager, init. cbn.
      destruct (match searchGet "tutorial" query with Some v => _ | None => _ end);
        [constructor|].
      destruct (_ && _); constructor.
    + destruct (effect_handle page ev s) as [[_ ->]|[[_ ->]|[[_ ->]|[_ ->]]]]; try done.
      apply Forall_app. split; [done|]. by repeat constructor.
  - intros page ev.
    destruct (effect_handle page ev s) as [[_ ->]|[[-> ->]|[[_ ->]|[_ ->]]]]; auto.
    right. split; [reflexivity|]. apply lookup_insert_eq.
Qed.



Lemma only_completion_requests_witness :
  Forall (fun r => r = completionRequest)
    (network (browser (handle studentPage CallCompleteTutorial studentAtFirstStep))).
Proof.
  exact (proj1 (only_completion_requests_are_sent
                  (handle studentPage CallCompleteTutorial studentAtFirstStep)
                  (reach_step studentPage CallCompleteTutorial studentAtFirstStep
                     reachable_studentAtFirstStep))).
Defined.

(** *** Missing targets up to the end of the catalog *)

(** The state in which the callback of a skipped step [i] calls
    showStep(i + 1). *)
Definition afterSkip (c : nat) (i : Z) (s : State) : State :=
  set_clock (clock (browser s) + 300) (classListRemoveActive c (set_currentStep i s)).

Lemma skip_once page s c v i :
  calloutHolds c v s -> timers (browser s) = [] ->
  0 <= i < total s - 1 ->
  missingAt page (tutorialSteps (this s)) i ->
  let s0 := state_of (showStep page i s) in
  visibleStep s0 = None
  /\ fireNext page s0 = Some (state_of (showStep page (i + 1) (afterSkip c i s)))
  /\ calloutHolds c v (afterSkip c i s)
  /\ timers (browser (afterSkip c i s)) = []
  /\ tutorialSteps (this (afterSkip c i s)) = tutorialSteps (this s)
  /\ quiet s (afterSkip c i s).
Proof.
  intros (Hc & el & Hel & Hatt & Hv) Ht Hi Hmiss. cbn zeta.
  rewrite (showStep_missing page s i) by (lia || done).
  rewrite (nextStep_inner (set_currentStep i s) c);
    [|unfold total in *; destruct_state s; lia | destruct_state s; done].
  cbn [state_of].
  assert (Hel0 : forall s', elements (browser s')
                            = elements (browser (classListRemoveActive c (set_currentStep i s)))
                 -> elements (browser s') !! c
                    = Some (mkElement (className el) false (attached el) (view el))).
  { intros s' ->. unfold classListRemoveActive, updElement. destruct_state s.
    by rewrite list_lookup_alter_eq, Hel. }
  split.
  { unfold visibleStep.
    replace (callout (this (setTimeout (TShowStepRel 1) 300
                              (classListRemoveActive c (set_currentStep i s)))))
      with (Some c) by (destruct_state s; done).
    by rewrite (Hel0 (setTimeout (TShowStepRel 1) 300
                        (classListRemoveActive c (set_currentStep i s))) eq_refl). }
  split.
  { assert (Htm : timers (browser (setTimeout (TShowStepRel 1) 300
                                     (classListRemoveActive c (set_currentStep i s))))
                  = [(clock (browser s) + 300, TShowStepRel 1)]).
    { unfold setTimeout. destruct_state s. by subst. }
    rewrite (fireNext_head page _ _ _ [] Htm) by constructor.
    cbn [runTask]. unfold afterSkip. destruct_state s. subst.
    rewrite Z.max_r by lia. reflexivity. }
  split.
  { split; [unfold afterSkip; destruct_state s; done|].
    exists (mkElement (className el) false (attached el) (view el)).
    split; [apply Hel0; reflexivity|]. done. }
  split; [unfold afterSkip; destruct_state s; done|].
  split; [unfold afterSkip; destruct_state s; done|].
  unfold afterSkip. destruct_state s. by split.
Qed.

Lemma completeTutorial_hidden s c v :
  calloutHolds c v s -> visibleStep (completeTutorial s) = None.
Proof.
  intros (Hc & el & Hel & Hatt & Hv).
  unfold visibleStep, completeTutorial, showCompletionMessage, endTutorial,
    classListRemoveActive, updElement, appendElement, setTimeout.
  destruct_refs s; try discriminate; injection Hc as ->; cbn.
  - rewrite lookup_app_l by (rewrite !length_alter; by apply lookup_lt_Some in Hel).
    destruct (decide (n = c)) as [->|Hne].
    + by rewrite list_lookup_alter_eq, list_lookup_alter_eq, Hel.
    + by rewrite list_lookup_alter_ne, list_lookup_alter_eq, Hel.
  - rewrite lookup_app_l by (rewrite !length_alter; by apply lookup_lt_Some in Hel).
    by rewrite list_lookup_alter_eq, Hel.
Qed.

Lemma skip_to_end page c (k : nat) :
  forall s v i,
    calloutHolds c v s -> timers (browser s) = [] ->
    0 <= i -> i + Z.of_nat k = total s - 1 ->
    (forall j, i <= j < total s -> missingAt page (tutorialSteps (this s)) j) ->
    let s0 := state_of (showStep page i s) in
    (forall m, (m <= k)%nat -> visibleStep (runTimers m page s0) = None)
    /\ completes s (runTimers k page s0)
    /\ isActive (this (runTimers k page s0)) = false
    /\ currentStep (this (runTimers k page s0)) = total s - 1.
Proof.
  induction k as [|k IH]; intros s v i Hhold Ht Hi Hend Hmiss; cbn zeta.
  - rewrite Z.add_0_r in Hend.
    rewrite (showStep_missing page s i) by (lia || apply Hmiss; lia).
    rewrite nextStep_last by (unfold total in *; destruct_state s; lia).
    cbn [state_of runTimers].
    split; [intros m Hm; assert (m = 0%nat) as -> by lia; cbn [runTimers];
            apply (completeTutorial_hidden _ c v);
            destruct Hhold as (Hc & Hel); split; [destruct_state s; done|exact Hel]|].
    split.
    { destruct (completes_completeTutorial (set_currentStep i s)) as [Hl Hn].
      split; [rewrite Hl|rewrite Hn]; destruct_state s; done. }
    split.
    { unfold completeTutorial, showCompletionMessage, endTutorial.
      destruct_refs s; reflexivity. }
    { rewrite <- Hend. unfold completeTutorial, showCompletionMessage, endTutorial.
      destruct_refs s; reflexivity. }
  - destruct (skip_once page s c v i Hhold Ht ltac:(lia) (Hmiss i ltac:(lia)))
      as (Hvis & Hfire & Hhold1 & Ht1 & Hsteps & Hq1 & Hq2).
    assert (Htot : total (afterSkip c i s) = total s) by (unfold total; by rewrite Hsteps).
    destruct (IH (afterSkip c i s) v (i + 1) Hhold1 Ht1 ltac:(lia))
      as (Hm & (Hl & Hn) & Hact & Hcur).
    + rewrite Htot. lia.
    + intros j Hj. rewrite Hsteps. apply Hmiss. rewrite Htot in Hj. lia.
    + rewrite (runTimers_step k page _ _ Hfire). rewrite Htot in Hcur.
      split; [|split; [split; congruence|split; done]].
      intros [|m] Hle; [exact Hvis|].
      rewrite (runTimers_step m page _ _ Hfire). apply Hm. lia.
Qed.

(** If no step from index i to the end of the catalog has its target on
    the page, showStep(i) called at rest never puts the callout on screen,
    and after one scheduled transition per remaining step the tutorial has
    completed on its own: the completed flag is stored, the completion
    request is sent, and the manager is inactive on the last index. *)
Theorem missing_tail_completes_silently page s c v i :
  calloutHolds c v s ->
  timers (browser s) = [] ->
  0 <= i < total s ->
  (forall j, i <= j < total s -> missingAt page (tutorialSteps (this s)) j) ->
  let k := Z.to_nat (total s - 1 - i) in
  let s0 := state_of (showStep page i s) in
  (forall m, (m <= k)%nat -> visibleStep (runTimers m page s0) = None)
  /\ localStorage (browser (runTimers k page s0)) !! "sclera_tutorial_completed"
     = Some "true"
  /\ network (browser (runTimers k page s0)) = network (browser s) ++ [completionRequest]
  /\ isActive (this (runTimers k page s0)) = false
  /\ currentStep (this (runTimers k page s0)) = total s - 1.
Proof.
  intros Hhold Ht Hi Hmiss k s0.
  destruct (skip_to_end page c k s v i Hhold Ht ltac:(lia) ltac:(lia) Hmiss)
    as (Hm & (Hl & Hn) & Hact & Hcur).
  subst s0. split; [exact Hm|]. split; [rewrite Hl; apply lookup_insert_eq|].
  split; [exact Hn|]. split; [exact Hact|exact Hcur].
Qed.



(** A dashboard on which no selector finds anything. *)
Definition barePage : Page :=
  mkPage (Some "student") (fun _ => None) (DOMRect.mk 0 0 320 180 180 320) 1280 720.

(** The tutorial started there, as the callback of startTutorial is about
    to call showStep(0). *)
Definition bareBeforeFirstStep : State :=
  set_timers [] (runTimers 1 barePage (startTutorial barePage returningVisitor)).

Lemma barePage_missingAt steps j :
  0 <= j < Z.of_nat (length steps) -> missingAt barePage steps j.
Proof.
  intros Hj. destruct (lookup_lt_is_Some_2 steps (Z.to_nat j)) as [step Hst]; [lia|].
  exists step. split; [exact Hst|reflexivity].
Qed.

Lemma missing_tail_completes_silently_witness :
  isActive (this (runTimers (Z.to_nat (total bareBeforeFirstStep - 1 - 0)) barePage
                    (state_of (showStep barePage 0 bareBeforeFirstStep)))) = false.
Proof.
  assert (Hhold : calloutHolds 1 calloutTemplate bareBeforeFirstStep).
  { split; [vm_compute; reflexivity|]. eexists.
    split; [vm_compute; reflexivity|]. split; vm_compute; reflexivity. }
  assert (Ht : timers (browser bareBeforeFirstStep) = []) by (vm_compute; reflexivity).
  assert (Hi : 0 <= 0 < total bareBeforeFirstStep) by (vm_compute; split; congruence).
  pose proof (missing_tail_completes_silently barePage bareBeforeFirstStep 1 calloutTemplate
                0 Hhold Ht Hi
                (barePage_missingAt (tutorialSteps (this bareBeforeFirstStep)))) as H.
  cbv zeta in H. exact (proj1 (proj2 (proj2 (proj2 H)))).
Defined.

(** *** Two clicks before the transition fires *)

Lemma shown_quiet page i step el c s : quiet s (shown page i step el c s).
Proof.
  unfold quiet, shown, positionCallout. cbn zeta.
  destruct (calloutPlacement _ _ _) as [[? ?] ?]. by split.
Qed.

(** nextStep called twice in a row on the second-to-last step, before the
    first scheduled transition has fired: both callbacks read the index
    when they fire, so the first shows the last step and the second calls
    showStep one past the end, which ends the tutorial. The tutorial is
    over without having been completed: no flag is stored and no request
    is sent. *)
Theorem double_next_on_penultimate_ends_uncompleted page s c :
  callout (this s) = Some c ->
  timers (browser s) = [] ->
  0 <= currentStep (this s) ->
  currentStep (this s) = total s - 2 ->
  foundAt page (tutorialSteps (this s)) (total s - 1) ->
  let s2 := state_of (nextStep (state_of (nextStep s))) in
  length (timers (browser s2)) = 2%nat
  /\ currentStep (this (runTimers 1 page s2)) = total s - 1
  /\ isActive (this (runTimers 2 page s2)) = false
  /\ currentStep (this (runTimers 2 page s2)) = total s - 1
  /\ localStorage (browser (runTimers 2 page s2)) = localStorage (browser s)
  /\ network (browser (runTimers 2 page s2)) = network (browser s).
Proof.
  intros Hc Ht Hlo Hcur (step & el & Hst & Hq). cbn zeta.
  rewrite (nextStep_inner s c) by (lia || done). cbn [state_of].
  set (sa := setTimeout (TShowStepRel 1) 300 (classListRemoveActive c s)).
  assert (Hca : callout (this sa) = Some c) by (subst sa; destruct_state s; done).
  assert (Hcura : currentStep (this sa) = currentStep (this s))
    by (subst sa; destruct_state s; done).
  assert (Htota : total sa = total s) by (subst sa; destruct_state s; done).
  rewrite (nextStep_inner sa c) by (lia || done). cbn [state_of].
  set (sb := setTimeout (TShowStepRel 1) 300 (classListRemoveActive c sa)).
  set (due := clock (browser s) + 300).
  assert (Htb : timers (browser sb) = [(due, TShowStepRel 1); (due, TShowStepRel 1)]).
  { subst sb sa due. unfold setTimeout. destruct_state s. by subst. }
  set (s1 := set_clock (Z.max (clock (browser sb)) due)
               (set_timers [(due, TShowStepRel 1)] sb)).
  assert (Hfire1 : fireNext page sb
                   = Some (shown page (total s - 1) step el c s1)).
  { rewrite (fireNext_head page sb _ _ _ Htb) by (repeat constructor; cbn; lia).
    cbn [runTask]. fold s1.
    replace (currentStep (this s1) + 1) with (total s - 1)
      by (subst s1 sb sa; destruct_state s; lia).
    rewrite (showStep_found page s1 (total s - 1) step el c); [reflexivity|..].
    - subst s1 sb sa. unfold total in *. destruct_state s. lia.
    - subst s1 sb sa. destruct_state s. exact Hst.
    - exact Hq.
    - subst s1 sb sa. destruct_state s. exact Hc. }
  set (s1' := shown page (total s - 1) step el c s1) in *.
  assert (Htm1 : timers (browser s1') = [(due, TShowStepRel 1)]).
  { subst s1'. rewrite shown_timers. subst s1. destruct_state sb. reflexivity. }
  assert (Hthis1 : this s1' = this (set_currentStep (total s - 1) s)).
  { subst s1'. rewrite shown_this. subst s1 sb sa. destruct_state s. reflexivity. }
  set (s2 := set_clock (Z.max (clock (browser s1')) due) (set_timers [] s1')).
  assert (Hthis2 : this s2 = this s1') by (subst s2; destruct_state s1'; reflexivity).
  assert (Hcur2 : currentStep (this s2) = total s - 1)
    by (rewrite Hthis2, Hthis1; destruct_state s; reflexivity).
  assert (Htot2 : total s2 = total s)
    by (unfold total; rewrite Hthis2, Hthis1; destruct_state s; reflexivity).
  assert (Hfire2 : fireNext page s1' = Some (endTutorial s2)).
  { rewrite (fireNext_head page s1' _ _ _ Htm1) by constructor.
    cbn [runTask]. fold s2.
    rewrite showStep_outside; [reflexivity|]. right. lia. }
  split; [by rewrite Htb|].
  rewrite (runTimers_step 0 page sb _ Hfire1).
  rewrite (runTimers_step 1 page sb _ Hfire1), (runTimers_step 0 page s1' _ Hfire2).
  cbn [runTimers].
  assert (Hq1 : quiet s s1').
  { destruct (shown_quiet page (total s - 1) step el c s1) as [Hl Hn]. fold s1' in Hl, Hn.
    split; [rewrite Hl|rewrite Hn]; subst s1 sb sa; destruct_state s; reflexivity. }
  assert (Hq2 : quiet s1' (endTutorial s2)).
  { destruct (quiet_endTutorial s2) as [Hl Hn].
    split; [rewrite Hl|rewrite Hn]; subst s2; destruct_state s1'; reflexivity. }
  split; [by rewrite Hthis1|].
  split; [unfold endTutorial; destruct_refs s2; reflexivity|].
  split.
  { transitivity (currentStep (this s2)); [|exact Hcur2].
    unfold endTutorial. destruct_refs s2; reflexivity. }
  destruct Hq1 as [Hl1 Hn1], Hq2 as [Hl2 Hn2]. split; congruence.
Qed.



Lemma studentPage_foundAt steps j :
  0 <= j < Z.of_nat (length steps) -> foundAt studentPage steps j.
Proof.
  intros Hj. destruct (lookup_lt_is_Some_2 steps (Z.to_nat j)) as [step Hst]; [lia|].
  exists step, (mkTarget 7 anyRect). split; [exact Hst|reflexivity].
Qed.

(** The student tutorial on its second-to-last step. *)
Definition studentAtPenultimate : State :=
  Nat.iter 18 (advance studentPage) studentAtFirstStep.

Lemma double_next_on_penultimate_witness :
  isActive (this (runTimers 2 studentPage
                    (state_of (nextStep (state_of (nextStep studentAtPenultimate))))))
  = false
  /\ localStorage (browser (runTimers 2 studentPage
                              (state_of (nextStep (state_of (nextStep studentAtPenultimate))))))
     = localStorage (browser studentAtPenultimate).
Proof.
  assert (Hc : callout (this studentAtPenultimate) = Some 1%nat) by (vm_compute; reflexivity).
  assert (Ht : timers (browser studentAtPenultimate) = []) by (vm_compute; reflexivity).
  assert (Hlo : 0 <= currentStep (this studentAtPenultimate)) by (vm_compute; congruence).
  assert (Hcur : currentStep (this studentAtPenultimate) = total studentAtPenultimate - 2)
    by (vm_compute; reflexivity).
  assert (Hlast : 0 <= total studentAtPenultimate - 1
                  < Z.of_nat (length (tutorialSteps (this studentAtPenultimate))))
    by (vm_compute; split; congruence).
  pose proof (double_next_on_penultimate_ends_uncompleted studentPage studentAtPenultimate 1
                Hc Ht Hlo Hcur (studentPage_foundAt _ _ Hlast)) as H.
  cbv zeta in H. destruct H as (_ & _ & Hact & _ & Hls & _).
  exact (conj Hact Hls).
Defined.

(** *** Stepping back onto a step without target *)

(** previousStep from a step whose predecessor has no target on the page:
    the scheduled showStep(i - 1) finds nothing and calls nextStep, whose
    transition shows step i again. After the two transitions the user is
    back on the step they left, with the same counter. *)
Theorem previous_onto_missing_returns page s c v :
  calloutHolds c v s ->
  timers (browser s) = [] ->
  0 < currentStep (this s) < total s ->
  missingAt page (tutorialSteps (this s)) (currentStep (this s) - 1) ->
  foundAt page (tutorialSteps (this s)) (currentStep (this s)) ->
  let s1 := state_of (previousStep s) in
  visibleStep s1 = None
  /\ visibleStep (runTimers 1 page s1) = None
  /\ currentStep (this (runTimers 1 page s1)) = currentStep (this s) - 1
  /\ visibleStep (runTimers 2 page s1) = Some (currentStep (this s) + 1, total s)
  /\ currentStep (this (runTimers 2 page s1)) = currentStep (this s)
  /\ timers (browser (runTimers 2 page s1)) = [].
Proof.
  intros Hhold Ht Hi Hmiss Hfound. cbn zeta.
  destruct Hhold as (Hc & el & Hel & Hatt & Hv).
  unfold previousStep. destruct (Z.ltb_spec 0 (currentStep (this s))); [|lia].
  rewrite Hc. cbn [state_of].
  set (i := currentStep (this s)) in *.
  set (s1 := setTimeout (TShowStepRel (-1)) 300 (classListRemoveActive c s)).
  set (sr := set_clock (clock (browser s) + 300) (classListRemoveActive c s)).
  assert (Htm : timers (browser s1) = [(clock (browser s) + 300, TShowStepRel (-1))]).
  { subst s1. unfold setTimeout. destruct_state s. by subst. }
  assert (Helr : elements (browser sr) !! c
                 = Some (mkElement (className el) false (attached el) (view el))).
  { subst sr. unfold classListRemoveActive, updElement. destruct_state s.
    by rewrite list_lookup_alter_eq, Hel. }
  assert (Hholdr : calloutHolds c v sr).
  { split; [subst sr; destruct_state s; done|]. eexists. split; [exact Helr|done]. }
  assert (Htr : timers (browser sr) = []) by (subst sr; destruct_state s; done).
  assert (Hstepsr : tutorialSteps (this sr) = tutorialSteps (this s))
    by (subst sr; destruct_state s; done).
  assert (Htotr : total sr = total s) by (unfold total; by rewrite Hstepsr).
  assert (Hfire : fireNext page s1 = Some (state_of (showStep page (i - 1) sr))).
  { rewrite (fireNext_head page s1 _ _ [] Htm) by constructor.
    cbn [runTask]. subst s1 sr i. destruct_state s. subst.
    rewrite Z.max_r by lia. reflexivity. }
  destruct (skip_run page c 1 sr v (i - 1) Hholdr Htr ltac:(lia)) as (Hm & Hvis & Hcur & Htm2).
  - rewrite Htotr. lia.
  - intros j Hj. rewrite Hstepsr. assert (j = i - 1) as -> by lia. exact Hmiss.
  - rewrite Hstepsr. replace (i - 1 + Z.of_nat 1) with i by lia. exact Hfound.
  - split.
    { unfold visibleStep.
      replace (callout (this s1)) with (Some c) by (subst s1; destruct_state s; done).
      replace (elements (browser s1)) with (elements (browser sr))
        by (subst s1 sr; destruct_state s; done).
      by rewrite Helr. }
    rewrite (runTimers_step 0 page s1 _ Hfire), (runTimers_step 1 page s1 _ Hfire).
    destruct (Hm 0%nat ltac:(lia)) as [Hhid _].
    split; [exact Hhid|].
    split.
    { cbn [runTimers]. rewrite (showStep_missing page sr (i - 1));
        [|rewrite Htotr; lia|by rewrite Hstepsr].
      transitivity (currentStep (this (set_currentStep (i - 1) sr))).
      - pose proof (cursor_nextStep (set_currentStep (i - 1) sr)) as Hcs.
        unfold cursor in Hcs. congruence.
      - destruct_state sr. reflexivity. }
    replace (i - 1 + Z.of_nat 1 + 1) with (i + 1) in Hvis by lia.
    replace (i - 1 + Z.of_nat 1) with i in Hcur by lia.
    rewrite Htotr in Hvis. done.
Qed.

(** The three-step tutorial of the example on its third step, shown after
    the second one was skipped. *)
Definition threeAtThird : State :=
  runTimers 2 pageWithoutSecond (state_of (nextStep threeAtFirstStep)).

Lemma previous_onto_missing_witness :
  visibleStep (runTimers 2 pageWithoutSecond (state_of (previousStep threeAtThird)))
  = Some (currentStep (this threeAtThird) + 1, total threeAtThird).
Proof.
  pose (v := default calloutTemplate (calloutView threeAtThird)).
  assert (Hhold : calloutHolds 1 v threeAtThird).
  { split; [vm_compute; reflexivity|]. eexists.
    split; [vm_compute; reflexivity|]. split; vm_compute; reflexivity. }
  assert (Ht : timers (browser threeAtThird) = []) by (vm_compute; reflexivity).
  assert (Hi : 0 < currentStep (this threeAtThird) < total threeAtThird)
    by (vm_compute; split; reflexivity).
  assert (Hmiss : missingAt pageWithoutSecond (tutorialSteps (this threeAtThird))
                    (currentStep (this threeAtThird) - 1)).
  { eexists. split; vm_compute; reflexivity. }
  assert (Hfound : foundAt pageWithoutSecond (tutorialSteps (this threeAtThird))
                     (currentStep (this threeAtThird))).
  { eexists _, _. split; vm_compute; reflexivity. }
  pose proof (previous_onto_missing_returns pageWithoutSecond threeAtThird 1 v
                Hhold Ht Hi Hmiss Hfound) as H.
  cbv zeta in H. exact (proj1 (proj2 (proj2 (proj2 H)))).
Defined.

(** *** What a shown step looks like *)

(** The number showStep writes as the width of the progress bar:
    [((stepIndex + 1) / this.tutorialSteps.length) * 100], in doubles. *)
Definition progressOf (i n : Z) : Number.t :=
  Number.mul (Number.div (Number.ofZ (i + 1)) (Number.ofZ n)) (Number.ofZ 100).

(** That number is above 0 and at most 100, and it is 100 on the last
    step only. *)
Definition progressInRange (i n : Z) : bool :=
  SFltb (Number.ofZ 0) (progressOf i n)
  && SFleb (progressOf i n) (Number.ofZ 100)
  && Bool.eqb (SFeqb (progressOf i n) (Number.ofZ 100)) (i =? n - 1)%Z.

(** The check above, on every step of every catalog up to a length. *)
Definition progressChecked (bound : nat) : bool :=
  forallb (fun n => forallb (fun i => progressInRange (Z.of_nat i) (Z.of_nat n)) (seq 0 n))
    (seq 1 bound).

Lemma progressChecked_32 : progressChecked 32 = true.
Proof. vm_compute. reflexivity. Qed.

Lemma progressChecked_spec (bound : nat) :
  progressChecked bound = true ->
  forall i n, 0 <= i < n -> n <= Z.of_nat bound -> progressInRange i n = true.
Proof.
  unfold progressChecked. rewrite forallb_forall. intros Hall i n Hi Hn.
  specialize (Hall (Z.to_nat n)). rewrite in_seq in Hall.
  specialize (Hall ltac:(lia)). rewrite forallb_forall in Hall.
  specialize (Hall (Z.to_nat i)). rewrite in_seq in Hall.
  specialize (Hall ltac:(lia)). by rewrite !Z2Nat.id in Hall by lia.
Qed.

Lemma progress_bounds (i n : Z) :
  0 <= i < n -> n <= 32 ->
  SFltb (Number.ofZ 0) (progressOf i n) = true
  /\ SFleb (progressOf i n) (Number.ofZ 100) = true
  /\ (SFeqb (progressOf i n) (Number.ofZ 100) = true <-> i = n - 1).
Proof.
  intros Hi Hn.
  pose proof (progressChecked_spec 32 progressChecked_32 i n Hi ltac:(lia)) as Hall.
  unfold progressInRange in Hall.
  apply andb_prop in Hall as [[H0 H100]%andb_prop Heq].
  apply Bool.eqb_prop in Heq.
  split; [exact H0|]. split; [exact H100|]. rewrite Heq. apply Z.eqb_eq.
Qed.

(** When showStep finds the target of step i, the callout comes on screen
    with the step's title and description and the counter i+1 of N; the
    Previous button is disabled (opacity 0.5) on step 0 only; the Next
    button reads Finish on the last step only; the width of the progress
    bar is the double ((i+1)/N)*100, which for a catalog of at most 32
    steps is above 0, at most 100, and 100 on the last step only; the
    step's target is the highlighted element and the one scrolled to. *)
Theorem showStep_renders_step page s c v i step el :
  calloutHolds c v s ->
  0 <= i < total s ->
  tutorialSteps (this s) !! Z.to_nat i = Some step ->
  querySelector page (target step) = Some el ->
  exists s' w,
    showStep page i s = Done s'
    /\ calloutView s' = Some w
    /\ visibleStep s' = Some (i + 1, total s)
    /\ titleText w = title step /\ descriptionText w = description step
    /\ prevDisabled w = (i =? 0)%Z
    /\ prevOpacity w = (if (i =? 0)%Z then "0.5" else "1")
    /\ nextText w = (if (i =? total s - 1)%Z then "Finish" else "Next")
    /\ progressWidth w
       = Some (Number.mul (Number.div (Number.ofZ (i + 1)) (Number.ofZ (total s)))
                 (Number.ofZ 100))
    /\ (total s <= 32 ->
        SFltb (Number.ofZ 0) (progressOf i (total s)) = true
        /\ SFleb (progressOf i (total s)) (Number.ofZ 100) = true
        /\ (SFeqb (progressOf i (total s)) (Number.ofZ 100) = true <-> i = total s - 1))
    /\ (exists classes, highlighted (browser s') = Some (elemId el, classes)
                        /\ In "onboarding-highlight" classes)
    /\ scrolledTo (browser s') = scrolledTo (browser s) ++ [elemId el]
    /\ (exists side, dataPosition w = Some side
                     /\ In side ["top"; "bottom"; "left"; "right"]).
Proof.
  intros (Hc & e & He & Hatt & Hv) Hi Hst Hq.
  rewrite (showStep_found page s i step el c Hi Hst Hq Hc).
  unfold shown, positionCallout, calloutPlacement. cbn zeta.
  assert (Hside : exists side y x,
             placeBeside (boundingRect el) (calloutRect page) (position step) = (side, y, x)
             /\ In side ["top"; "bottom"; "left"; "right"]).
  { unfold placeBeside.
    destruct (String.eqb (position step) "top"); [eexists _, _, _; split; [reflexivity|cbn; auto]|].
    destruct (String.eqb (position step) "bottom"); [eexists _, _, _; split; [reflexivity|cbn; auto]|].
    destruct (String.eqb (position step) "left"); [eexists _, _, _; split; [reflexivity|cbn; auto]|].
    destruct (String.eqb (position step) "right"); eexists _, _, _; split; try reflexivity; cbn; auto. }
  destruct Hside as (side & y & x & -> & Hin).
  pose proof (progress_bounds i (total s) Hi) as Hbounds.
  unfold calloutView, visibleStep, classListAddActive, updView, updElement, highlightElement.
  unfold total in *. destruct_state s. subst.
  eexists _, _. split; [reflexivity|]. cbn.
  rewrite !list_lookup_alter_eq, He. cbn. rewrite Hv, Hatt. cbn.
  split; [reflexivity|]. do 7 (split; [reflexivity|]).
  split; [exact Hbounds|].
  split.
  { destruct (highlight step) as [h|]; [|eexists; split; [reflexivity|cbn; auto]].
    destruct (String.eqb h "notch"); [eexists; split; [reflexivity|cbn; auto]|].
    destruct (String.eqb h "action"); eexists; split; try reflexivity; cbn; auto. }
  split; [reflexivity|]. exists side. split; [reflexivity|exact Hin].
Qed.

(** The student tutorial as the callback of startTutorial is about to call
    showStep(0). *)
Definition studentBeforeFirstStep : State :=
  set_timers [] (runTimers 1 studentPage (startTutorial studentPage returningVisitor)).

(** Step 11 of the 20 student steps: the width written is the double next
    above 55, which prints as 55.00000000000001. *)
Lemma showStep_renders_step_witness :
  exists s' w, showStep studentPage 10 studentBeforeFirstStep = Done s'
               /\ calloutView s' = Some w
               /\ visibleStep s' = Some (10 + 1, total studentBeforeFirstStep)
               /\ progressWidth w = Some (S754_finite false 7740561859543041 (-47)).
Proof.
  assert (Hhold : calloutHolds 1 calloutTemplate studentBeforeFirstStep).
  { split; [vm_compute; reflexivity|]. eexists.
    split; [vm_compute; reflexivity|]. split; vm_compute; reflexivity. }
  assert (Hi : 0 <= 10 < total studentBeforeFirstStep) by (vm_compute; split; congruence).
  assert (Hst : exists step, tutorialSteps (this studentBeforeFirstStep) !! Z.to_nat 10
                             = Some step)
    by (eexists; vm_compute; reflexivity).
  destruct Hst as [step Hst].
  destruct (showStep_renders_step studentPage studentBeforeFirstStep 1 calloutTemplate 10 step
              (mkTarget 7 anyRect) Hhold Hi Hst eq_refl)
    as (s' & w & Hrun & Hview & Hvis & _ & _ & _ & _ & _ & Hp & _).
  exists s', w. split; [exact Hrun|]. split; [exact Hview|]. split; [exact Hvis|].
  rewrite Hp. vm_compute. reflexivity.
Defined.

(** *** The welcome prompt across page loads *)



End OnboardingMore.

(** * Further properties of the placement *)
Module PlacementMore.
Import Onboarding PlacementFacts.
Local Open Scope Q_scope.

Definition sides : list string := ["top"; "bottom"; "left"; "right"]%string.

Lemma placeBeside_cases targetRect calloutRect position :
  (position = "top"%string \/ position = "bottom"%string
   \/ position = "left"%string \/ position = "right"%string)
  /\ (placeBeside targetRect calloutRect position).1.1 = position
  \/ ~ In position sides
     /\ placeBeside targetRect calloutRect position
        = placeBeside targetRect calloutRect "bottom".
Proof.
  unfold placeBeside, sides.
  destruct (String.eqb_spec position "top") as [->|H1]; [left; auto|].
  destruct (String.eqb_spec position "bottom") as [->|H2]; [left; auto|].
  destruct (String.eqb_spec position "left") as [->|H3]; [left; auto|].
  destruct (String.eqb_spec position "right") as [->|H4]; [left; auto 6|].
  right. split; [|reflexivity]. cbn. intuition congruence.
Qed.

(** Whatever the position string, the recorded side is one of the four,
    the given one when it is one of them and "bottom" for any other
    string, which is placed exactly as "bottom" is. After clamping, left
    and top never exceed viewport - callout - 20, and they are at least 20
    whenever the callout fits between the two margins. *)
Theorem placement_side_and_margins page (targetRect : DOMRect.t) (position : string) :
  let cw := DOMRect.width (calloutRect page) in
  let ch := DOMRect.height (calloutRect page) in
  let p := calloutPlacement page targetRect position in
  In p.1.1 sides
  /\ (In position sides -> p.1.1 = position)
  /\ (~ In position sides -> p = calloutPlacement page targetRect "bottom")
  /\ p.2 <= innerWidth page - cw - 20
  /\ p.1.2 <= innerHeight page - ch - 20
  /\ (20 <= innerWidth page - cw - 20 -> 20 <= p.2)
  /\ (20 <= innerHeight page - ch - 20 -> 20 <= p.1.2).
Proof.
  cbn zeta. unfold calloutPlacement.
  destruct (placeBeside targetRect (calloutRect page) position) as [[side y] x] eqn:E.
  cbn [fst snd].
  destruct (keepLeft_bounds (calloutRect page) (innerWidth page) x) as (L1 & L2 & _).
  destruct (keepTop_bounds (calloutRect page) (innerHeight page) y) as (T1 & T2 & _).
  unfold spacing in *.
  destruct (placeBeside_cases targetRect (calloutRect page) position) as [[Hp Hs]|[Hn Hb]].
  - rewrite E in Hs. cbn in Hs. subst side.
    split; [unfold sides; cbn; intuition|].
    split; [reflexivity|]. split; [intros Hn; exfalso; apply Hn; unfold sides; cbn; intuition|].
    auto.
  - rewrite Hb in E. rewrite E.
    assert (side = "bottom"%string) as -> by (unfold placeBeside in E; cbn in E; congruence).
    split; [unfold sides; cbn; auto|].
    split; [intros Hin; contradiction|]. split; [reflexivity|]. auto.
Qed.

End PlacementMore.

(** * Further properties of the result trigger *)
Module FunctionsMore.
Import Functions FunctionsFacts.
Local Open Scope list_scope.
Local Open Scope nat_scope.

(** Whatever an invocation does to the store, it does as the commit of
    summary writes at some references (none when it returns early, throws
    or is rejected); the references depend on the users and on what the
    store accepts, not on the class documents. *)
Lemma resultCreated_commit accepts db result userId :
  exists refs,
    (forall batch, onResultCreated db result userId = Commits batch ->
       accepts db batch = true -> batch = map (summaryWrite result) refs)
    /\ forall now d,
         users d = users db -> (forall b, accepts d b = accepts db b) ->
         resultCreated accepts now d result userId
         = commit now (map (summaryWrite result) refs) d.
Proof.
  destruct (onResultCreated db result userId) as [| |batch] eqn:E.
  - exists []. split; [discriminate|]. intros now d Hu _. unfold resultCreated.
    replace (onResultCreated d result userId) with Returns; [reflexivity|].
    rewrite <- E. unfold onResultCreated. by rewrite Hu.
  - exists []. split; [discriminate|]. intros now d Hu _. unfold resultCreated.
    replace (onResultCreated d result userId) with Throws; [reflexivity|].
    rewrite <- E. unfold onResultCreated. by rewrite Hu.
  - assert (Hrefs : exists refs, batch = map (summaryWrite result) refs).
    { unfold onResultCreated in E. destruct (users db !! userId) as [u|]; [|discriminate].
      cbn zeta in E. destruct (length _ =? 0); [discriminate|].
      destruct (forClassIds _ _ _) as [ws|] eqn:F; [|discriminate].
      injection E as <-. destruct (forClassIds_refs _ _ _ _ F) as (refs & -> & _).
      by exists refs. }
    destruct Hrefs as (refs & ->).
    destruct (accepts db (map (summaryWrite result) refs)) eqn:A.
    + exists refs. split; [by intros ? [= <-]|]. intros now d Hu Hacc. unfold resultCreated.
      replace (onResultCreated d result userId)
        with (Commits (map (summaryWrite result) refs))
        by (rewrite <- E; unfold onResultCreated; by rewrite Hu).
      by rewrite Hacc, A.
    + exists []. split; [intros ? [= <-]; congruence|]. intros now d Hu Hacc.
      unfold resultCreated.
      replace (onResultCreated d result userId)
        with (Commits (map (summaryWrite result) refs))
        by (rewrite <- E; unfold onResultCreated; by rewrite Hu).
      by rewrite Hacc, A.
Qed.



(** The doubles 82.1, 78.2 and 6.4. *)
Definition d82_1 : Number.t := S754_finite false 5777273896986214 (-46).
Definition d78_2 : Number.t := S754_finite false 5502835794693325 (-46).
Definition d6_4 : Number.t := S754_finite false 7205759403792794 (-50).

(** A class whose score sum is the double 82.1. *)
Definition scoredStore : Firestore :=
  mkFirestore {["u1" := mkUser (Some ["c1"])]}
    {[summaryPath "c1" := {["total_assessments" := VInteger 1;
                           "total_score_sum" := VDouble d82_1]}]}.

(** Two created results handled in either order, by a store whose answer
    to a batch does not depend on what it holds: the users, the counter
    total_assessments and every field the trigger does not write come out
    the same in every document. The score sum need not: it is added in
    doubles, and on a sum of 82.1 the results 78.2 and 6.4 give
    166.70000000000002 in one order and 166.7 in the other. *)
Theorem results_commute_in_count_not_in_sum accepts nowA nowB nowC nowD db r1 u1 r2 u2 q :
  (forall d d' b, accepts d b = accepts d' b) ->
  let dbA := resultCreated accepts nowB (resultCreated accepts nowA db r1 u1) r2 u2 in
  let dbB := resultCreated accepts nowD (resultCreated accepts nowC db r2 u2) r1 u1 in
  users dbA = users dbB
  /\ fieldAt dbA q "total_assessments" = fieldAt dbB q "total_assessments"
  /\ (forall f, f <> "total_assessments" -> f <> "total_score_sum" -> f <> "last_updated" ->
        fieldAt dbA q f = fieldAt dbB q f)
  /\ (let r78 := mkResult (Some d78_2) in
      let r6 := mkResult (Some d6_4) in
      let c1 := summaryPath "c1" in
      fieldAt (resultCreated acceptAll 2 (resultCreated acceptAll 1 scoredStore r78 "u1")
                 r6 "u1") c1 "total_score_sum"
      = Some (VDouble (S754_finite false 5865234827208295 (-45)))
      /\ fieldAt (resultCreated acceptAll 2 (resultCreated acceptAll 1 scoredStore r6 "u1")
                    r78 "u1") c1 "total_score_sum"
         = Some (VDouble (S754_finite false 5865234827208294 (-45)))).
Proof.
  intros Hacc dbA dbB.
  destruct (resultCreated_commit accepts db r1 u1) as (refs1 & _ & H1).
  destruct (resultCreated_commit accepts db r2 u2) as (refs2 & _ & H2).
  assert (HA1 : resultCreated accepts nowA db r1 u1
                = commit nowA (map (summaryWrite r1) refs1) db) by (apply H1; done).
  assert (HB1 : resultCreated accepts nowC db r2 u2
                = commit nowC (map (summaryWrite r2) refs2) db) by (apply H2; done).
  destruct (commit_at nowA r1 refs1 db) as [UA1 QA1].
  destruct (commit_at nowC r2 refs2 db) as [UB1 QB1].
  rewrite <- HA1 in UA1, QA1. rewrite <- HB1 in UB1, QB1.
  assert (HA2 : dbA = commit nowB (map (summaryWrite r2) refs2)
                        (resultCreated accepts nowA db r1 u1))
    by (subst dbA; apply H2; [exact UA1|intros b; apply Hacc]).
  assert (HB2 : dbB = commit nowD (map (summaryWrite r1) refs1)
                        (resultCreated accepts nowC db r2 u2))
    by (subst dbB; apply H1; [exact UB1|intros b; apply Hacc]).
  destruct (commit_at nowB r2 refs2 (resultCreated accepts nowA db r1 u1)) as [UA2 QA2].
  destruct (commit_at nowD r1 refs1 (resultCreated accepts nowC db r2 u2)) as [UB2 QB2].
  rewrite <- HA2 in UA2, QA2. rewrite <- HB2 in UB2, QB2.
  split; [congruence|].
  destruct (QA1 q) as (a1 & _ & _ & f1 & _). destruct (QA2 q) as (a2 & _ & _ & f2 & _).
  destruct (QB1 q) as (b1 & _ & _ & g1 & _). destruct (QB2 q) as (b2 & _ & _ & g2 & _).
  split.
  { rewrite a2, a1, b2, b1, <- !Nat.iter_add. f_equal. lia. }
  split.
  { intros f F1 F2 F3. rewrite (f2 f F1 F2 F3), (f1 f F1 F2 F3), (g2 f F1 F2 F3).
    symmetry. by apply g1. }
  split; vm_compute; reflexivity.
Qed.

Lemma results_commute_witness :
  fieldAt (resultCreated acceptAll 2
             (resultCreated acceptAll 1 scoredStore (mkResult (Some d78_2)) "u1")
             (mkResult (Some d6_4)) "u1") (summaryPath "c1") "total_assessments"
  = fieldAt (resultCreated acceptAll 4
               (resultCreated acceptAll 3 scoredStore (mkResult (Some d6_4)) "u1")
               (mkResult (Some d78_2)) "u1") (summaryPath "c1") "total_assessments".
Proof.
  pose proof (results_commute_in_count_not_in_sum acceptAll 1 2 3 4 scoredStore
                (mkResult (Some d78_2)) "u1" (mkResult (Some d6_4)) "u1"
                (summaryPath "c1") ltac:(reflexivity)) as H.
  cbv zeta in H. exact (proj1 (proj2 H)).
Defined.

End FunctionsMore.

(** * The tutorial from start to clean-up *)
Module OnboardingRuns.
Import Onboarding OnboardingFacts OnboardingMore.
Local Open Scope list_scope.

(** *** From startTutorial to the first step *)

(** The states between startTutorial and its showStep(0): the overlay [o]
    and the callout appended after the elements of [s], the catalog
    loaded, the callout still as its template. *)
Definition started (page : Page) (s : State) (ovActive : bool)
    (tms : list (Z * Task)) (clk : Z) : State :=
  let o := length (elements (browser s)) in
  mkState (mkManager 0 true (getTutorialSteps page) (Some o) (Some (S o))
             (hasCompletedTutorial (this s)))
    (mkBrowser (localStorage (browser s)) (search (browser s))
       (elements (browser s)
          ++ [mkElement "onboarding-overlay" ovActive true None;
              mkElement "onboarding-callout" false true (Some calloutTemplate)])
       true (highlighted (browser s)) (scrolledTo (browser s))
       tms clk (network (browser s)) (console (browser s)) (listening (browser s))).

Lemma startTutorial_started page s :
  timers (browser s) = [] ->
  queryCreated "onboarding-modal-overlay" s = None ->
  startTutorial page s
  = started page s false
      [(clock (browser s) + 10, TOverlayAddActive); (clock (browser s) + 500, TShowStep 0)]
      (clock (browser s)).
Proof.
  intros Ht Hmodal. unfold startTutorial, closeWelcomeModal. rewrite Hmodal.
  unfold createCallout, createOverlay, appendElement, setTimeout, started.
  destruct_state s. subst. cbn. by rewrite length_snoc, snoc_snoc.
Qed.

Lemma started_fire1 page s ck :
  fireNext page (started page s false
                   [(ck + 10, TOverlayAddActive); (ck + 500, TShowStep 0)] ck)
  = Some (started page s true [(ck + 500, TShowStep 0)] (ck + 10)).
Proof.
  erewrite fireNext_head; [|reflexivity|repeat constructor; cbn; lia].
  cbn. unfold classListAddActive, updElement. cbn.
  rewrite alter_at_length, Z.max_r by lia. reflexivity.
Qed.

Lemma started_fire2 page s ck :
  fireNext page (started page s true [(ck + 500, TShowStep 0)] (ck + 10))
  = Some (state_of (showStep page 0 (started page s true [] (ck + 500)))).
Proof.
  erewrite fireNext_head; [|reflexivity|constructor].
  cbn [runTask]. unfold started. cbn. rewrite Z.max_r by lia. reflexivity.
Qed.

Lemma started_calloutHolds page s ovActive tms clk :
  calloutHolds (S (length (elements (browser s)))) calloutTemplate
    (started page s ovActive tms clk).
Proof.
  split; [reflexivity|]. eexists.
  split; [unfold started; cbn; apply lookup_after_length|]. split; reflexivity.
Qed.

Lemma shown_other_element page i step el c s j :
  j <> c ->
  elements (browser (shown page i step el c s)) !! j = elements (browser s) !! j.
Proof.
  intros Hne. unfold shown, positionCallout. cbn zeta.
  destruct (calloutPlacement _ _ _) as [[side y] x].
  unfold classListAddActive, updView, updElement, highlightElement. cbn.
  by rewrite !list_lookup_alter_ne.
Qed.

(** startTutorial called at rest with no welcome prompt open, on a page
    whose catalog is not empty and whose first step has its target: the
    manager is active on index 0 at once with nothing on screen yet; the
    overlay is switched on by the first callback (10 ms), and the second
    (500 ms) shows step 1 of N. Nothing is pending after that, and nothing
    was stored or sent. *)
Theorem startTutorial_shows_first_step page s :
  timers (browser s) = [] ->
  queryCreated "onboarding-modal-overlay" s = None ->
  foundAt page (getTutorialSteps page) 0 ->
  let o := length (elements (browser s)) in
  let s1 := startTutorial page s in
  let s2 := runTimers 2 page s1 in
  (isActive (this s1) = true /\ currentStep (this s1) = 0
   /\ tutorialSteps (this s1) = getTutorialSteps page
   /\ bodyOnboardingActive (browser s1) = true
   /\ visibleStep s1 = None)
  /\ visibleStep (runTimers 1 page s1) = None
  /\ visibleStep s2 = Some (1, Z.of_nat (length (getTutorialSteps page)))
  /\ elements (browser s2) !! o = Some (mkElement "onboarding-overlay" true true None)
  /\ isActive (this s2) = true
  /\ currentStep (this s2) = 0
  /\ timers (browser s2) = []
  /\ localStorage (browser s2) = localStorage (browser s)
  /\ network (browser s2) = network (browser s).
Proof.
  intros Ht Hmodal (step & el & Hst & Hq). cbn zeta.
  rewrite (startTutorial_started page s Ht Hmodal).
  set (ck := clock (browser s)).
  pose proof (started_fire1 page s ck) as F1.
  pose proof (started_fire2 page s ck) as F2.
  rewrite (runTimers_step 0 page _ _ F1), (runTimers_step 1 page _ _ F1),
    (runTimers_step 0 page _ _ F2).
  cbn [runTimers].
  set (sb := started page s true [] (ck + 500)).
  assert (Hlen : (0 < length (getTutorialSteps page))%nat)
    by (apply lookup_lt_Some in Hst; lia).
  assert (Hi : 0 <= 0 < total sb) by (unfold total, sb, started; cbn; lia).
  assert (Hc : callout (this sb) = Some (S (length (elements (browser s)))))
    by reflexivity.
  rewrite (showStep_found page sb 0 step el _ Hi Hst Hq Hc). cbn [state_of].
  destruct (started_calloutHolds page s true [] (ck + 500)) as (_ & e & He & Hatt & Hv).
  fold sb in He.
  destruct (shown_element page 0 step el _ sb e He) as (v' & He' & Hv').
  destruct (Hv' _ Hv) as (w & -> & Hcur & Htot & _).
  split.
  { repeat split. unfold visibleStep, started. cbn. by rewrite lookup_after_length. }
  split.
  { unfold visibleStep, started. cbn. by rewrite lookup_after_length. }
  split.
  { assert (Hc' : callout (this (shown page 0 step el (S (length (elements (browser s)))) sb))
                  = Some (S (length (elements (browser s)))))
      by (rewrite shown_this; reflexivity).
    unfold visibleStep. rewrite Hc', He'. cbn. rewrite Hatt, Hcur, Htot. reflexivity. }
  split.
  { rewrite shown_other_element by lia. unfold sb, started. cbn.
    apply lookup_at_length. }
  split; [by rewrite shown_this|]. split; [by rewrite shown_this|].
  split; [by rewrite shown_timers|].
  destruct (shown_quiet page 0 step el (S (length (elements (browser s)))) sb) as [Hl Hn].
  split; [rewrite Hl|rewrite Hn]; reflexivity.
Qed.

Lemma startTutorial_shows_first_step_witness :
  visibleStep (runTimers 2 studentPage (startTutorial studentPage returningVisitor))
  = Some (1, Z.of_nat (length (getTutorialSteps studentPage))).
Proof.
  assert (Ht : timers (browser returningVisitor) = []) by (vm_compute; reflexivity).
  assert (Hm : queryCreated "onboarding-modal-overlay" returningVisitor = None)
    by (vm_compute; reflexivity).
  assert (Hlen : 0 <= 0 < Z.of_nat (length (getTutorialSteps studentPage)))
    by (vm_compute; split; congruence).
  pose proof (startTutorial_shows_first_step studentPage returningVisitor Ht Hm
                (studentPage_foundAt _ _ Hlen)) as H.
  cbv zeta in H. exact (proj1 (proj2 (proj2 H))).
Defined.



(** *** From completeTutorial to an empty page *)

Lemma minDue_middle l1 d t l2 :
  Forall (fun dt => d < dt.1) l1 -> Forall (fun dt => d <= dt.1) l2 ->
  minDue (l1 ++ (d, t) :: l2) = Some d.
Proof.
  intros H1 H2. induction l1 as [|[d' t'] l1 IH]; [by apply minDue_head|].
  inversion H1 as [|? ? Hd Hrest]; subst. cbn [fst] in Hd.
  cbn [app minDue]. rewrite (IH Hrest). f_equal. lia.
Qed.

Lemma takeDue_middle l1 d t l2 :
  Forall (fun dt => d < dt.1) l1 ->
  takeDue d (l1 ++ (d, t) :: l2) = Some (t, l1 ++ l2).
Proof.
  intros H1. induction l1 as [|[d' t'] l1 IH]; cbn [app takeDue].
  - by rewrite Z.eqb_refl.
  - inversion H1 as [|? ? Hd Hrest]; subst. cbn [fst] in Hd.
    destruct (Z.eqb_spec d' d); [lia|]. by rewrite (IH Hrest).
Qed.

(** The timer that fires is the earliest one, wherever it stands. *)
Lemma fireNext_middle page s l1 d t l2 :
  timers (browser s) = l1 ++ (d, t) :: l2 ->
  Forall (fun dt => d < dt.1) l1 -> Forall (fun dt => d <= dt.1) l2 ->
  fireNext page s
  = Some (state_of (runTask page t
            (set_clock (Z.max (clock (browser s)) d) (set_timers (l1 ++ l2) s)))).
Proof.
  intros Ht H1 H2. unfold fireNext.
  by rewrite Ht, (minDue_middle l1 d t l2 H1 H2), (takeDue_middle l1 d t l2 H1).
Qed.

(** An element is off the page. *)
Definition detached (i : nat) (l : list Element) : Prop :=
  exists el, l !! i = Some el /\ attached el = false.

Lemma detached_alter (f : Element -> Element) i j l :
  (forall el, attached el = false -> attached (f el) = false) ->
  detached i l -> detached i (alter f j l).
Proof.
  intros Hf (el & Hel & Hatt). destruct (decide (i = j)) as [->|Hne].
  - exists (f el). rewrite list_lookup_alter_eq, Hel. split; [reflexivity|by apply Hf].
  - exists el. by rewrite list_lookup_alter_ne.
Qed.

Lemma detached_now i l :
  (i < length l)%nat ->
  detached i (alter (fun el => mkElement (className el) (active el) false (view el)) i l).
Proof.
  intros Hi. destruct (lookup_lt_is_Some_2 l i Hi) as [el Hel].
  eexists. rewrite list_lookup_alter_eq, Hel. split; reflexivity.
Qed.

(** The states after completeTutorial, as its callbacks fire: the elements
    [els] and the pending timers vary, the rest is settled. *)
Definition completed (s : State) (els : list Element) (tms : list (Z * Task)) (clk : Z)
  : State :=
  mkState (mkManager (currentStep (this s)) false (tutorialSteps (this s))
             (overlay (this s)) (callout (this s)) (hasCompletedTutorial (this s)))
    (mkBrowser (<["sclera_tutorial_completed" := "true"]> (localStorage (browser s)))
       (search (browser s)) els false None (scrolledTo (browser s)) tms clk
       (network (browser s) ++ [completionRequest]) (console (browser s))
       (listening (browser s))).

Definition deactivate (el : Element) : Element :=
  mkElement (className el) false (attached el) (view el).
Definition activate (el : Element) : Element :=
  mkElement (className el) true (attached el) (view el).
Definition detach (el : Element) : Element :=
  mkElement (className el) (active el) false (view el).

(** After completeTutorial called at rest, five callbacks fire: the banner
    comes on screen (10 ms), the callout and the overlay are removed
    (300 ms), the banner is dismissed (4000 ms) and removed (4300 ms).
    Then no timer is pending and the callout, the overlay and the banner
    are all off the page; the manager has been inactive throughout. *)
Theorem completeTutorial_cleans_up page s c o :
  callout (this s) = Some c ->
  overlay (this s) = Some o ->
  timers (browser s) = [] ->
  (c < length (elements (browser s)))%nat ->
  (o < length (elements (browser s)))%nat ->
  let m := length (elements (browser s)) in
  let s1 := completeTutorial s in
  length (timers (browser s1)) = 4%nat
  /\ elements (browser s1) !! m
     = Some (mkElement "onboarding-completion-message" false true None)
  /\ elements (browser (runTimers 1 page s1)) !! m
     = Some (mkElement "onboarding-completion-message" true true None)
  /\ clock (browser (runTimers 5 page s1)) = clock (browser s) + 4300
  /\ timers (browser (runTimers 5 page s1)) = []
  /\ detached c (elements (browser (runTimers 5 page s1)))
  /\ detached o (elements (browser (runTimers 5 page s1)))
  /\ detached m (elements (browser (runTimers 5 page s1)))
  /\ (forall n, isActive (this (runTimers n page s1)) = false)
  /\ (forall n, localStorage (browser (runTimers n page s1))
                = <["sclera_tutorial_completed" := "true"]> (localStorage (browser s)))
  /\ (forall n, network (browser (runTimers n page s1))
                = network (browser s) ++ [completionRequest]).
Proof.
  intros Hc Ho Ht Hcl Hol. cbn zeta.
  set (ck := clock (browser s)).
  set (els := elements (browser s)) in *.
  set (msg := mkElement "onboarding-completion-message" false true None).
  set (e1 := alter deactivate o (alter deactivate c els) ++ [msg]).
  assert (Hlen1 : length (alter deactivate o (alter deactivate c els)) = length els)
    by (by rewrite !length_alter).
  assert (Hs1 : completeTutorial s
                = completed s e1
                    [(ck + 300, TCalloutRemove); (ck + 300, TOverlayRemove);
                     (ck + 10, TAddActive (length els)); (ck + 4000, TDismissMessage (length els))]
                    ck).
  { unfold completeTutorial, showCompletionMessage, endTutorial, appendElement, setTimeout,
      classListRemoveActive, updElement, setItem, fetch, completed.
    subst e1 msg els ck. destruct_state s. subst. cbn.
    rewrite !length_alter. reflexivity. }
  rewrite Hs1.
  set (e2 := alter activate (length els) e1).
  assert (F1 : fireNext page (completed s e1
                    [(ck + 300, TCalloutRemove); (ck + 300, TOverlayRemove);
                     (ck + 10, TAddActive (length els)); (ck + 4000, TDismissMessage (length els))]
                    ck)
               = Some (completed s e2
                    [(ck + 300, TCalloutRemove); (ck + 300, TOverlayRemove);
                     (ck + 4000, TDismissMessage (length els))] (ck + 10))).
  { erewrite (fireNext_middle page _ [(ck + 300, TCalloutRemove); (ck + 300, TOverlayRemove)]
                (ck + 10) (TAddActive (length els))
                [(ck + 4000, TDismissMessage (length els))]);
      [|reflexivity|repeat constructor; cbn; lia|repeat constructor; cbn; lia].
    cbn. rewrite Z.max_r by lia. reflexivity. }
  set (e3 := alter detach c e2).
  assert (F2 : fireNext page (completed s e2
                    [(ck + 300, TCalloutRemove); (ck + 300, TOverlayRemove);
                     (ck + 4000, TDismissMessage (length els))] (ck + 10))
               = Some (completed s e3
                    [(ck + 300, TOverlayRemove); (ck + 4000, TDismissMessage (length els))]
                    (ck + 300))).
  { erewrite fireNext_head; [|reflexivity|repeat constructor; cbn; lia].
    cbn. rewrite Hc. cbn. rewrite Z.max_r by lia. reflexivity. }
  set (e4 := alter detach o e3).
  assert (F3 : fireNext page (completed s e3
                    [(ck + 300, TOverlayRemove); (ck + 4000, TDismissMessage (length els))]
                    (ck + 300))
               = Some (completed s e4 [(ck + 4000, TDismissMessage (length els))]
                         (ck + 300))).
  { erewrite fireNext_head; [|reflexivity|repeat constructor; cbn; lia].
    cbn. rewrite Ho. cbn. rewrite Z.max_r by lia. reflexivity. }
  set (e5 := alter deactivate (length els) e4).
  assert (F4 : fireNext page (completed s e4 [(ck + 4000, TDismissMessage (length els))]
                                (ck + 300))
               = Some (completed s e5 [(ck + 4300, TRemove (length els))] (ck + 4000))).
  { erewrite fireNext_head; [|reflexivity|constructor].
    cbn. rewrite Z.max_r by lia.
    unfold setTimeout, classListRemoveActive, updElement, completed. cbn.
    replace (ck + 4000 + 300) with (ck + 4300) by lia. reflexivity. }
  set (e6 := alter detach (length els) e5).
  assert (F5 : fireNext page (completed s e5 [(ck + 4300, TRemove (length els))] (ck + 4000))
               = Some (completed s e6 [] (ck + 4300))).
  { erewrite fireNext_head; [|reflexivity|constructor].
    cbn. rewrite Z.max_r by lia. reflexivity. }
  assert (Hidle : forall n, runTimers n page (completed s e6 [] (ck + 4300))
                            = completed s e6 [] (ck + 4300))
    by (intros n; by apply runTimers_idle).
  assert (Hall : forall n, exists e tms clk,
             runTimers n page (completed s e1
                    [(ck + 300, TCalloutRemove); (ck + 300, TOverlayRemove);
                     (ck + 10, TAddActive (length els)); (ck + 4000, TDismissMessage (length els))]
                    ck) = completed s e tms clk).
  { intros [|[|[|[|[|n]]]]];
      rewrite ?(runTimers_step _ page _ _ F1), ?(runTimers_step _ page _ _ F2),
        ?(runTimers_step _ page _ _ F3), ?(runTimers_step _ page _ _ F4),
        ?(runTimers_step _ page _ _ F5), ?Hidle; cbn [runTimers]; by eexists _, _, _. }
  split; [reflexivity|].
  split.
  { unfold completed. cbn. subst e1. rewrite <- Hlen1 at 1. apply lookup_at_length. }
  split.
  { rewrite (runTimers_step 0 page _ _ F1). cbn. subst e2 e1.
    rewrite list_lookup_alter_eq. rewrite <- Hlen1 at 1. by rewrite lookup_at_length. }
  rewrite (runTimers_step 4 page _ _ F1), (runTimers_step 3 page _ _ F2),
    (runTimers_step 2 page _ _ F3), (runTimers_step 1 page _ _ F4),
    (runTimers_step 0 page _ _ F5).
  cbn [runTimers]. unfold completed at 1 2 3 4 5. cbn.
  split; [reflexivity|]. split; [reflexivity|].
  assert (He2len : length e2 = S (length els)).
  { subst e2 e1. rewrite length_alter, length_app, Hlen1. cbn. lia. }
  split.
  { subst e6 e5 e4. do 3 (apply detached_alter; [by intros [] |]).
    apply detached_now. rewrite He2len. lia. }
  split.
  { subst e6 e5. do 2 (apply detached_alter; [by intros [] |]).
    apply detached_now. subst e3. rewrite length_alter, He2len. lia. }
  split.
  { subst e6. apply detached_now. subst e5 e4 e3. rewrite !length_alter, He2len. lia. }
  split; [|split]; intros n; destruct (Hall n) as (e & tms & clk & ->); reflexivity.
Qed.



Lemma completeTutorial_cleans_up_witness :
  timers (browser (runTimers 5 studentPage (completeTutorial studentAtFirstStep))) = [].
Proof.
  assert (Hc : callout (this studentAtFirstStep) = Some 1%nat) by (vm_compute; reflexivity).
  assert (Ho : overlay (this studentAtFirstStep) = Some 0%nat) by (vm_compute; reflexivity).
  assert (Ht : timers (browser studentAtFirstStep) = []) by (vm_compute; reflexivity).
  assert (Hcl : (1 < length (elements (browser studentAtFirstStep)))%nat)
    by (vm_compute; constructor).
  assert (Hol : (0 < length (elements (browser studentAtFirstStep)))%nat)
    by (vm_compute; repeat constructor).
  pose proof (completeTutorial_cleans_up studentPage studentAtFirstStep 1 0
                Hc Ho Ht Hcl Hol) as H.
  cbv zeta in H. exact (proj1 (proj2 (proj2 (proj2 (proj2 H))))).
Defined.

(** *** The welcome prompt, offered and declined *)

Lemma firstAttached_app_none cls l l' i :
  firstAttached cls l i = None ->
  firstAttached cls (l ++ l') i = firstAttached cls l' (i + length l).
Proof.
  revert i. induction l as [|el l IH]; intros i H; cbn [firstAttached app length] in *.
  - by rewrite Nat.add_0_r.
  - destruct (String.eqb (className el) cls && attached el); [discriminate|].
    rewrite (IH (S i) H). f_equal. lia.
Qed.

Lemma runTimers_one page s s' : fireNext page s = Some s' -> runTimers 1 page s = s'.
Proof. intros H. cbn. by rewrite H. Qed.

(** With no prompt on the page, showWelcomeModal appends one, which is
    switched on 10 ms later. skipTutorial then switches it off and stores
    the skipped flag, changing no field of the manager; 300 ms later the
    prompt is removed, no prompt is left on the page and no timer is
    pending. *)
Theorem welcome_prompt_shown_then_skipped page s :
  timers (browser s) = [] ->
  queryCreated "onboarding-modal-overlay" s = None ->
  let m := length (elements (browser s)) in
  let s1 := showWelcomeModal s in
  let s2 := runTimers 1 page s1 in
  let s3 := skipTutorial s2 in
  let s4 := runTimers 1 page s3 in
  queryCreated "onboarding-modal-overlay" s1 = Some m
  /\ elements (browser s1) !! m = Some (mkElement "onboarding-modal-overlay" false true None)
  /\ elements (browser s2) !! m = Some (mkElement "onboarding-modal-overlay" true true None)
  /\ elements (browser s3) !! m = Some (mkElement "onboarding-modal-overlay" false true None)
  /\ localStorage (browser s3)
     = <["sclera_tutorial_skipped" := "true"]> (localStorage (browser s))
  /\ elements (browser s4) !! m = Some (mkElement "onboarding-modal-overlay" false false None)
  /\ queryCreated "onboarding-modal-overlay" s4 = None
  /\ timers (browser s4) = []
  /\ this s4 = this s.
Proof.
  intros Ht Hmodal. cbn zeta.
  set (els := elements (browser s)). set (ck := clock (browser s)).
  set (modal := fun a t => mkElement "onboarding-modal-overlay" a t None).
  set (st := fun e tms clk ls =>
               mkState (this s)
                 (mkBrowser ls (search (browser s)) e (bodyOnboardingActive (browser s))
                    (highlighted (browser s)) (scrolledTo (browser s)) tms clk
                    (network (browser s)) (console (browser s)) (listening (browser s)))).
  assert (Hq : forall a t, firstAttached "onboarding-modal-overlay" (els ++ [modal a t]) 0
                           = if t then Some (length els) else None).
  { intros a t. rewrite (firstAttached_app_none _ els _ 0%nat Hmodal).
    cbn. by destruct t. }
  assert (Hs1 : showWelcomeModal s
                = st (els ++ [modal false true]) [(ck + 10, TAddActive (length els))] ck
                    (localStorage (browser s))).
  { unfold showWelcomeModal, appendElement, setTimeout. subst st els ck modal.
    destruct_state s. by subst. }
  rewrite Hs1.
  assert (F1 : fireNext page (st (els ++ [modal false true])
                                [(ck + 10, TAddActive (length els))] ck
                                (localStorage (browser s)))
               = Some (st (els ++ [modal true true]) [] (ck + 10)
                         (localStorage (browser s)))).
  { erewrite fireNext_head; [|reflexivity|constructor].
    cbn. unfold classListAddActive, updElement. cbn.
    rewrite alter_at_length, Z.max_r by lia. reflexivity. }
  rewrite (runTimers_one page _ _ F1).
  assert (Hs3 : skipTutorial (st (els ++ [modal true true]) [] (ck + 10)
                                (localStorage (browser s)))
                = st (els ++ [modal false true]) [(ck + 310, TRemove (length els))] (ck + 10)
                    (<["sclera_tutorial_skipped" := "true"]> (localStorage (browser s)))).
  { unfold skipTutorial, closeWelcomeModal, queryCreated. cbn.
    rewrite (Hq true true).
    unfold setItem, setTimeout, classListRemoveActive, updElement. cbn.
    rewrite alter_at_length. replace (ck + 10 + 300) with (ck + 310) by lia. reflexivity. }
  rewrite Hs3.
  assert (F2 : fireNext page (st (els ++ [modal false true])
                                [(ck + 310, TRemove (length els))] (ck + 10)
                                (<["sclera_tutorial_skipped" := "true"]>
                                   (localStorage (browser s))))
               = Some (st (els ++ [modal false false]) [] (ck + 310)
                         (<["sclera_tutorial_skipped" := "true"]>
                            (localStorage (browser s))))).
  { erewrite fireNext_head; [|reflexivity|constructor].
    cbn. unfold removeElement, updElement. cbn.
    rewrite alter_at_length, Z.max_r by lia. reflexivity. }
  rewrite (runTimers_one page _ _ F2).
  unfold queryCreated. subst st. cbn.
  rewrite (Hq false true), (Hq false false), !lookup_at_length.
  repeat split.
Qed.



Lemma welcome_prompt_witness :
  queryCreated "onboarding-modal-overlay"
    (runTimers 1 studentPage
       (skipTutorial (runTimers 1 studentPage (showWelcomeModal returningVisitor))))
  = None.
Proof.
  assert (Ht : timers (browser returningVisitor) = []) by (vm_compute; reflexivity).
  assert (Hm : queryCreated "onboarding-modal-overlay" returningVisitor = None)
    by (vm_compute; reflexivity).
  pose proof (welcome_prompt_shown_then_skipped studentPage returningVisitor Ht Hm) as H.
  cbv zeta in H. exact (proj1 (proj2 (proj2 (proj2 (proj2 (proj2 (proj2 H))))))).
Defined.

(** *** Starting again while a tutorial is running *)

(** A callback that holds element [o] itself, not through [this]. *)
Definition mentions (o : nat) (t : Task) : Prop :=
  match t with
  | TAddActive e | TRemove e | TDismissMessage e => e = o
  | _ => False
  end.

(** Element [o] is out of the manager's reach: it is [el], neither
    reference of [this] points to it and no pending callback holds it. *)
Definition unreachable (o : nat) (el : Element) (s : State) : Prop :=
  elements (browser s) !! o = Some el
  /\ overlay (this s) <> Some o
  /\ callout (this s) <> Some o
  /\ Forall (fun dt => ~ mentions o dt.2) (timers (browser s)).

(** Events in a row, each on the page as it then is. *)
Definition runEvents (evs : list (Page * Event)) (s : State) : State :=
  foldl (fun st pe => handle pe.1 pe.2 st) s evs.

Lemma firstAttached_class cls l i k :
  firstAttached cls l i = Some k ->
  exists el, l !! (k - i)%nat = Some el /\ className el = cls /\ (i <= k)%nat.
Proof.
  revert i. induction l as [|e l IH]; intros i H; cbn [firstAttached] in H; [discriminate|].
  destruct (String.eqb_spec (className e) cls) as [Hcls|Hcls]; cbn [andb] in H.
  - destruct (attached e).
    + injection H as <-. exists e. rewrite Nat.sub_diag. by repeat split.
    + destruct (IH (S i) H) as (el & Hel & Hc & Hle). exists el.
      replace (k - i)%nat with (S (k - S i)) by lia. repeat split; [exact Hel|exact Hc|lia].
  - destruct (IH (S i) H) as (el & Hel & Hc & Hle). exists el.
    replace (k - i)%nat with (S (k - S i)) by lia. repeat split; [exact Hel|exact Hc|lia].
Qed.

Section Unreachable.
Variables (o : nat) (el : Element).
Hypothesis notModal : className el <> "onboarding-modal-overlay".

Lemma unreachable_updElement f j s :
  j <> o -> unreachable o el s -> unreachable o el (updElement f j s).
Proof.
  intros Hne (He & Ho & Hc & Ht). unfold unreachable, updElement.
  destruct_state s. by rewrite list_lookup_alter_ne.
Qed.

Lemma unreachable_setTimeout t delay s :
  ~ mentions o t -> unreachable o el s -> unreachable o el (setTimeout t delay s).
Proof.
  intros Hm (He & Ho & Hc & Ht). unfold unreachable, setTimeout.
  destruct_state s. repeat split; try done.
  apply Forall_app. split; [done|]. by repeat constructor.
Qed.

Lemma unreachable_same s s' :
  elements (browser s') = elements (browser s) ->
  overlay (this s') = overlay (this s) -> callout (this s') = callout (this s) ->
  timers (browser s') = timers (browser s) ->
  unreachable o el s -> unreachable o el s'.
Proof. unfold unreachable. by intros -> -> -> ->. Qed.

Lemma unreachable_lt s : unreachable o el s -> (o < length (elements (browser s)))%nat.
Proof. intros (He & _). by apply lookup_lt_Some in He. Qed.

Lemma unreachable_appendElement cls v s :
  unreachable o el s ->
  unreachable o el (appendElement cls v s).2
  /\ (appendElement cls v s).1 <> o.
Proof.
  intros Hu. pose proof (unreachable_lt s Hu) as Hlt.
  destruct Hu as (He & Ho & Hc & Ht). unfold unreachable, appendElement.
  destruct_state s. split; [|lia]. repeat split; try done.
  by rewrite lookup_app_l.
Qed.

Lemma unreachable_closeWelcomeModal s :
  unreachable o el s -> unreachable o el (closeWelcomeModal s).
Proof.
  intros Hu. unfold closeWelcomeModal, queryCreated.
  destruct (firstAttached _ _ 0%nat) as [m|] eqn:E; [|exact Hu].
  destruct (firstAttached_class _ _ _ _ E) as (e & He & Hcls & _).
  rewrite Nat.sub_0_r in He.
  assert (Hne : m <> o).
  { intros ->. destruct Hu as (Ho & _). rewrite Ho in He. injection He as <-. done. }
  apply unreachable_setTimeout; [cbn; exact Hne|].
  by apply unreachable_updElement.
Qed.

Lemma unreachable_startTutorial page s :
  unreachable o el s -> unreachable o el (startTutorial page s).
Proof.
  intros Hu. unfold startTutorial.
  pose proof (unreachable_closeWelcomeModal s Hu) as Hu1.
  set (s1 := closeWelcomeModal s) in *. clearbody s1.
  pose proof (unreachable_lt s1 Hu1) as Hlt.
  destruct Hu1 as (He & Ho & Hc & Ht).
  unfold unreachable, createCallout, createOverlay, appendElement, setTimeout.
  destruct_state s1. repeat split.
  - rewrite lookup_app_l by (rewrite length_app; cbn; lia). by rewrite lookup_app_l.
  - intros [= Heq]. lia.
  - intros [= Heq]. rewrite length_app in Heq. cbn in Heq. lia.
  - rewrite <- app_assoc. apply Forall_app. split; [done|]. repeat constructor; cbn; auto.
Qed.

Lemma unreachable_endTutorial s : unreachable o el s -> unreachable o el (endTutorial s).
Proof.
  intros Hu. unfold endTutorial.
  assert (Hu1 : unreachable o el
                  (set_highlighted None (set_bodyOnboardingActive false
                     (set_isActive false s)))).
  { destruct Hu as (He & Ho & Hc & Ht). unfold unreachable. destruct_state s. done. }
  set (s1 := set_highlighted None _) in *. clearbody s1.
  assert (Hu2 : unreachable o el
                  (match callout (this s1) with
                   | Some c => setTimeout TCalloutRemove 300 (classListRemoveActive c s1)
                   | None => s1
                   end)).
  { destruct (callout (this s1)) as [c|] eqn:Ec; [|exact Hu1].
    apply unreachable_setTimeout; [cbn; auto|].
    apply unreachable_updElement; [|exact Hu1].
    intros ->. destruct Hu1 as (_ & _ & Hc & _). congruence. }
  set (s2 := match callout (this s1) with Some c => _ | None => _ end) in *. clearbody s2.
  destruct (overlay (this s2)) as [ov|] eqn:Eo; [|exact Hu2].
  apply unreachable_setTimeout; [cbn; auto|].
  apply unreachable_updElement; [|exact Hu2].
  intros ->. destruct Hu2 as (_ & Ho & _ & _). congruence.
Qed.

Lemma unreachable_completeTutorial s :
  unreachable o el s -> unreachable o el (completeTutorial s).
Proof.
  intros Hu. unfold completeTutorial, showCompletionMessage.
  pose proof (unreachable_endTutorial s Hu) as Hu1.
  set (s1 := endTutorial s) in *. clearbody s1.
  assert (Hu2 : unreachable o el
                  (fetch completionRequest (setItem "sclera_tutorial_completed" "true" s1)))
    by (by apply (unreachable_same s1)).
  set (s2 := fetch _ _) in *. clearbody s2.
  destruct (unreachable_appendElement "onboarding-completion-message" None s2 Hu2)
    as [Hu3 Hne].
  destruct (appendElement _ _ s2) as [m s3]. cbn [fst snd] in *.
  apply unreachable_setTimeout; [cbn; exact Hne|].
  by apply unreachable_setTimeout.
Qed.

Lemma unreachable_nextStep s :
  unreachable o el s -> unreachable o el (state_of (nextStep s)).
Proof.
  intros Hu. unfold nextStep. destruct (_ <? _)%Z; [|by apply unreachable_completeTutorial].
  destruct (callout (this s)) as [c|] eqn:Ec; [|exact Hu]. cbn [state_of].
  apply unreachable_setTimeout; [cbn; auto|].
  apply unreachable_updElement; [|exact Hu].
  intros ->. destruct Hu as (_ & _ & Hc & _). congruence.
Qed.

Lemma unreachable_showStep page i s :
  unreachable o el s -> unreachable o el (state_of (showStep page i s)).
Proof.
  intros Hu. unfold showStep.
  destruct (_ || _); [by apply unreachable_endTutorial|].
  assert (Hu1 : unreachable o el (set_currentStep i s))
    by (by apply (unreachable_same s)).
  set (s1 := set_currentStep i s) in *. clearbody s1.
  destruct (tutorialSteps (this s1) !! Z.to_nat i) as [step|]; [|exact Hu1].
  destruct (querySelector page (target step)) as [te|];
    [|by apply unreachable_nextStep].
  destruct (callout (this s1)) as [c|] eqn:Ec; [|exact Hu1]. cbn [state_of].
  assert (Hne : c <> o)
    by (intros ->; destruct Hu1 as (_ & _ & Hc & _); congruence).
  unfold positionCallout. destruct (calloutPlacement _ _ _) as [[side y] x].
  apply unreachable_updElement; [exact Hne|].
  match goal with
  | |- unreachable _ _ (set_scrolledTo _ ?w) =>
      apply (unreachable_same w); [reflexivity..|]
  end.
  apply unreachable_updElement; [exact Hne|].
  match goal with
  | |- unreachable _ _ (highlightElement _ _ ?w) =>
      apply (unreachable_same w); [reflexivity..|]
  end.
  by apply unreachable_updElement.
Qed.

Lemma unreachable_runTask page t s :
  ~ mentions o t -> unreachable o el s -> unreachable o el (state_of (runTask page t s)).
Proof.
  intros Hm Hu. destruct t; cbn [runTask state_of]; cbn in Hm.
  - by apply unreachable_startTutorial.
  - unfold showWelcomeModal.
    destruct (unreachable_appendElement "onboarding-modal-overlay" None s Hu) as [Hu1 Hne].
    destruct (appendElement _ _ s) as [m s1]. cbn [fst snd] in *.
    by apply unreachable_setTimeout.
  - by apply unreachable_showStep.
  - by apply unreachable_showStep.
  - by apply unreachable_updElement.
  - by apply unreachable_updElement.
  - destruct (overlay (this s)) as [ov|] eqn:Eo; [|exact Hu]. cbn [state_of].
    apply unreachable_updElement; [|exact Hu].
    intros ->. destruct Hu as (_ & Ho & _ & _). congruence.
  - destruct (callout (this s)) as [c|] eqn:Ec; [|exact Hu]. cbn [state_of].
    apply unreachable_updElement; [|exact Hu].
    intros ->. destruct Hu as (_ & _ & Hc & _). congruence.
  - destruct (overlay (this s)) as [ov|] eqn:Eo; [|exact Hu]. cbn [state_of].
    apply unreachable_updElement; [|exact Hu].
    intros ->. destruct Hu as (_ & Ho & _ & _). congruence.
  - apply unreachable_setTimeout; [cbn; exact Hm|]. by apply unreachable_updElement.
Qed.

Lemma unreachable_handle page ev s :
  unreachable o el s -> unreachable o el (handle page ev s).
Proof.
  intros Hu. destruct ev; cbn [handle].
  - by apply unreachable_startTutorial.
  - unfold skipTutorial. apply (unreachable_same (closeWelcomeModal s)); [reflexivity..|].
    by apply unreachable_closeWelcomeModal.
  - by apply unreachable_endTutorial.
  - by apply unreachable_nextStep.
  - unfold previousStep. destruct (_ <? _)%Z; [|exact Hu].
    destruct (callout (this s)) as [c|] eqn:Ec; [|exact Hu]. cbn [state_of].
    apply unreachable_setTimeout; [cbn; auto|].
    apply unreachable_updElement; [|exact Hu].
    intros ->. destruct Hu as (_ & _ & Hc & _). congruence.
  - by apply unreachable_completeTutorial.
  - unfold restartTutorial. apply unreachable_startTutorial.
    by apply (unreachable_same s).
  - by apply unreachable_showStep.
  - unfold showWelcomeModal.
    destruct (unreachable_appendElement "onboarding-modal-overlay" None s Hu) as [Hu1 Hne].
    destruct (appendElement _ _ s) as [m s1]. cbn [fst snd] in *.
    by apply unreachable_setTimeout.
  - destruct (listening (browser s)); [by apply unreachable_startTutorial|exact Hu].
  - unfold fireAt. destruct (timers (browser s) !! k) as [[d t]|] eqn:Ek; [|exact Hu].
    apply unreachable_runTask.
    + destruct Hu as (_ & _ & _ & Ht).
      exact (proj1 (Forall_lookup _ _) Ht k (d, t) Ek).
    + destruct Hu as (He & Ho & Hc & Ht). unfold unreachable.
      destruct_state s. repeat split; try done. by apply Forall_delete.
  - by apply (unreachable_same s).
Qed.

Lemma unreachable_runEvents evs s :
  unreachable o el s -> unreachable o el (runEvents evs s).
Proof.
  revert s. induction evs as [|[page ev] evs IH]; intros s Hu; [exact Hu|].
  cbn. apply IH. by apply unreachable_handle.
Qed.

End Unreachable.

(** startTutorial leaves to itself every element that was on the page
    before it, other than a welcome prompt or an element a pending
    callback holds: it points this.overlay and this.callout to new
    elements, and whatever happens afterwards (method calls, timers, in
    any order and number) the old element stays exactly as it was. So the
    overlay and the callout of an earlier start, if still attached when
    startTutorial is called again, are never removed: endTutorial and
    completeTutorial remove the new ones only. *)
Theorem second_start_orphans_overlay page s o el evs :
  elements (browser s) !! o = Some el ->
  className el <> "onboarding-modal-overlay" ->
  Forall (fun dt => ~ mentions o dt.2) (timers (browser s)) ->
  let s' := runEvents evs (startTutorial page s) in
  elements (browser s') !! o = Some el
  /\ overlay (this s') <> Some o
  /\ callout (this s') <> Some o.
Proof.
  intros He Hcls Ht. cbn zeta.
  assert (Hlt : (o < length (elements (browser s)))%nat) by (by apply lookup_lt_Some in He).
  assert (Hu : unreachable o el (startTutorial page s)).
  { unfold startTutorial.
    assert (Hclose : elements (browser (closeWelcomeModal s)) !! o = Some el
                     /\ length (elements (browser (closeWelcomeModal s)))
                        = length (elements (browser s))
                     /\ Forall (fun dt => ~ mentions o dt.2)
                          (timers (browser (closeWelcomeModal s)))).
    { unfold closeWelcomeModal, queryCreated.
      destruct (firstAttached _ _ 0%nat) as [m|] eqn:E; [|done].
      destruct (firstAttached_class _ _ _ _ E) as (e & Hem & Hc & _).
      rewrite Nat.sub_0_r in Hem.
      assert (Hne : m <> o) by (intros ->; rewrite He in Hem; injection Hem as <-; done).
      unfold setTimeout, classListRemoveActive, updElement. destruct_state s.
      rewrite list_lookup_alter_ne by done. rewrite length_alter.
      repeat split; try done. apply Forall_app. split; [done|]. by repeat constructor. }
    set (s1 := closeWelcomeModal s) in *. clearbody s1.
    destruct Hclose as (He1 & Hlen & Ht1).
    unfold unreachable, createCallout, createOverlay, appendElement, setTimeout.
    destruct_state s1. repeat split.
    - rewrite lookup_app_l by (rewrite length_app; cbn; lia).
      rewrite lookup_app_l by lia. exact He1.
    - intros [= Heq]. lia.
    - intros [= Heq]. rewrite length_app in Heq. cbn in Heq. lia.
    - rewrite <- app_assoc. apply Forall_app. split; [done|]. repeat constructor; cbn; auto. }
  destruct (unreachable_runEvents o el Hcls evs _ Hu) as (H1 & H2 & H3 & _).
  done.
Qed.



Lemma second_start_orphans_overlay_witness :
  overlay (this studentAtFirstStep) = Some 0%nat
  /\ elements (browser (runEvents [(studentPage, CallEndTutorial);
                                   (studentPage, TimerFires 0%nat);
                                   (studentPage, TimerFires 0%nat);
                                   (studentPage, TimerFires 0%nat);
                                   (studentPage, TimerFires 0%nat)]
                          (startTutorial studentPage studentAtFirstStep))) !! 0%nat
     = Some (mkElement "onboarding-overlay" true true None).
Proof.
  assert (He : elements (browser studentAtFirstStep) !! 0%nat
               = Some (mkElement "onboarding-overlay" true true None))
    by (vm_compute; reflexivity).
  assert (Hcls : className (mkElement "onboarding-overlay" true true None)
                 <> "onboarding-modal-overlay") by discriminate.
  assert (Ht : Forall (fun dt => ~ mentions 0 dt.2) (timers (browser studentAtFirstStep))).
  { replace (timers (browser studentAtFirstStep)) with (@nil (Z * Task))
      by (vm_compute; reflexivity).
    constructor. }
  pose proof (second_start_orphans_overlay studentPage studentAtFirstStep 0 _
                [(studentPage, CallEndTutorial); (studentPage, TimerFires 0%nat);
                 (studentPage, TimerFires 0%nat); (studentPage, TimerFires 0%nat);
                 (studentPage, TimerFires 0%nat)] He Hcls Ht) as H.
  cbv zeta in H. split; [vm_compute; reflexivity|exact (proj1 H)].
Defined.

End OnboardingRuns.

(** * Ending twice, and what a merge keeps *)
Module OnboardingEnd.
Import Onboarding OnboardingFacts OnboardingMore OnboardingRuns.
Local Open Scope list_scope.

Lemma alter_deactivate_twice i j (l : list Element) :
  alter deactivate j (alter deactivate i (alter deactivate j (alter deactivate i l)))
  = alter deactivate j (alter deactivate i l).
Proof.
  apply list_eq. intros k.
  destruct (decide (k = j)) as [Hj|Hj]; destruct (decide (k = i)) as [Hi|Hi]; subst;
    repeat (rewrite list_lookup_alter_eq || rewrite list_lookup_alter_ne by done);
    try reflexivity; by destruct (l !! _) as [[]|].
Qed.

Lemma alter_deactivate_once i (l : list Element) :
  alter deactivate i (alter deactivate i l) = alter deactivate i l.
Proof.
  apply list_eq. intros k. destruct (decide (k = i)) as [->|Hi];
    repeat (rewrite list_lookup_alter_eq || rewrite list_lookup_alter_ne by done);
    try reflexivity; by destruct (l !! _) as [[]|].
Qed.

(** endTutorial leaves the manager inactive, the body class removed, no
    element highlighted and the callout off screen, and it stores and
    sends nothing. Called again at once it changes no field of the
    manager and no element: it only queues the removal callbacks of the
    callout and the overlay a second time. *)
Theorem endTutorial_again_only_requeues s :
  let s1 := endTutorial s in
  let s2 := endTutorial s1 in
  isActive (this s1) = false
  /\ bodyOnboardingActive (browser s1) = false
  /\ highlighted (browser s1) = None
  /\ visibleStep s1 = None
  /\ this s2 = this s1
  /\ elements (browser s2) = elements (browser s1)
  /\ localStorage (browser s2) = localStorage (browser s)
  /\ network (browser s2) = network (browser s)
  /\ (exists again, timers (browser s2) = timers (browser s1) ++ again
        /\ Forall (fun dt => dt.2 = TCalloutRemove \/ dt.2 = TOverlayRemove) again
        /\ length (timers (browser s1)) = (length (timers (browser s)) + length again)%nat).
Proof.
  cbn zeta. unfold endTutorial, visibleStep, setTimeout, classListRemoveActive, updElement.
  fold deactivate.
  destruct_refs s.
  - repeat split.
    + destruct (decide (n0 = n)) as [->|Hne];
        repeat (rewrite list_lookup_alter_eq || rewrite list_lookup_alter_ne by done);
        by destruct (elements0 !! _) as [[]|].
    + by rewrite alter_deactivate_twice.
    + eexists [_; _]. split; [by rewrite <- !app_assoc|].
      split; [repeat (apply List.Forall_cons; [cbn; auto|]); apply List.Forall_nil|].
      rewrite ?length_app; cbn; lia.
  - repeat split.
    + by rewrite alter_deactivate_once.
    + eexists [_]. split; [reflexivity|].
      split; [repeat (apply List.Forall_cons; [cbn; auto|]); apply List.Forall_nil|].
      rewrite ?length_app; cbn; lia.
  - repeat split.
    + rewrite list_lookup_alter_eq. by destruct (elements0 !! _) as [[]|].
    + by rewrite alter_deactivate_once.
    + eexists [_]. split; [reflexivity|].
      split; [repeat (apply List.Forall_cons; [cbn; auto|]); apply List.Forall_nil|].
      rewrite ?length_app; cbn; lia.
  - repeat split. exists []. split; [by rewrite app_nil_r|]. split; [constructor|cbn; lia].
Qed.

End OnboardingEnd.

(** * What a merge-write keeps and creates *)
Module FunctionsMerge.
Import Functions FunctionsFacts FunctionsMore.
Local Open Scope list_scope.
Local Open Scope nat_scope.

(** The field holds a number, or a time. *)
Definition isNumber (f : string) (fields : gmap string Value) : Prop :=
  (exists n, fields !! f = Some (VInteger n)) \/ (exists d, fields !! f = Some (VDouble d)).

Definition isTime (f : string) (fields : gmap string Value) : Prop :=
  exists t, fields !! f = Some (VTimestamp t).

(** A summary document as the trigger leaves it. *)
Definition wellFormed (fields : gmap string Value) : Prop :=
  isNumber "total_assessments" fields /\ isNumber "total_score_sum" fields
  /\ isTime "last_updated" fields.

Lemma incremented_number n current :
  (exists z, incremented n current = Some (VInteger z))
  \/ (exists d, incremented n current = Some (VDouble d)).
Proof.
  unfold incremented, increment.
  destruct (encodeNumber n) eqn:E.
  - destruct current as [[]|]; eauto.
  - destruct current as [[]|]; eauto.
  - exfalso. unfold encodeNumber in E.
    destruct n as [[]| | |]; try discriminate; destruct (Number.safeInteger _); discriminate.
  - exfalso. unfold encodeNumber in E.
    destruct n as [[]| | |]; try discriminate; destruct (Number.safeInteger _); discriminate.
Qed.

Lemma counted_number n (k : nat) current :
  0 < k ->
  (exists z, Nat.iter k (incremented n) current = Some (VInteger z))
  \/ (exists d, Nat.iter k (incremented n) current = Some (VDouble d)).
Proof.
  destruct k as [|k]; [lia|]. intros _. cbn [Nat.iter]. apply incremented_number.
Qed.

(** The trigger writes with merge. In every document, on every branch,
    each field other than total_assessments, total_score_sum and
    last_updated is kept as it was. When the handler commits and the store
    accepts, every document the batch refers to exists afterwards (created
    when there was none), with two counters that are numbers and a
    last_updated that is a time. *)
Theorem merge_keeps_other_fields accepts now db result userId q :
  let db' := resultCreated accepts now db result userId in
  (forall f, f <> "total_assessments" -> f <> "total_score_sum" -> f <> "last_updated" ->
     fieldAt db' q f = fieldAt db q f)
  /\ (forall batch,
        onResultCreated db result userId = Commits batch -> accepts db batch = true ->
        In q (map ref batch) ->
        is_Some (documents db' !! q) /\ wellFormed (fieldsAt db' q)).
Proof.
  cbn zeta.
  destruct (resultCreated_commit accepts db result userId) as (refs & Hb & H).
  rewrite (H now db eq_refl (fun _ => eq_refl)).
  destruct (commit_at now result refs db) as [_ Hq].
  destruct (Hq q) as (Ha & Hs & Ht & Hf & _).
  split; [exact Hf|].
  intros batch E A Hin. rewrite (Hb batch E A), map_map in Hin.
  cbn [summaryWrite ref] in Hin. rewrite map_id in Hin.
  destruct (Ht Hin) as [Htime Hsome]. split; [exact Hsome|].
  pose proof (listings_pos q refs Hin) as Hpos.
  split; [|split].
  - unfold isNumber. change (fieldsAt ?d q !! ?f) with (fieldAt d q f). rewrite Ha.
    by apply counted_number.
  - unfold isNumber. change (fieldsAt ?d q !! ?f) with (fieldAt d q f). rewrite Hs.
    by apply counted_number.
  - by exists now.
Qed.

(** A summary with a field the trigger does not know, and a class without
    a summary. *)
Definition annotatedStore : Firestore :=
  mkFirestore {["u1" := mkUser (Some ["c1"; "c2"])]}
    {[summaryPath "c1" := {["total_assessments" := VInteger 4;
                           "teacher_note" := VString "midterm"]}]}.

Lemma merge_keeps_other_fields_witness :
  fieldAt (resultCreated acceptAll 1000 annotatedStore (mkResult (Some (Number.ofZ 85))) "u1")
    (summaryPath "c1") "teacher_note"
  = fieldAt annotatedStore (summaryPath "c1") "teacher_note"
  /\ is_Some (documents (resultCreated acceptAll 1000 annotatedStore
                           (mkResult (Some (Number.ofZ 85))) "u1") !! summaryPath "c2")
  /\ wellFormed (fieldsAt (resultCreated acceptAll 1000 annotatedStore
                             (mkResult (Some (Number.ofZ 85))) "u1") (summaryPath "c2")).
Proof.
  split.
  - apply (proj1 (merge_keeps_other_fields acceptAll 1000 annotatedStore
                    (mkResult (Some (Number.ofZ 85))) "u1" (summaryPath "c1")));
      discriminate.
  - apply (proj2 (merge_keeps_other_fields acceptAll 1000 annotatedStore
                    (mkResult (Some (Number.ofZ 85))) "u1" (summaryPath "c2"))
             (map (fun c => mkWrite (summaryPath c)
                              (summaryData (mkResult (Some (Number.ofZ 85)))) true)
                ["c1"; "c2"])).
    + vm_compute. reflexivity.
    + reflexivity.
    + right. left. reflexivity.
Defined.

End FunctionsMerge.

(** * The empty catalog and the missing last step *)
Module OnboardingEdges.
Import Onboarding OnboardingFacts OnboardingMore OnboardingRuns.
Local Open Scope list_scope.

(** ** Starting on an empty catalog (C2) *)

Lemma queryCreated_lt cls s m :
  queryCreated cls s = Some m -> (m < length (elements (browser s)))%nat.
Proof.
  unfold queryCreated. intros H.
  destruct (firstAttached_class _ _ _ _ H) as (el & Hel & _).
  apply lookup_lt_Some in Hel. lia.
Qed.

(** With the welcome prompt [m] open, startTutorial switches it off and
    queues its removal before anything else. *)
Lemma startTutorial_emptyRun_prompt page s m :
  getTutorialSteps page = [] ->
  timers (browser s) = [] ->
  queryCreated "onboarding-modal-overlay" s = Some m ->
  startTutorial page s
  = emptyRun (classListRemoveActive m s) true false true true
      [(clock (browser s) + 300, TRemove m);
       (clock (browser s) + 10, TOverlayAddActive); (clock (browser s) + 500, TShowStep 0)]
      (clock (browser s)).
Proof.
  intros Hcat Ht Hmodal. unfold startTutorial, closeWelcomeModal. rewrite Hmodal, Hcat.
  unfold createCallout, createOverlay, appendElement, setTimeout, emptyRun,
    classListRemoveActive, updElement.
  destruct_state s. subst. cbn. by rewrite length_snoc, snoc_snoc.
Qed.

Lemma emptyRun_fire_overlay page s ck m :
  fireNext page (emptyRun s true false true true
                   [(ck + 300, TRemove m); (ck + 10, TOverlayAddActive);
                    (ck + 500, TShowStep 0)] ck)
  = Some (emptyRun s true true true true
            [(ck + 300, TRemove m); (ck + 500, TShowStep 0)] (ck + 10)).
Proof.
  rewrite (fireNext_middle page _ [(ck + 300, TRemove m)] (ck + 10) TOverlayAddActive
             [(ck + 500, TShowStep 0)]);
    [|reflexivity|repeat constructor; cbn; lia|repeat constructor; cbn; lia].
  cbn. unfold classListAddActive, updElement. cbn.
  rewrite alter_at_length, Z.max_r by lia. reflexivity.
Qed.

Lemma emptyRun_fire_prompt page s ck m :
  (m < length (elements (browser s)))%nat ->
  fireNext page (emptyRun s true true true true
                   [(ck + 300, TRemove m); (ck + 500, TShowStep 0)] (ck + 10))
  = Some (emptyRun (removeElement m s) true true true true
            [(ck + 500, TShowStep 0)] (ck + 300)).
Proof.
  intros Hm. erewrite fireNext_head; [|reflexivity|repeat constructor; cbn; lia].
  cbn. unfold removeElement, updElement, emptyRun. cbn.
  rewrite alter_app_l by exact Hm. rewrite length_alter, Z.max_r by lia.
  destruct_state s. reflexivity.
Qed.

Lemma emptyRun_fire_showStep page s ck clk :
  clk <= ck + 500 ->
  fireNext page (emptyRun s true true true true [(ck + 500, TShowStep 0)] clk)
  = Some (emptyRun s false false true true
            [(ck + 800, TCalloutRemove); (ck + 800, TOverlayRemove)] (ck + 500)).
Proof.
  intros Hclk. erewrite fireNext_head; [|reflexivity|constructor].
  cbn [runTask]. rewrite showStep_outside by (right; unfold total; cbn; lia).
  unfold endTutorial, classListRemoveActive, updElement, setTimeout. cbn.
  rewrite alter_after_length, alter_at_length, Z.max_r by lia.
  replace (ck + 500 + 300) with (ck + 800) by lia. reflexivity.
Qed.

(** The fields of the states of such a run that the claim speaks of. *)
Lemma emptyRun_fields s act ovActive ovAttached coAttached tms clk :
  let r := emptyRun s act ovActive ovAttached coAttached tms clk in
  let o := length (elements (browser s)) in
  isActive (this r) = act /\ currentStep (this r) = 0 /\ tutorialSteps (this r) = []
  /\ overlay (this r) = Some o /\ callout (this r) = Some (S o)
  /\ elements (browser r) !! o = Some (mkElement "onboarding-overlay" ovActive ovAttached None)
  /\ elements (browser r) !! S o
     = Some (mkElement "onboarding-callout" false coAttached (Some calloutTemplate))
  /\ timers (browser r) = tms /\ clock (browser r) = clk
  /\ localStorage (browser r) = localStorage (browser s)
  /\ network (browser r) = network (browser s)
  /\ (forall i, (i < o)%nat -> elements (browser r) !! i = elements (browser s) !! i).
Proof.
  cbn zeta. unfold emptyRun. cbn. rewrite lookup_at_length, lookup_after_length.
  repeat split. intros i Hi. by rewrite lookup_app_l.
Qed.

(** C2, as the code has it. Let startTutorial be called on an empty
    catalog with no callback pending, the welcome prompt open or not. The
    manager becomes active on index 0 and the overlay and the callout are
    created and attached; the overlay is switched on 10 ms later. An open
    welcome prompt is switched off at once and removed 300 ms after the
    start. 500 ms after the start showStep(0) fires and ends the
    tutorial: the manager is active until then and inactive from then on,
    and 300 ms later (800 ms after the start) the overlay and the callout
    are removed and no callback is pending. The callout is never on
    screen, and nothing is stored or sent. *)
Theorem start_on_empty_catalog_timeline page s :
  getTutorialSteps page = [] ->
  timers (browser s) = [] ->
  let o := length (elements (browser s)) in
  let c := S o in
  let n := match queryCreated "onboarding-modal-overlay" s with
           | Some _ => 1%nat
           | None => 0%nat
           end in
  let s1 := startTutorial page s in
  (isActive (this s1) = true /\ currentStep (this s1) = 0 /\ tutorialSteps (this s1) = []
   /\ overlay (this s1) = Some o /\ callout (this s1) = Some c
   /\ clock (browser s1) = clock (browser s)
   /\ elements (browser s1) !! o = Some (mkElement "onboarding-overlay" false true None)
   /\ elements (browser s1) !! c
      = Some (mkElement "onboarding-callout" false true (Some calloutTemplate)))
  /\ (isActive (this (runTimers 1 page s1)) = true
      /\ clock (browser (runTimers 1 page s1)) = clock (browser s) + 10
      /\ elements (browser (runTimers 1 page s1)) !! o
         = Some (mkElement "onboarding-overlay" true true None))
  /\ (forall m el,
        queryCreated "onboarding-modal-overlay" s = Some m ->
        elements (browser s) !! m = Some el ->
        elements (browser s1) !! m = Some (deactivate el)
        /\ isActive (this (runTimers 2 page s1)) = true
        /\ clock (browser (runTimers 2 page s1)) = clock (browser s) + 300
        /\ elements (browser (runTimers 2 page s1)) !! m = Some (detach (deactivate el)))
  /\ (isActive (this (runTimers (2 + n) page s1)) = false
      /\ clock (browser (runTimers (2 + n) page s1)) = clock (browser s) + 500
      /\ elements (browser (runTimers (2 + n) page s1)) !! o
         = Some (mkElement "onboarding-overlay" false true None))
  /\ (timers (browser (runTimers (4 + n) page s1)) = []
      /\ clock (browser (runTimers (4 + n) page s1)) = clock (browser s) + 800
      /\ elements (browser (runTimers (4 + n) page s1)) !! o
         = Some (mkElement "onboarding-overlay" false false None)
      /\ elements (browser (runTimers (4 + n) page s1)) !! c
         = Some (mkElement "onboarding-callout" false false (Some calloutTemplate))
      /\ isActive (this (runTimers (4 + n) page s1)) = false
      /\ localStorage (browser (runTimers (4 + n) page s1)) = localStorage (browser s)
      /\ network (browser (runTimers (4 + n) page s1)) = network (browser s))
  /\ (forall k, (k < 2 + n)%nat -> isActive (this (runTimers k page s1)) = true)
  /\ (forall k, (2 + n <= k)%nat -> isActive (this (runTimers k page s1)) = false)
  /\ (forall k, visibleStep (runTimers k page s1) = None).
Proof.
  intros Hcat Ht o c n s1. set (ck := clock (browser s)).
  pose proof (emptyRun_fire3 page) as F3. pose proof (emptyRun_fire4 page) as F4.
  (* both cases reach, after 1 + n callbacks, a state from which showStep(0) fires *)
  assert (Hrun : exists base clk l0,
             clk <= ck + 500
             /\ length (elements (browser base)) = o
             /\ localStorage (browser base) = localStorage (browser s)
             /\ network (browser base) = network (browser s)
             /\ s1 = emptyRun l0 true false true true (timers (browser s1)) ck
             /\ length (elements (browser l0)) = o
             /\ runTimers 1 page s1
                = emptyRun l0 true true true true (timers (browser (runTimers 1 page s1)))
                    (ck + 10)
             /\ (forall k, (k <= 1 + n)%nat ->
                   isActive (this (runTimers k page s1)) = true
                   /\ visibleStep (runTimers k page s1) = None)
             /\ (forall k, runTimers (1 + n + k) page s1
                           = runTimers k page
                               (emptyRun base true true true true
                                  [(ck + 500, TShowStep 0)] clk))
             /\ (forall m el,
                   queryCreated "onboarding-modal-overlay" s = Some m ->
                   elements (browser s) !! m = Some el ->
                   elements (browser s1) !! m = Some (deactivate el)
                   /\ isActive (this (runTimers 2 page s1)) = true
                   /\ clock (browser (runTimers 2 page s1)) = ck + 300
                   /\ elements (browser (runTimers 2 page s1)) !! m
                      = Some (detach (deactivate el)))).
  { subst s1 n. destruct (queryCreated "onboarding-modal-overlay" s) as [m|] eqn:Hmodal.
    - pose proof (queryCreated_lt _ _ _ Hmodal) as Hm.
      pose proof (startTutorial_emptyRun_prompt page s m Hcat Ht Hmodal) as E0.
      fold ck in E0.
      pose proof (emptyRun_fire_overlay page (classListRemoveActive m s) ck m) as F1.
      assert (Hm' : (m < length (elements (browser (classListRemoveActive m s))))%nat)
        by (unfold classListRemoveActive, updElement; destruct_state s;
            by rewrite length_alter).
      pose proof (emptyRun_fire_prompt page (classListRemoveActive m s) ck m Hm') as F2.
      exists (removeElement m (classListRemoveActive m s)), (ck + 300),
        (classListRemoveActive m s).
      assert (Hlen : forall f g, length (elements (browser (updElement f m (updElement g m s))))
                                 = o)
        by (intros f g; unfold updElement; destruct_state s; by rewrite !length_alter).
      assert (Hlen1 : forall g, length (elements (browser (updElement g m s))) = o)
        by (intros g; unfold updElement; destruct_state s; by rewrite !length_alter).
      split; [lia|]. split; [apply Hlen|].
      split; [unfold removeElement, classListRemoveActive, updElement; destruct_state s; done|].
      split; [unfold removeElement, classListRemoveActive, updElement; destruct_state s; done|].
      rewrite E0.
      split; [reflexivity|]. split; [apply Hlen1|].
      split; [by rewrite (runTimers_one _ _ _ F1)|].
      split.
      { intros [|[|[|k]]] Hk; try lia.
        - cbn [runTimers]. split; [reflexivity|apply emptyRun_hidden].
        - rewrite (runTimers_one _ _ _ F1). split; [reflexivity|apply emptyRun_hidden].
        - rewrite (runTimers_step 1 _ _ _ F1), (runTimers_one _ _ _ F2).
          split; [reflexivity|apply emptyRun_hidden]. }
      split.
      { intros k. change (1 + 1 + k)%nat with (S (S k)).
        by rewrite (runTimers_step (S k) _ _ _ F1), (runTimers_step k _ _ _ F2). }
      intros m' el [= <-] Hel.
      rewrite (runTimers_step 1 _ _ _ F1), (runTimers_one _ _ _ F2).
      destruct (emptyRun_fields (classListRemoveActive m s) true false true true
                  [(ck + 300, TRemove m); (ck + 10, TOverlayAddActive);
                   (ck + 500, TShowStep 0)] ck) as (_ & _ & _ & _ & _ & _ & _ & _ & _ & _ & _ & Hl1).
      destruct (emptyRun_fields (removeElement m (classListRemoveActive m s))
                  true true true true [(ck + 500, TShowStep 0)] (ck + 300))
        as (Ha & _ & _ & _ & _ & _ & _ & _ & Hc & _ & _ & Hl2).
      assert (Hm'' : (m < length (elements (browser (removeElement m
                                                       (classListRemoveActive m s)))))%nat)
        by (unfold removeElement, classListRemoveActive, updElement; destruct_state s;
            by rewrite !length_alter).
      cbn zeta in Hl1, Hl2. rewrite Hl1 by exact Hm'. rewrite Hl2 by exact Hm''.
      split; [|split; [exact Ha|split; [exact Hc|]]].
      + unfold classListRemoveActive, updElement. destruct_state s.
        by rewrite list_lookup_alter_eq, Hel.
      + unfold removeElement, classListRemoveActive, updElement. destruct_state s.
        by rewrite !list_lookup_alter_eq, Hel.
    - pose proof (startTutorial_emptyRun page s Hcat Ht Hmodal) as E0. fold ck in E0.
      pose proof (emptyRun_fire1 page s ck) as F1.
      exists s, (ck + 10), s. split; [lia|]. split; [reflexivity|].
      split; [reflexivity|]. split; [reflexivity|]. rewrite E0.
      split; [reflexivity|]. split; [reflexivity|].
      split; [by rewrite (runTimers_one _ _ _ F1)|].
      split.
      { intros [|[|k]] Hk; try lia.
        - cbn [runTimers]. split; [reflexivity|apply emptyRun_hidden].
        - rewrite (runTimers_one _ _ _ F1). split; [reflexivity|apply emptyRun_hidden]. }
      split.
      { intros k. change (1 + 0 + k)%nat with (S k).
        by rewrite (runTimers_step k _ _ _ F1). }
      intros m' el [=]. }
  destruct Hrun as (base & clk & l0 & Hclk & Hlen & Hls & Hnet & E0 & Hlen0 & E1 & Hbefore
                    & Hafter & Hprompt).
  pose proof (emptyRun_fire_showStep page base ck clk Hclk) as Fs.
  assert (T1 : runTimers (2 + n) page s1
               = emptyRun base false false true true
                   [(ck + 800, TCalloutRemove); (ck + 800, TOverlayRemove)] (ck + 500)).
  { replace (2 + n)%nat with (1 + n + 1)%nat by lia. rewrite Hafter.
    exact (runTimers_one _ _ _ Fs). }
  assert (T2 : runTimers (3 + n) page s1
               = emptyRun base false false true false [(ck + 800, TOverlayRemove)] (ck + 800)).
  { replace (3 + n)%nat with (1 + n + 2)%nat by lia. rewrite Hafter.
    rewrite (runTimers_step 1 _ _ _ Fs). exact (runTimers_one _ _ _ (F3 base ck)). }
  assert (T3 : forall k, runTimers (4 + n + k) page s1
                         = emptyRun base false false false false [] (ck + 800)).
  { intros k. replace (4 + n + k)%nat with (1 + n + S (S (S k)))%nat by lia. rewrite Hafter.
    rewrite (runTimers_step _ _ _ _ Fs), (runTimers_step _ _ _ _ (F3 base ck)),
      (runTimers_step _ _ _ _ (F4 base ck)).
    by apply runTimers_idle. }
  split.
  { destruct (emptyRun_fields l0 true false true true (timers (browser s1)) ck)
      as (H1 & H2 & H3 & H4 & H5 & H6 & H7 & _ & H9 & _).
    cbn zeta in *. rewrite Hlen0 in *. rewrite <- E0 in *. by repeat split. }
  split.
  { destruct (emptyRun_fields l0 true true true true
                (timers (browser (runTimers 1 page s1))) (ck + 10))
      as (H1 & _ & _ & _ & _ & H6 & _ & _ & H9 & _).
    cbn zeta in *. rewrite Hlen0 in *. rewrite <- E1 in *. by repeat split. }
  split; [exact Hprompt|].
  split.
  { rewrite T1.
    destruct (emptyRun_fields base false false true true
                [(ck + 800, TCalloutRemove); (ck + 800, TOverlayRemove)] (ck + 500))
      as (H1 & _ & _ & _ & _ & H6 & _ & _ & H9 & _).
    cbn zeta in *. rewrite Hlen in *. by repeat split. }
  split.
  { replace (4 + n)%nat with (4 + n + 0)%nat by lia. rewrite T3.
    destruct (emptyRun_fields base false false false false [] (ck + 800))
      as (H1 & _ & _ & _ & _ & H6 & H7 & H8 & H9 & H10 & H11 & _).
    cbn zeta in *. rewrite Hlen in *. rewrite H10, H11, Hls, Hnet. by repeat split. }
  split; [intros k Hk; apply Hbefore; lia|].
  assert (Hend : forall k, (2 + n <= k)%nat ->
            isActive (this (runTimers k page s1)) = false
            /\ visibleStep (runTimers k page s1) = None).
  { intros k Hk.
    destruct (decide (k = 2 + n)%nat) as [->|]; [rewrite T1; split; [reflexivity|apply emptyRun_hidden]|].
    destruct (decide (k = 3 + n)%nat) as [->|]; [rewrite T2; split; [reflexivity|apply emptyRun_hidden]|].
    replace k with (4 + n + (k - 4 - n))%nat by lia. rewrite T3.
    split; [reflexivity|apply emptyRun_hidden]. }
  split; [intros k Hk; by apply Hend|].
  intros k. destruct (decide (k <= 1 + n)%nat); [by apply Hbefore|apply Hend; lia].
Qed.


(** A first visit to a dashboard of another account type, the welcome
    prompt on screen: its Start button calls startTutorial. *)
Definition promptOpen : State :=
  runTimers 2 teacherPage (newOnboardingManager (pageLoad ∅ [])).

Lemma start_on_empty_catalog_timeline_witness :
  queryCreated "onboarding-modal-overlay" promptOpen = Some 0%nat
  /\ isActive (this (startTutorial teacherPage promptOpen)) = true
  /\ isActive (this (runTimers (2 + 1) teacherPage (startTutorial teacherPage promptOpen)))
     = false
  /\ timers (browser (runTimers (4 + 1) teacherPage (startTutorial teacherPage promptOpen)))
     = []
  /\ visibleStep (runTimers (2 + 1) teacherPage (startTutorial teacherPage promptOpen))
     = None.
Proof.
  assert (Hq : queryCreated "onboarding-modal-overlay" promptOpen = Some 0%nat)
    by (vm_compute; reflexivity).
  assert (Ht : timers (browser promptOpen) = []) by (vm_compute; reflexivity).
  pose proof (start_on_empty_catalog_timeline teacherPage promptOpen eq_refl Ht) as H.
  cbv zeta in H. rewrite Hq in H.
  destruct H as ((Hact & _) & _ & _ & (Hend & _) & (Htm & _) & _ & _ & Hvis).
  split; [exact Hq|]. split; [exact Hact|]. split; [exact Hend|]. split; [exact Htm|].
  exact (Hvis (2 + 1)%nat).
Defined.

(** ** A missing step: skipped, or the end (C3) *)

(** C3, as the code has it. Let showStep(i) be called at rest on a step
    whose target is not on the page; nothing is rendered for it. If it is
    not the last step, the index becomes i and one callback is queued
    that calls showStep(i + 1) 300 ms later, with nothing stored or sent;
    through a run of k missing steps followed by a found one the callout
    stays off screen with its fields untouched and then shows that step as
    i+k+1 of N, N the full length of the catalog. If it is the last step
    there is no index+1: showStep runs completeTutorial, so the manager is
    inactive on index i, the completed flag is stored and the completion
    request is sent. The same holds, after one callback per remaining
    step, when every later step is missing too. *)
Theorem missing_step_skips_or_completes page s c v i :
  calloutHolds c v s ->
  timers (browser s) = [] ->
  0 <= i < total s ->
  missingAt page (tutorialSteps (this s)) i ->
  let s0 := state_of (showStep page i s) in
  visibleStep s0 = None
  /\ currentStep (this s0) = i
  /\ (i < total s - 1 ->
      calloutView s0 = Some v
      /\ timers (browser s0) = [(clock (browser s) + 300, TShowStepRel 1)]
      /\ localStorage (browser s0) = localStorage (browser s)
      /\ network (browser s0) = network (browser s)
      /\ fireNext page s0 = Some (state_of (showStep page (i + 1) (afterSkip c i s))))
  /\ (i = total s - 1 ->
      showStep page i s = Done (completeTutorial (set_currentStep i s))
      /\ isActive (this s0) = false
      /\ localStorage (browser s0) !! "sclera_tutorial_completed" = Some "true"
      /\ network (browser s0) = network (browser s) ++ [completionRequest])
  /\ (forall k : nat,
        i + Z.of_nat k < total s ->
        (forall j, i <= j < i + Z.of_nat k -> missingAt page (tutorialSteps (this s)) j) ->
        foundAt page (tutorialSteps (this s)) (i + Z.of_nat k) ->
        (forall m, (m < k)%nat ->
           visibleStep (runTimers m page s0) = None
           /\ calloutView (runTimers m page s0) = Some v)
        /\ visibleStep (runTimers k page s0) = Some (i + Z.of_nat k + 1, total s)
        /\ currentStep (this (runTimers k page s0)) = i + Z.of_nat k
        /\ timers (browser (runTimers k page s0)) = [])
  /\ ((forall j, i <= j < total s -> missingAt page (tutorialSteps (this s)) j) ->
      let k := Z.to_nat (total s - 1 - i) in
      (forall m, (m <= k)%nat -> visibleStep (runTimers m page s0) = None)
      /\ localStorage (browser (runTimers k page s0)) !! "sclera_tutorial_completed"
         = Some "true"
      /\ network (browser (runTimers k page s0)) = network (browser s) ++ [completionRequest]
      /\ isActive (this (runTimers k page s0)) = false
      /\ currentStep (this (runTimers k page s0)) = total s - 1).
Proof.
  intros Hhold Ht Hi Hmiss s0.
  assert (Hlast : i = total s - 1 ->
            showStep page i s = Done (completeTutorial (set_currentStep i s))).
  { intros Hend. rewrite (showStep_missing page s i Hi Hmiss).
    apply nextStep_last. unfold total in *. destruct_state s. lia. }
  assert (Hcase : i < total s - 1 \/ i = total s - 1) by lia.
  split; [|split; [|split; [|split; [|split]]]].
  - destruct Hcase as [Hin|Hend].
    + by destruct (skip_once page s c v i Hhold Ht ltac:(lia) Hmiss) as (Hvis & _).
    + subst s0. rewrite (Hlast Hend). cbn [state_of].
      apply (completeTutorial_hidden _ c v).
      destruct Hhold as (Hc & Hel). split; [destruct_state s; done|exact Hel].
  - destruct Hcase as [Hin|Hend].
    + destruct (showStep_skips page s c v i Hhold Ht ltac:(lia) Hmiss)
        as (t0 & t1 & E & _ & _ & Hcur & _).
      subst s0. by rewrite E.
    + subst s0. rewrite (Hlast Hend). cbn [state_of].
      unfold completeTutorial, showCompletionMessage, endTutorial.
      destruct_refs s; reflexivity.
  - intros Hin.
    destruct (showStep_skips page s c v i Hhold Ht ltac:(lia) Hmiss)
      as (t0 & t1 & E & _ & Hview & _ & Htm & _).
    destruct (skip_once page s c v i Hhold Ht ltac:(lia) Hmiss)
      as (_ & Hfire & _ & _ & _ & _).
    assert (Hquiet : quiet s s0).
    { subst s0. rewrite (showStep_missing page s i Hi Hmiss).
      destruct Hhold as (Hc & _).
      rewrite (nextStep_inner (set_currentStep i s) c);
        [|unfold total in *; destruct_state s; lia|destruct_state s; done].
      cbn [state_of]. unfold quiet, setTimeout, classListRemoveActive, updElement.
      destruct_state s. by split. }
    destruct Hquiet as [Hl Hn].
    subst s0. rewrite E in *. cbn [state_of] in *. by repeat split.
  - intros Hend. split; [exact (Hlast Hend)|].
    subst s0. rewrite (Hlast Hend). cbn [state_of].
    destruct (completes_completeTutorial (set_currentStep i s)) as [Hl Hn].
    split; [unfold completeTutorial, showCompletionMessage, endTutorial;
            destruct_refs s; reflexivity|].
    split; [rewrite Hl; apply lookup_insert_eq|].
    rewrite Hn. destruct_state s. reflexivity.
  - intros k Hlt Hm Hfound.
    exact (skip_run page c k s v i Hhold Ht ltac:(lia) Hlt Hm Hfound).
  - intros Hall k.
    destruct (skip_to_end page c k s v i Hhold Ht ltac:(lia) ltac:(lia) Hall)
      as (Hm & (Hl & Hn) & Hact & Hcur).
    split; [exact Hm|]. split; [subst s0; rewrite Hl; apply lookup_insert_eq|].
    split; [exact Hn|]. split; [exact Hact|exact Hcur].
Qed.

(** The three steps where the third one has no target. *)
Definition pageWithoutThird : Page :=
  mkPage (Some "student")
    (fun sel => if String.eqb sel ".three" then None else Some (mkTarget 7 anyRect))
    (DOMRect.mk 0 0 320 180 180 320) 1280 720.

(** The tutorial on that page, its second step on screen. *)
Definition lastMissingAtSecond : State :=
  runTimers 1 pageWithoutThird
    (state_of (nextStep
       (runTimers 2 pageWithoutThird
          (set_tutorialSteps threeSteps (startTutorial pageWithoutThird returningVisitor))))).

(** The user has clicked Next there; the callback is about to call
    showStep(2). *)
Definition lastMissingAfterNext : State :=
  set_timers [] (state_of (nextStep lastMissingAtSecond)).

(** C3 as stated fails on a missing last step. With three steps of which
    the third has no target, "Step 2 of 3" is on screen; Next makes
    showStep(2) find nothing, and it does not skip forward to index 3: the
    tutorial completes on index 2, with the completed flag stored and the
    completion request sent, and no further step is ever shown. *)
Lemma missing_last_step_completes :
  visibleStep lastMissingAtSecond = Some (2, 3)
  /\ querySelector pageWithoutThird ".three" = None
  /\ visibleStep (state_of (showStep pageWithoutThird 2 lastMissingAfterNext)) = None
  /\ currentStep (this (state_of (showStep pageWithoutThird 2 lastMissingAfterNext))) = 2
  /\ isActive (this (state_of (showStep pageWithoutThird 2 lastMissingAfterNext))) = false
  /\ localStorage (browser (state_of (showStep pageWithoutThird 2 lastMissingAfterNext)))
     !! "sclera_tutorial_completed" = Some "true"
  /\ network (browser (state_of (showStep pageWithoutThird 2 lastMissingAfterNext)))
     = [completionRequest]
  /\ map visibleStep
       (timerTrace 10 pageWithoutThird (state_of (nextStep lastMissingAtSecond)))
     = [None; None; None; None; None; None].
Proof. vm_compute. repeat split. Qed.

Lemma missing_step_skips_or_completes_witness :
  visibleStep (runTimers 0 pageWithoutSecond
                 (state_of (showStep pageWithoutSecond 1 threeAfterNext))) = None
  /\ visibleStep (runTimers 1 pageWithoutSecond
                    (state_of (showStep pageWithoutSecond 1 threeAfterNext)))
     = Some (1 + Z.of_nat 1 + 1, total threeAfterNext)
  /\ isActive (this (state_of (showStep pageWithoutThird 2 lastMissingAfterNext))) = false.
Proof.
  pose (v := default calloutTemplate (calloutView threeAfterNext)).
  assert (Hhold : calloutHolds 1 v threeAfterNext).
  { split; [vm_compute; reflexivity|]. eexists.
    split; [vm_compute; reflexivity|]. split; vm_compute; reflexivity. }
  assert (Htm : timers (browser threeAfterNext) = []) by (vm_compute; reflexivity).
  assert (Hi : 0 <= 1 < total threeAfterNext) by (vm_compute; split; congruence).
  assert (Hmiss : missingAt pageWithoutSecond (tutorialSteps (this threeAfterNext)) 1)
    by (eexists; split; vm_compute; reflexivity).
  pose proof (missing_step_skips_or_completes pageWithoutSecond threeAfterNext 1 v 1
                Hhold Htm Hi Hmiss) as H.
  cbv zeta in H. destruct H as (_ & _ & _ & _ & Hrun & _).
  assert (Hlt : 1 + Z.of_nat 1 < total threeAfterNext) by (vm_compute; reflexivity).
  assert (Hmissing : forall j, 1 <= j < 1 + Z.of_nat 1 ->
                               missingAt pageWithoutSecond
                                 (tutorialSteps (this threeAfterNext)) j).
  { intros j Hj. assert (j = 1) as -> by lia. exact Hmiss. }
  assert (Hfound : foundAt pageWithoutSecond (tutorialSteps (this threeAfterNext))
                     (1 + Z.of_nat 1)).
  { eexists _, _. split; vm_compute; reflexivity. }
  destruct (Hrun 1%nat Hlt Hmissing Hfound) as (Hhidden & Hshown & _).
  split; [exact (proj1 (Hhidden 0%nat ltac:(lia)))|]. split; [exact Hshown|].
  pose (w := default calloutTemplate (calloutView lastMissingAfterNext)).
  assert (Hhold' : calloutHolds 1 w lastMissingAfterNext).
  { split; [vm_compute; reflexivity|]. eexists.
    split; [vm_compute; reflexivity|]. split; vm_compute; reflexivity. }
  assert (Htm' : timers (browser lastMissingAfterNext) = []) by (vm_compute; reflexivity).
  assert (Hi' : 0 <= 2 < total lastMissingAfterNext) by (vm_compute; split; congruence).
  assert (Hmiss' : missingAt pageWithoutThird (tutorialSteps (this lastMissingAfterNext)) 2)
    by (eexists; split; vm_compute; reflexivity).
  pose proof (missing_step_skips_or_completes pageWithoutThird lastMissingAfterNext 1 w 2
                Hhold' Htm' Hi' Hmiss') as H'.
  cbv zeta in H'. destruct H' as (_ & _ & _ & Hlast & _).
  assert (Hend : 2 = total lastMissingAfterNext - 1) by (vm_compute; reflexivity).
  exact (proj1 (proj2 (Hlast Hend))).
Defined.

End OnboardingEdges.
